(** * A shallow embedding of the DNSResolver package (DNSPacket.py and
    DNSResolver.py) and the verification of its specification.

    Conventions of the embedding:
    - a Python [bytes] value is a [list Z] whose elements are in [0, 255];
      indexing out of range raises, slicing truncates, as in Python;
    - a Python [str] is a Rocq [string]; its characters are the code points
      U+0000 .. U+00FF (Rocq's [ascii]);
    - code that may raise returns an [option]: [None] is "an exception was
      raised";
    - the cache dictionary [name -> (QTYPE -> list DNSRecord)] is a [gmap]. *)

From Stdlib Require Import ZArith List String Ascii Lia.
From stdpp Require Import base gmap strings list.

Open Scope Z_scope.

(* ------------------------------------------------------------------ *)
(** ** Enumerations of DNSPacket.py *)

Inductive QR := QR_QUERY | QR_RESPONSE.
Inductive OPCODE := OPCODE_QUERY | OPCODE_IQUERY | OPCODE_STATUS.
Inductive AA := AA_NOT_AUTHORITATIVE | AA_AUTHORITATIVE.
Inductive TC := TC_NOT_TRUNCATED | TC_TRUNCATED.
Inductive RD := RD_NO_RECURSION | RD_RECURSION.
Inductive RA := RA_NO_RECURSION_AVAILABLE | RA_RECURSION_AVAILABLE.
Inductive ZFLAG := Z_RESERVED.
Inductive AD := AD_NOT_AUTHENTICATED | AD_AUTHENTICATED.
Inductive CD := CD_NO_CHECK | CD_CHECK.
Inductive RCODE := NO_ERROR | FORMAT_ERROR | SERVER_FAILURE | NAME_ERROR
                 | NOT_IMPLEMENTED | REFUSED.
Inductive QTYPE := A | NS | CNAME | SOA | PTR | AAAA.
Inductive QCLASS := IN.

(** [.value] of each member *)
Definition QR_value (x : QR) : Z := match x with QR_QUERY => 0 | QR_RESPONSE => 1 end.
Definition OPCODE_value (x : OPCODE) : Z :=
  match x with OPCODE_QUERY => 0 | OPCODE_IQUERY => 1 | OPCODE_STATUS => 2 end.
Definition AA_value (x : AA) : Z :=
  match x with AA_NOT_AUTHORITATIVE => 0 | AA_AUTHORITATIVE => 1 end.
Definition TC_value (x : TC) : Z := match x with TC_NOT_TRUNCATED => 0 | TC_TRUNCATED => 1 end.
Definition RD_value (x : RD) : Z := match x with RD_NO_RECURSION => 0 | RD_RECURSION => 1 end.
Definition RA_value (x : RA) : Z :=
  match x with RA_NO_RECURSION_AVAILABLE => 0 | RA_RECURSION_AVAILABLE => 1 end.
Definition ZFLAG_value (x : ZFLAG) : Z := match x with Z_RESERVED => 0 end.
Definition AD_value (x : AD) : Z :=
  match x with AD_NOT_AUTHENTICATED => 0 | AD_AUTHENTICATED => 1 end.
Definition CD_value (x : CD) : Z := match x with CD_NO_CHECK => 0 | CD_CHECK => 1 end.
Definition RCODE_value (x : RCODE) : Z :=
  match x with
  | NO_ERROR => 0 | FORMAT_ERROR => 1 | SERVER_FAILURE => 2
  | NAME_ERROR => 3 | NOT_IMPLEMENTED => 4 | REFUSED => 5
  end.
Definition QTYPE_value (x : QTYPE) : Z :=
  match x with A => 1 | NS => 2 | CNAME => 5 | SOA => 6 | PTR => 12 | AAAA => 28 end.
Definition QCLASS_value (x : QCLASS) : Z := match x with IN => 1 end.

(** The enum call [E(v)]: the member of value [v], or ValueError. *)
Definition QR_of (v : Z) : option QR :=
  if v =? 0 then Some QR_QUERY else if v =? 1 then Some QR_RESPONSE else None.
Definition OPCODE_of (v : Z) : option OPCODE :=
  if v =? 0 then Some OPCODE_QUERY else if v =? 1 then Some OPCODE_IQUERY
  else if v =? 2 then Some OPCODE_STATUS else None.
Definition AA_of (v : Z) : option AA :=
  if v =? 0 then Some AA_NOT_AUTHORITATIVE else if v =? 1 then Some AA_AUTHORITATIVE else None.
Definition TC_of (v : Z) : option TC :=
  if v =? 0 then Some TC_NOT_TRUNCATED else if v =? 1 then Some TC_TRUNCATED else None.
Definition RD_of (v : Z) : option RD :=
  if v =? 0 then Some RD_NO_RECURSION else if v =? 1 then Some RD_RECURSION else None.
Definition RA_of (v : Z) : option RA :=
  if v =? 0 then Some RA_NO_RECURSION_AVAILABLE
  else if v =? 1 then Some RA_RECURSION_AVAILABLE else None.
Definition ZFLAG_of (v : Z) : option ZFLAG := if v =? 0 then Some Z_RESERVED else None.
Definition AD_of (v : Z) : option AD :=
  if v =? 0 then Some AD_NOT_AUTHENTICATED else if v =? 1 then Some AD_AUTHENTICATED else None.
Definition CD_of (v : Z) : option CD :=
  if v =? 0 then Some CD_NO_CHECK else if v =? 1 then Some CD_CHECK else None.
Definition RCODE_of (v : Z) : option RCODE :=
  if v =? 0 then Some NO_ERROR else if v =? 1 then Some FORMAT_ERROR
  else if v =? 2 then Some SERVER_FAILURE else if v =? 3 then Some NAME_ERROR
  else if v =? 4 then Some NOT_IMPLEMENTED else if v =? 5 then Some REFUSED else None.
Definition QTYPE_of (v : Z) : option QTYPE :=
  if v =? 1 then Some A else if v =? 2 then Some NS else if v =? 5 then Some CNAME
  else if v =? 6 then Some SOA else if v =? 12 then Some PTR
  else if v =? 28 then Some AAAA else None.
Definition QCLASS_of (v : Z) : option QCLASS := if v =? 1 then Some IN else None.

#[global] Instance QTYPE_eq_dec : EqDecision QTYPE.
Proof. solve_decision. Defined.
#[global] Instance QCLASS_eq_dec : EqDecision QCLASS.
Proof. solve_decision. Defined.
#[global] Instance RCODE_eq_dec : EqDecision RCODE.
Proof. solve_decision. Defined.

(** QTYPE is a dictionary key in the cache. *)
#[global] Instance QTYPE_countable : Countable QTYPE.
Proof.
  refine (inj_countable' (fun t => Z.to_nat (QTYPE_value t))
            (fun n => default A (QTYPE_of (Z.of_nat n))) _).
  by intros []; reflexivity.
Defined.

(* ------------------------------------------------------------------ *)
(** ** struct.pack / struct.unpack, big endian *)

(** [struct.pack(">H", v)] (struct.error out of range) *)
Definition pack_u16 (v : Z) : option (list Z) :=
  if (0 <=? v) && (v <? 65536) then Some [v / 256; v mod 256] else None.

(** [struct.pack(">I", v)] *)
Definition pack_u32 (v : Z) : option (list Z) :=
  if (0 <=? v) && (v <? 4294967296)
  then Some [v / 16777216; (v / 65536) mod 256; (v / 256) mod 256; v mod 256]
  else None.

(** Python slicing [data[i:j]] *)
Definition slice (data : list Z) (i j : nat) : list Z := firstn (j - i) (skipn i data).

(** [struct.unpack(">H", b)] and [">I"], on exactly 2 and 4 bytes *)
Definition unpack_u16 (b : list Z) : option Z :=
  match b with [hi; lo] => Some (hi * 256 + lo) | _ => None end.
Definition unpack_u32 (b : list Z) : option Z :=
  match b with [b0; b1; b2; b3] => Some (((b0 * 256 + b1) * 256 + b2) * 256 + b3)
  | _ => None end.

(** [struct.unpack(">HHHHHH", b)]: the slice must hold exactly 12 bytes. *)
Definition unpack_6u16 (b : list Z) : option (Z * Z * Z * Z * Z * Z) :=
  match b with
  | [a0; a1; b0; b1; c0; c1; d0; d1; e0; e1; f0; f1] =>
      Some (a0 * 256 + a1, b0 * 256 + b1, c0 * 256 + c1,
            d0 * 256 + d1, e0 * 256 + e1, f0 * 256 + f1)
  | _ => None
  end.

(* ------------------------------------------------------------------ *)
(** ** DNSHeader *)

Record DNSHeader := mkHeader {
  id : Z; qr : QR; opcode : OPCODE; aa : AA; tc : TC; rd : RD; ra : RA;
  z : ZFLAG; ad : AD; cd : CD; rcode : RCODE;
  qdcount : Z; ancount : Z; nscount : Z; arcount : Z }.

(** [DNSHeader()] with every default argument *)
Definition default_header : DNSHeader :=
  mkHeader 0 QR_QUERY OPCODE_QUERY AA_NOT_AUTHORITATIVE TC_NOT_TRUNCATED
    RD_NO_RECURSION RA_NO_RECURSION_AVAILABLE Z_RESERVED AD_NOT_AUTHENTICATED
    CD_NO_CHECK NO_ERROR 0 0 0 0.

(** The flags word of [DNSHeader.toBytes] *)
Definition header_flags (h : DNSHeader) : Z :=
  Z.lor (Z.shiftl (QR_value (qr h)) 15)
  (Z.lor (Z.shiftl (OPCODE_value (opcode h)) 11)
  (Z.lor (Z.shiftl (AA_value (aa h)) 10)
  (Z.lor (Z.shiftl (TC_value (tc h)) 9)
  (Z.lor (Z.shiftl (RD_value (rd h)) 8)
  (Z.lor (Z.shiftl (RA_value (ra h)) 7)
  (Z.lor (Z.shiftl (ZFLAG_value (z h)) 6)
  (Z.lor (Z.shiftl (AD_value (ad h)) 5)
  (Z.lor (Z.shiftl (CD_value (cd h)) 4)
         (RCODE_value (rcode h)))))))))).

(** [DNSHeader.toBytes]: [struct.pack(">HHHHHH", ...)] *)
Definition header_toBytes (h : DNSHeader) : option (list Z) :=
  b0 ← pack_u16 (id h);
  b1 ← pack_u16 (header_flags h);
  b2 ← pack_u16 (qdcount h);
  b3 ← pack_u16 (ancount h);
  b4 ← pack_u16 (nscount h);
  b5 ← pack_u16 (arcount h);
  Some (b0 ++ b1 ++ b2 ++ b3 ++ b4 ++ b5).

(** [DNSHeader.fromBytes], with the masks and shifts of the source *)
Definition header_fromBytes (full_data : list Z) : option DNSHeader :=
  '(i, flags, qd, an, ns, ar) ← unpack_6u16 (slice full_data 0 12);
  qr' ← QR_of (Z.shiftr (Z.land flags 32768) 15);
  opcode' ← OPCODE_of (Z.shiftr (Z.land flags 30720) 11);
  aa' ← AA_of (Z.shiftr (Z.land flags 1024) 10);
  tc' ← TC_of (Z.shiftr (Z.land flags 512) 9);
  rd' ← RD_of (Z.shiftr (Z.land flags 256) 8);
  ra' ← RA_of (Z.shiftr (Z.land flags 128) 7);
  z' ← ZFLAG_of (Z.shiftr (Z.land flags 112) 6);      (* 0b0000000001110000 *)
  ad' ← AD_of (Z.shiftr (Z.land flags 8) 5);          (* 0b0000000000001000 *)
  cd' ← CD_of (Z.shiftr (Z.land flags 4) 4);          (* 0b0000000000000100 *)
  rcode' ← RCODE_of (Z.land flags 15);
  Some (mkHeader i qr' opcode' aa' tc' rd' ra' z' ad' cd' rcode' qd an ns ar).

(* ------------------------------------------------------------------ *)
(** ** Python str helpers *)

Local Open Scope string_scope.
Local Open Scope Z_scope.

(** [s.split(".")] *)
Fixpoint str_split (sep : ascii) (s : string) : list string :=
  match s with
  | EmptyString => [""]
  | String c s' =>
      let r := str_split sep s' in
      if Ascii.eqb c sep then "" :: r
      else match r with
           | h :: t => String c h :: t
           | [] => [String c ""]
           end
  end.

(** [sep.join(l)] *)
Fixpoint str_join (sep : string) (l : list string) : string :=
  match l with
  | [] => ""
  | [x] => x
  | x :: l' => String.append x (String.append sep (str_join sep l'))
  end.

(** [str.encode()] (UTF-8) of a code point in U+0000 .. U+00FF *)
Definition utf8_char (c : ascii) : list Z :=
  let v := Z.of_nat (nat_of_ascii c) in
  if v <? 128 then [v]
  else [Z.lor 192 (Z.shiftr v 6); Z.lor 128 (Z.land v 63)].

Fixpoint str_encode (s : string) : list Z :=
  match s with
  | EmptyString => []
  | String c s' => (utf8_char c ++ str_encode s')%list
  end.

(** [bytes.decode()] (strict UTF-8). Sequences that decode to code points
    above U+00FF lie outside the [string] type of the embedding and are
    treated as a decoding failure, like every invalid sequence. *)
Fixpoint utf8_decode (b : list Z) : option string :=
  match b with
  | [] => Some ""
  | x :: b' =>
      if (0 <=? x) && (x <? 128) then
        s ← utf8_decode b'; Some (String (ascii_of_nat (Z.to_nat x)) s)
      else if (x =? 194) || (x =? 195) then
        match b' with
        | y :: b'' =>
            if (128 <=? y) && (y <? 192) then
              s ← utf8_decode b'';
              Some (String (ascii_of_nat (Z.to_nat (Z.lor (Z.shiftl (Z.land x 31) 6)
                                                        (Z.land y 63)))) s)
            else None
        | [] => None
        end
      else None
  end.

(** [len(str)]: number of characters *)
Definition py_len (s : string) : Z := Z.of_nat (String.length s).

(* ------------------------------------------------------------------ *)
(** ** Name codec: [DNSComponent._nameToBytes] and [_readNameFromBytes] *)

(** [int.to_bytes(1, "big")] (OverflowError from 256 on) *)
Definition to_bytes1 (v : Z) : option (list Z) :=
  if (0 <=? v) && (v <? 256) then Some [v] else None.

Fixpoint parts_toBytes (parts : list string) : option (list Z) :=
  match parts with
  | [] => Some []
  | part :: ps =>
      l ← to_bytes1 (py_len part);
      rest ← parts_toBytes ps;
      Some (l ++ str_encode part ++ rest)%list
  end.

Definition _nameToBytes (name : string) : option (list Z) :=
  parts_toBytes (str_split "." name).

(** The Python recursion limit bounds the pointer chain that
    [_readNameFromBytes] can follow before RecursionError. *)
Definition py_recursion_limit : nat := 1000.

(** The while loop of [_readNameFromBytes(full_data, offset, limitBytes)],
    run with [fuel]: every iteration reads the byte at
    [offset + start_offset] and advances [start_offset], so more iterations
    than bytes in [full_data] cannot happen. [read_ptr] is the recursive
    call [_readNameFromBytes(full_data, target)] made at a pointer. *)
Fixpoint read_name_loop (read_ptr : nat -> option (string * nat))
    (full_data : list Z) (offset : nat) (limitBytes : Z)
    (fuel : nat) (start_offset : nat) (name : string) : option (string * nat) :=
  match fuel with
  | O => None
  | S fuel' =>
    b ← nth_error full_data (offset + start_offset);
    if negb (b =? 0) && ((limitBytes =? -1) || (Z.of_nat start_offset <? limitBytes))
    then
      let lenght := b in
      let start_offset := S start_offset in
      if lenght =? 192 then
        target ← nth_error full_data (offset + start_offset);
        '(ptr_name, _) ← read_ptr (Z.to_nat target);
        Some (String.append name ptr_name, S start_offset)
      else
        label ← utf8_decode (slice full_data (offset + start_offset)
                                   (offset + start_offset + Z.to_nat lenght));
        read_name_loop read_ptr full_data offset limitBytes fuel'
          (start_offset + Z.to_nat lenght)%nat
          (String.append name (String.append label "."))
    else Some (name, S start_offset)
  end.

(** [_readNameFromBytes] with [depth] frames of Python stack left for the
    recursive call at a pointer (RecursionError when they run out). *)
Fixpoint read_name (depth : nat) (full_data : list Z) (offset : nat) (limitBytes : Z)
  : option (string * nat) :=
  match depth with
  | O => None
  | S depth' =>
      read_name_loop (fun target => read_name depth' full_data target (-1))
        full_data offset limitBytes (S (length full_data)) O ""
  end.

Definition _readNameFromBytes (full_data : list Z) (offset : nat) (limitBytes : Z)
  : option (string * nat) :=
  read_name py_recursion_limit full_data offset limitBytes.

(** Layout of a run of labels in a buffer: at [pos] a length byte [n]
    (neither 0 nor the pointer byte 0xC0) followed by the [n] bytes of the
    label, and so on. *)
Inductive labels_at (data : list Z) : nat -> list (list Z) -> Prop :=
  | labels_at_nil pos : labels_at data pos []
  | labels_at_cons pos l ls :
      nth_error data pos = Some (Z.of_nat (length l)) ->
      (0 < length l)%nat ->
      Z.of_nat (length l) <> 192 ->
      slice data (S pos) (S pos + length l) = l ->
      labels_at data (S pos + length l) ls ->
      labels_at data pos (l :: ls).

(** Bytes taken by a run of labels: a length byte plus the label each. *)
Definition labels_size (ls : list (list Z)) : nat :=
  fold_right (fun l acc => S (length l) + acc)%nat O ls.

(** The labels, each followed by a dot. *)
Definition concat_dots (strs : list string) : string :=
  fold_right (fun s acc => String.append s (String.append "." acc)) "" strs.

Definition is_byte (b : Z) : Prop := 0 <= b < 256.

(** The integer fields of a header fit the 16-bit fields of the wire
    format (struct.pack raises otherwise). *)
Definition u16 (v : Z) : Prop := 0 <= v < 65536.
Definition header_counts_u16 (h : DNSHeader) : Prop :=
  u16 (id h) /\ u16 (qdcount h) /\ u16 (ancount h) /\ u16 (nscount h) /\ u16 (arcount h).

(** [str.lower()] on a code point of U+0000 .. U+00FF: A-Z and the
    Latin-1 capitals U+00C0 .. U+00DE (but U+00D7) move 32 code points up. *)
Definition lower_char (c : ascii) : ascii :=
  let n := nat_of_ascii c in
  if ((65 <=? n) && (n <=? 90))%nat
     || ((192 <=? n) && (n <=? 222) && negb (n =? 215))%nat
  then ascii_of_nat (n + 32) else c.

Fixpoint py_lower (s : string) : string :=
  match s with
  | EmptyString => EmptyString
  | String c s' => String (lower_char c) (py_lower s')
  end.

(** [s.lstrip(".")] and [s.rstrip(".")] *)
Fixpoint lstrip_dots (s : string) : string :=
  match s with
  | EmptyString => EmptyString
  | String c s' => if Ascii.eqb c "." then lstrip_dots s' else s
  end.

Fixpoint rstrip_dots (s : string) : string :=
  match s with
  | EmptyString => EmptyString
  | String c s' =>
      let r := rstrip_dots s' in
      match r with
      | EmptyString => if Ascii.eqb c "." then EmptyString else String c EmptyString
      | _ => String c r
      end
  end.

(** [s.strip(".")] *)
Definition strip_dots (s : string) : string := lstrip_dots (rstrip_dots s).

(** [DNSResolver.__sanitize_domain] *)
Definition sanitize_domain (domain : string) : string :=
  String.append (strip_dots (py_lower domain)) ".".

(* ------------------------------------------------------------------ *)
(** ** Records, questions and packets *)

Record SOARdata := mkSOA {
  mname : string; rname : string; serial : Z; refresh : Z; retry : Z;
  expire : Z; minimum : Z }.

(** The [rdata] attribute of a DNSRecord is a [str] (a dotted quad, an IPv6
    text or a domain name) or, for SOA, a [SOARdata]. *)
Inductive Rdata := RStr (s : string) | RSOA (soa : SOARdata).

#[global] Instance SOARdata_eq_dec : EqDecision SOARdata.
Proof. solve_decision. Defined.
#[global] Instance Rdata_eq_dec : EqDecision Rdata.
Proof. solve_decision. Defined.

(** A DNSRecord; [creation_time] is the [datetime.now()] taken by the
    constructor, here a time stamp. *)
Record DNSRecord := mkRecord {
  name : string; qtype : QTYPE; ttl : Z; rdata : Rdata; qclass : QCLASS;
  creation_time : Z }.

(** [DNSRecord.__eq__]: name, type, class, ttl and rdata, not the creation
    time. [SOARdata.__eq__] compares all seven fields; a [str] never equals
    a [SOARdata]. *)
Definition record_eqb (r1 r2 : DNSRecord) : bool :=
  bool_decide (name r1 = name r2) && bool_decide (qtype r1 = qtype r2)
  && bool_decide (qclass r1 = qclass r2) && bool_decide (ttl r1 = ttl r2)
  && bool_decide (rdata r1 = rdata r2).

(** A DNSQuestion: [qname], [qtype], [qclass]. *)
Record DNSQuestion := mkQuestion { qname : string; q_qtype : QTYPE; q_qclass : QCLASS }.

Definition question_eqb (q1 q2 : DNSQuestion) : bool :=
  bool_decide (qname q1 = qname q2) && bool_decide (q_qtype q1 = q_qtype q2)
  && bool_decide (q_qclass q1 = q_qclass q2).

#[global] Instance QR_eq_dec : EqDecision QR.
Proof. solve_decision. Defined.
#[global] Instance OPCODE_eq_dec : EqDecision OPCODE.
Proof. solve_decision. Defined.
#[global] Instance AA_eq_dec : EqDecision AA.
Proof. solve_decision. Defined.
#[global] Instance TC_eq_dec : EqDecision TC.
Proof. solve_decision. Defined.
#[global] Instance RD_eq_dec : EqDecision RD.
Proof. solve_decision. Defined.
#[global] Instance RA_eq_dec : EqDecision RA.
Proof. solve_decision. Defined.
#[global] Instance ZFLAG_eq_dec : EqDecision ZFLAG.
Proof. solve_decision. Defined.
#[global] Instance AD_eq_dec : EqDecision AD.
Proof. solve_decision. Defined.
#[global] Instance CD_eq_dec : EqDecision CD.
Proof. solve_decision. Defined.
#[global] Instance DNSHeader_eq_dec : EqDecision DNSHeader.
Proof. solve_decision. Defined.

Record DNSPacket := mkPacketRaw {
  header : DNSHeader; question : list DNSQuestion; answer_records : list DNSRecord;
  authority_records : list DNSRecord; additional_records : list DNSRecord }.

(** [DNSPacket.__init__]: the four counts of the header are set to the
    lengths of the sections. *)
Definition DNSPacket_new (h : DNSHeader) (qs : list DNSQuestion)
    (an ns ar : list DNSRecord) : DNSPacket :=
  mkPacketRaw
    (mkHeader (id h) (qr h) (opcode h) (aa h) (tc h) (rd h) (ra h) (z h) (ad h) (cd h)
       (rcode h) (Z.of_nat (length qs)) (Z.of_nat (length an))
       (Z.of_nat (length ns)) (Z.of_nat (length ar)))
    qs an ns ar.

(** [list.__eq__] with the elements' [__eq__] *)
Fixpoint list_eqb {T} (eqb : T -> T -> bool) (l1 l2 : list T) : bool :=
  match l1, l2 with
  | [], [] => true
  | x :: l1', y :: l2' => eqb x y && list_eqb eqb l1' l2'
  | _, _ => false
  end.

(** [DNSPacket.__eq__] (the header's [__eq__] compares all fields) *)
Definition packet_eqb (p1 p2 : DNSPacket) : bool :=
  bool_decide (header p1 = header p2)
  && list_eqb question_eqb (question p1) (question p2)
  && list_eqb record_eqb (answer_records p1) (answer_records p2)
  && list_eqb record_eqb (authority_records p1) (authority_records p2)
  && list_eqb record_eqb (additional_records p1) (additional_records p2).

(* ------------------------------------------------------------------ *)
(** ** The record cache of DNSResolver *)

(** [self.__cached_records]: sanitized name -> QTYPE -> list of records *)
Abbreviation cache := (gmap string (gmap QTYPE (list DNSRecord))).

(** One iteration of [__cache_records]: create the entries if missing,
    append the record unless an equal one ([__eq__]) is already there. *)
Definition cache_record (c : cache) (record : DNSRecord) : cache :=
  let sanitized_name := sanitize_domain (name record) in
  let by_type := default ∅ (c !! sanitized_name) in
  let lst := default [] (by_type !! qtype record) in
  let lst' := if existsb (record_eqb record) lst then lst else (lst ++ [record])%list in
  <[sanitized_name := <[qtype record := lst']> by_type]> c.

(** [DNSResolver.__cache_records] *)
Definition cache_records (c : cache) (records : list DNSRecord) : cache :=
  fold_left cache_record records c.

(** [DNSResolver.__check_cache] *)
Definition check_cache (c : cache) (fqdn : string) (t : QTYPE) : option (list DNSRecord) :=
  by_type ← c !! sanitize_domain fqdn; by_type !! t.

(** The loop of [__check_nearest_ns] over [split[i:]] for i = 0, 1, ...:
    the first truthy (non-empty) list of NS records. *)
Fixpoint nearest_ns_loop (c : cache) (parts : list string) : option (list DNSRecord) :=
  match parts with
  | [] => None
  | _ :: rest =>
      match check_cache c (str_join "." parts) NS with
      | Some (r :: rs) => Some (r :: rs)
      | _ => nearest_ns_loop c rest
      end
  end.

(** [DNSResolver.__check_nearest_ns] *)
Definition check_nearest_ns (c : cache) (fqdn : string) : option (list DNSRecord) :=
  nearest_ns_loop c (str_split "." (sanitize_domain fqdn)).

(** No truthy NS list is cached for a name. *)
Definition no_ns (c : cache) (n : string) : Prop :=
  check_cache c n NS = None \/ check_cache c n NS = Some [].

(* ------------------------------------------------------------------ *)
(** ** Text renderings used by the RDATA decoder *)

Definition digit_char (d : Z) : ascii := ascii_of_nat (Z.to_nat (48 + d)).
Definition hex_char (d : Z) : ascii :=
  if d <? 10 then digit_char d else ascii_of_nat (Z.to_nat (87 + d)).

(** ['%d' % n] for n >= 0, digits from the most significant one *)
Fixpoint dec_digits (fuel : nat) (n : Z) (acc : string) : string :=
  match fuel with
  | O => acc
  | S fuel' =>
      let acc' := String (digit_char (n mod 10)) acc in
      if n <? 10 then acc' else dec_digits fuel' (n / 10) acc'
  end.

(** [str(n)] *)
Definition py_str_int (n : Z) : string :=
  if n <? 0 then String "-" (dec_digits 64 (- n) "") else dec_digits 64 n "".

(** ['%x' % n] for n >= 0 *)
Fixpoint hex_digits (fuel : nat) (n : Z) (acc : string) : string :=
  match fuel with
  | O => acc
  | S fuel' =>
      let acc' := String (hex_char (n mod 16)) acc in
      if n <? 16 then acc' else hex_digits fuel' (n / 16) acc'
  end.

(** [bytes.hex()] *)
Fixpoint bytes_hex (b : list Z) : string :=
  match b with
  | [] => ""
  | x :: b' => String (hex_char (x / 16)) (String (hex_char (x mod 16)) (bytes_hex b'))
  end.

(** [s[:-1]] *)
Definition drop_last_char (s : string) : string :=
  String.substring 0 (String.length s - 1) s.

(** [ipaddress._BaseV6._parse_hextet]: at most four hex digits, not empty *)
Definition hex_value (c : ascii) : option Z :=
  let n := Z.of_nat (nat_of_ascii c) in
  if (48 <=? n) && (n <=? 57) then Some (n - 48)
  else if (97 <=? n) && (n <=? 102) then Some (n - 87)
  else if (65 <=? n) && (n <=? 70) then Some (n - 55)
  else None.

Fixpoint hex_string_value (s : string) (acc : Z) : option Z :=
  match s with
  | EmptyString => Some acc
  | String c s' => d ← hex_value c; hex_string_value s' (acc * 16 + d)
  end.

Definition parse_hextet (s : string) : option Z :=
  if (String.length s =? 0)%nat || (4 <? String.length s)%nat then None
  else hex_string_value s 0.

Fixpoint hextets_value (parts : list string) (acc : Z) : option Z :=
  match parts with
  | [] => Some acc
  | p :: ps => v ← parse_hextet p; hextets_value ps (acc * 65536 + v)
  end.

(** [ipaddress._BaseV6._ip_int_from_string] on the strings of hex digits
    and colons that the AAAA decoder builds (no '%' scope, no IPv4 tail) *)
Definition ip6_int_from_string (ip_str : string) : option Z :=
  if String.eqb ip_str "" then None else
  let parts := str_split ":" ip_str in
  let n := length parts in
  if (n <? 3)%nat || (9 <? n)%nat then None else
  let inner := firstn (n - 2) (drop 1 parts) in
  let empties := filter (fun i => String.eqb (nth i parts "") "") (seq 1 (n - 2)) in
  let first_empty := String.eqb (nth 0 parts "") "" in
  let last_empty := String.eqb (nth (n - 1) parts "") "" in
  match empties with
  | [] =>
      if negb (n =? 8)%nat || first_empty || last_empty then None
      else hextets_value parts 0
  | [skip_index] =>
      let parts_hi := if first_empty then (skip_index - 1)%nat else skip_index in
      let parts_lo := if last_empty then (n - skip_index - 2)%nat else (n - skip_index - 1)%nat in
      if first_empty && negb (parts_hi =? 0)%nat then None
      else if last_empty && negb (parts_lo =? 0)%nat then None
      else if (8 <=? parts_hi + parts_lo)%nat then None
      else
        hi ← hextets_value (firstn parts_hi parts) 0;
        lo ← hextets_value (skipn (n - parts_lo) parts) 0;
        Some ((hi * 2 ^ (16 * Z.of_nat (8 - parts_hi))) + lo)
  | _ => None
  end.

(** [ipaddress._BaseV6._compress_hextets]: the first longest run (of two
    or more) of "0" hextets becomes the empty hextet *)
Fixpoint best_zero_run (hs : list string) (index : nat) (cur_start cur_len : nat)
    (best_start best_len : nat) : nat * nat :=
  match hs with
  | [] => (best_start, best_len)
  | h :: hs' =>
      if String.eqb h "0" then
        let cur_start := if (cur_len =? 0)%nat then index else cur_start in
        let cur_len := S cur_len in
        if (best_len <? cur_len)%nat
        then best_zero_run hs' (S index) cur_start cur_len cur_start cur_len
        else best_zero_run hs' (S index) cur_start cur_len best_start best_len
      else best_zero_run hs' (S index) 0 0 best_start best_len
  end.

Definition compress_hextets (hextets : list string) : list string :=
  let '(start, len) := best_zero_run hextets 0 0 0 0 0 in
  if (1 <? len)%nat then
    let end_ := (start + len)%nat in
    let hs := if (end_ =? length hextets)%nat then (hextets ++ [""])%list else hextets in
    let hs := (firstn start hs ++ [""] ++ skipn end_ hs)%list in
    if (start =? 0)%nat then "" :: hs else hs
  else hextets.

(** [IPv6Address(ip_str).compressed] *)
Definition ipv6_compressed (ip_str : string) : option string :=
  ip ← ip6_int_from_string ip_str;
  let hextets := map (fun i => hex_digits 8 (Z.land (Z.shiftr ip (16 * (7 - Z.of_nat i))) 65535) "")
                     (seq 0 8) in
  Some (str_join ":" (compress_hextets hextets)).

(* ------------------------------------------------------------------ *)
(** ** Packet encoder *)

(** [DNSQuestion.toBytes] *)
Definition question_toBytes (q : DNSQuestion) : option (list Z) :=
  n ← _nameToBytes (qname q);
  t ← pack_u16 (QTYPE_value (q_qtype q));
  cl ← pack_u16 (QCLASS_value (q_qclass q));
  Some (n ++ t ++ cl)%list.

(** [DNSRecord.toBytes]: RDATA is only encoded for NS, CNAME and PTR
    (a name, [str.split] of a SOARdata raises AttributeError); any other
    type raises NotImplementedError. *)
Definition record_toBytes (r : DNSRecord) : option (list Z) :=
  n ← _nameToBytes (name r);
  rd ← (if bool_decide (qtype r = NS) || bool_decide (qtype r = CNAME)
           || bool_decide (qtype r = PTR)
        then match rdata r with RStr s => _nameToBytes s | RSOA _ => None end
        else None);
  t ← pack_u16 (QTYPE_value (qtype r));
  cl ← pack_u16 (QCLASS_value (qclass r));
  tl ← pack_u32 (ttl r);
  rl ← pack_u16 (Z.of_nat (length rd));
  Some (n ++ t ++ cl ++ tl ++ rl ++ rd)%list.

Fixpoint concat_toBytes {T} (f : T -> option (list Z)) (l : list T) : option (list Z) :=
  match l with
  | [] => Some []
  | x :: l' => b ← f x; rest ← concat_toBytes f l'; Some (b ++ rest)%list
  end.

(** [DNSPacket.toBytes] *)
Definition packet_toBytes (p : DNSPacket) : option (list Z) :=
  h ← header_toBytes (header p);
  qs ← concat_toBytes question_toBytes (question p);
  an ← concat_toBytes record_toBytes (answer_records p);
  ns ← concat_toBytes record_toBytes (authority_records p);
  ar ← concat_toBytes record_toBytes (additional_records p);
  Some (h ++ qs ++ an ++ ns ++ ar)%list.

(* ------------------------------------------------------------------ *)
(** ** Packet decoder *)

(** [struct.unpack(">HHIH", b)] on exactly 10 bytes *)
Definition unpack_HHIH (b : list Z) : option (Z * Z * Z * Z) :=
  match b with
  | [t0; t1; c0; c1; l0; l1; l2; l3; r0; r1] =>
      Some (t0 * 256 + t1, c0 * 256 + c1,
            ((l0 * 256 + l1) * 256 + l2) * 256 + l3, r0 * 256 + r1)
  | _ => None
  end.

(** [struct.unpack(">IIIII", b)] on exactly 20 bytes *)
Definition unpack_5u32 (b : list Z) : option (Z * Z * Z * Z * Z) :=
  a ← unpack_u32 (slice b 0 4); b' ← unpack_u32 (slice b 4 8);
  c ← unpack_u32 (slice b 8 12); d ← unpack_u32 (slice b 12 16);
  e ← unpack_u32 (slice b 16 20);
  if (length b =? 20)%nat then Some (a, b', c, d, e) else None.

(** [DNSQuestion.fromBytes(full_data, count)], from offset 12 *)
Fixpoint questions_loop (full_data : list Z) (count : nat) (offset : nat)
  : option (list DNSQuestion * nat) :=
  match count with
  | O => Some ([], offset)
  | S count' =>
      '(qn, len) ← _readNameFromBytes full_data offset (-1);
      let offset := (offset + len)%nat in
      '(t, cl) ← (match slice full_data offset (offset + 4) with
                  | [t0; t1; c0; c1] => Some (t0 * 256 + t1, c0 * 256 + c1)
                  | _ => None
                  end);
      let offset := (offset + 4)%nat in
      t' ← QTYPE_of t; cl' ← QCLASS_of cl;
      '(rest, offset) ← questions_loop full_data count' offset;
      Some (mkQuestion qn t' cl' :: rest, offset)
  end.

Definition question_fromBytes (full_data : list Z) (count : nat)
  : option (list DNSQuestion * nat) :=
  questions_loop full_data count 12.

(** [SOARdata.fromBytes(full_data, offset)]: returns the record and the
    offset reached (not a length) *)
Definition soa_fromBytes (full_data : list Z) (offset : nat) : option (SOARdata * nat) :=
  '(mn, len) ← _readNameFromBytes full_data offset (-1);
  let offset := (offset + len)%nat in
  '(rn, len) ← _readNameFromBytes full_data offset (-1);
  let offset := (offset + len)%nat in
  '(se, rf, rt, ex, mi) ← unpack_5u32 (slice full_data offset (offset + 20));
  Some (mkSOA mn rn se rf rt ex mi, (offset + 20)%nat).

(** The A branch: [str(full_data[offset + i]) + "."] for i in 0..3, the
    last dot dropped *)
Definition a_rdata (full_data : list Z) (offset : nat) : option string :=
  b0 ← nth_error full_data offset; b1 ← nth_error full_data (offset + 1);
  b2 ← nth_error full_data (offset + 2); b3 ← nth_error full_data (offset + 3);
  Some (str_join "." (map py_str_int [b0; b1; b2; b3])).

(** The AAAA branch: the hex of [full_data[offset+i : offset+i+2]] for i
    in range(0, rdlen, 2), joined by colons, then compressed by ipaddress *)
Definition aaaa_rdata (full_data : list Z) (offset : nat) (rdlen : Z) : option string :=
  let groups := map (fun i => bytes_hex (slice full_data (offset + 2 * i) (offset + 2 * i + 2)))
                    (seq 0 (Z.to_nat ((rdlen + 1) / 2))) in
  ipv6_compressed (str_join ":" groups).

(** [DNSRecord.fromBytes(full_data, count, offset)]. Each record gets the
    creation time [now]. On a type outside the enumeration the source
    reaches [QTYPE(qtype)], which raises ValueError. *)
Fixpoint records_loop (now : Z) (full_data : list Z) (count : nat) (offset : nat)
  : option (list DNSRecord * nat) :=
  match count with
  | O => Some ([], offset)
  | S count' =>
      '(nm, len) ← _readNameFromBytes full_data offset (-1);
      let offset := (offset + len)%nat in
      '(t, cl, tl, rdlen) ← unpack_HHIH (slice full_data offset (offset + 10));
      let offset := (offset + 10)%nat in
      '(rd, len) ←
        (if (t =? QTYPE_value NS) || (t =? QTYPE_value CNAME) || (t =? QTYPE_value PTR) then
           '(s, len) ← _readNameFromBytes full_data offset rdlen; Some (RStr s, len)
         else if t =? QTYPE_value A then
           s ← a_rdata full_data offset; Some (RStr s, Z.to_nat rdlen)
         else if t =? QTYPE_value AAAA then
           s ← aaaa_rdata full_data offset rdlen; Some (RStr s, Z.to_nat rdlen)
         else if t =? QTYPE_value SOA then
           '(soa, len) ← soa_fromBytes full_data offset; Some (RSOA soa, len)
         else None);
      let offset := (offset + len)%nat in
      t' ← QTYPE_of t; cl' ← QCLASS_of cl;
      '(rest, offset) ← records_loop now full_data count' offset;
      Some (mkRecord nm t' tl rd cl' now :: rest, offset)
  end.

(** [DNSPacket.fromBytes(data)]; [now] is the time the records are built *)
Definition packet_fromBytes (now : Z) (data : list Z) : option DNSPacket :=
  h ← header_fromBytes data;
  '(qs, offset) ← question_fromBytes data (Z.to_nat (qdcount h));
  '(an, offset) ← records_loop now data (Z.to_nat (ancount h)) offset;
  '(ns, offset) ← records_loop now data (Z.to_nat (nscount h)) offset;
  '(ar, offset) ← records_loop now data (Z.to_nat (arcount h)) offset;
  Some (DNSPacket_new h qs an ns ar).

(* ------------------------------------------------------------------ *)
(** ** Well-formed packets *)

(** An ASCII label of 1 to 63 characters without a dot *)
Fixpoint ascii_no_dot (s : string) : bool :=
  match s with
  | EmptyString => true
  | String c s' => (nat_of_ascii c <? 128)%nat && negb (Ascii.eqb c ".") && ascii_no_dot s'
  end.

Definition label_ok (l : string) : bool :=
  (0 <? String.length l)%nat && (String.length l <? 64)%nat && ascii_no_dot l.

(** A name in canonical form: one or more labels, each followed by a dot,
    at most 255 characters. *)
Definition wf_name (s : string) : Prop :=
  exists labels, labels <> [] /\ Forall (fun l => label_ok l = true) labels /\
    s = concat_dots labels /\ (String.length s < 256)%nat.

Definition wf_question (q : DNSQuestion) : Prop := wf_name (qname q).

(** A record the encoder accepts: NS, CNAME or PTR with a name as RDATA,
    a 32-bit TTL. *)
Definition wf_record (r : DNSRecord) : Prop :=
  (qtype r = NS \/ qtype r = CNAME \/ qtype r = PTR) /\
  wf_name (name r) /\
  (exists s, rdata r = RStr s /\ wf_name s) /\
  0 <= ttl r < 4294967296.

(** The same record with another creation time, as the decoder builds it *)
Definition with_time (now : Z) (r : DNSRecord) : DNSRecord :=
  mkRecord (name r) (qtype r) (ttl r) (rdata r) (qclass r) now.

(** The wire form of a label run followed by the root byte *)
Definition label_bytes (l : string) : list Z := Z.of_nat (String.length l) :: str_encode l.
Definition labels_bytes (labels : list string) : list Z := concat (map label_bytes labels).

(** Sample packets for the packet codec *)
Definition a_record_packet : DNSPacket :=
  DNSPacket_new default_header [mkQuestion "example.com." A IN]
    [mkRecord "example.com." A 300 (RStr "93.184.216.34") IN 0] [] [].

Definition example_header : DNSHeader :=
  mkHeader 4660 QR_RESPONSE OPCODE_QUERY AA_AUTHORITATIVE TC_NOT_TRUNCATED RD_RECURSION
    RA_RECURSION_AVAILABLE Z_RESERVED AD_NOT_AUTHENTICATED CD_NO_CHECK NO_ERROR 0 0 0 0.

Definition example_question : DNSQuestion := mkQuestion "example.com." NS IN.

Definition example_ns : DNSRecord :=
  mkRecord "example.com." NS 3600 (RStr "a.iana-servers.net.") IN 0.

(* ------------------------------------------------------------------ *)
(** ** DNSResolver: send_query and recursive_query *)

(** The outcome of a call: a returned value, an exception that propagates
    to the caller, or [OutOfFuel] when the fuel of the embedding (not a
    Python resource) runs out. *)
Inductive outcome (A : Type) : Type :=
  | Ret (a : A)
  | Raise
  | OutOfFuel.
Arguments Ret {A} a.
Arguments Raise {A}.
Arguments OutOfFuel {A}.

(** The resolver threads [self.__cached_records] through every call. *)
Definition M (A : Type) : Type := cache -> outcome A * cache.

Definition mret {A} (a : A) : M A := fun c => (Ret a, c).
Definition mraise {A} : M A := fun c => (Raise, c).
Definition mlift {A} (o : outcome A) : M A := fun c => (o, c).
Definition mgets {A} (f : cache -> A) : M A := fun c => (Ret (f c), c).
Definition mmodify (f : cache -> cache) : M unit := fun c => (Ret tt, f c).
Definition mbindM {A B} (m : M A) (k : A -> M B) : M B :=
  fun c =>
    match m c with
    | (Ret a, c') => k a c'
    | (Raise, c') => (Raise, c')
    | (OutOfFuel, c') => (OutOfFuel, c')
    end.

Notation "'let!' x := m 'in' k" := (mbindM m (fun x => k))
  (at level 200, x name, m at level 100, k at level 200).

(** A Python value passed where the source expects a domain name: a [str],
    or another object (a DNSRecord or a SOARdata), on which
    [domain.lower()] raises AttributeError. *)
Inductive pyarg := AStr (s : string) | AObj.

Definition arg_of_rdata (r : Rdata) : pyarg :=
  match r with RStr s => AStr s | RSOA _ => AObj end.

(** [self.__sanitize_domain(domain)] *)
Definition sanitize_arg (a : pyarg) : outcome string :=
  match a with AStr s => Ret (sanitize_domain s) | AObj => Raise end.

(** [DNSPacket(answer_records=records)]: the default [DNSHeader()] with the
    counts of the sections. The default header object is shared between
    such packets, but the resolver never writes its flags. *)
Definition cache_packet (records : list DNSRecord) : DNSPacket :=
  DNSPacket_new default_header [] records [] [].

(** [for ns in names: records = self.__check_cache(ns, A); if records:
    servers += [r.rdata for r in records]] *)
Fixpoint cached_servers (c : cache) (names : list pyarg) : outcome (list Rdata) :=
  match names with
  | [] => Ret []
  | AObj :: _ => Raise
  | AStr s :: rest =>
      match cached_servers c rest with
      | Ret more =>
          match check_cache c s A with
          | Some ((_ :: _) as records) => Ret (map rdata records ++ more)%list
          | _ => Ret more
          end
      | o => o
      end
  end.

(** The NS names of a referral: the RDATA of NS records, the MNAME of SOA
    records ([str.mname] raises AttributeError) *)
Fixpoint ns_list (records : list DNSRecord) : outcome (list pyarg) :=
  match records with
  | [] => Ret []
  | r :: rest =>
      match ns_list rest with
      | Ret more =>
          if bool_decide (qtype r = NS) then Ret (arg_of_rdata (rdata r) :: more)
          else if bool_decide (qtype r = SOA) then
            match rdata r with
            | RSOA soa => Ret (AStr (mname soa) :: more)
            | RStr _ => Raise
            end
          else Ret more
      | o => o
      end
  end.

Definition mcached_servers (names : list pyarg) : M (list Rdata) :=
  fun c => (cached_servers c names, c).

Section Resolver.

(** The network: [net server request] is the response datagram of
    [server] to [request], or [None] when [sock.recv] times out. *)
Variable net : string -> list Z -> option (list Z).
(** The time at which the records of a response are built *)
Variable now : Z.
(** [self.__root_srv[IPVersion.IPV4]]: the A records of the root servers *)
Variable root_ipv4 : list DNSRecord.

(** The loop over [servers] of [send_query]: a server equal to "" is
    skipped, a timeout moves on to the next server, any other exception
    (an undecodable response, a host that is not a string) propagates. *)
Fixpoint send_loop (request : list Z) (servers : list Rdata) : outcome (option DNSPacket) :=
  match servers with
  | [] => Ret None
  | RStr "" :: rest => send_loop request rest
  | RStr server :: rest =>
      match net server request with
      | None => send_loop request rest
      | Some buffer =>
          match packet_fromBytes now buffer with
          | Some p => Ret (Some p)
          | None => Raise
          end
      end
  | RSOA _ :: _ => Raise
  end.

(** [send_query(fqdn, qtype, servers)] as [recursive_query] calls it: a QTYPE
    member and the default [rd=NO_RECURSION] ([send_query_py] below takes
    [rd] and any [qtype]). With no servers the root server records themselves
    are used as hosts, and [sock.sendto] raises TypeError on the first of them. *)
Definition send_query (fqdn : string) (qt : QTYPE) (servers : list Rdata)
  : outcome (option DNSPacket) :=
  match packet_toBytes (DNSPacket_new default_header
                          [mkQuestion (sanitize_domain fqdn) qt IN] [] [] []) with
  | None => Raise
  | Some request =>
      match servers with
      | [] => match root_ipv4 with [] => Ret None | _ => Raise end
      | _ => send_loop request servers
      end
  end.

(** [for ns in names: records = self.recursive_query(ns, A, limit, count + 1)
    .answer_records; if records: servers += ...; break]; [rec] is the
    nested call, and [None.answer_records] raises AttributeError. *)
Fixpoint resolve_ns_servers (rec : pyarg -> M (option DNSPacket)) (names : list pyarg)
  : M (list Rdata) :=
  match names with
  | [] => mret []
  | ns :: rest =>
      let! r := rec ns in
      match r with
      | None => mraise
      | Some p =>
          match answer_records p with
          | [] => resolve_ns_servers rec rest
          | records => mret (map rdata records)
          end
      end
  end.

(** Lines 124 to 140: the first servers, from the nearest cached NS set or
    the root servers *)
Definition initial_servers (rec : pyarg -> M (option DNSPacket)) (fqdn : string)
  : M (list Rdata) :=
  let! nearest := mgets (fun c => check_nearest_ns c fqdn) in
  match nearest with
  | None | Some [] => mret (map rdata root_ipv4)
  | Some nss =>
      let! servers := mcached_servers (map (fun ns => arg_of_rdata (rdata ns)) nss) in
      match servers with
      | [] => resolve_ns_servers rec (map (fun _ => AObj) nss)
      | _ => mret servers
      end
  end.

(** The [while servers:] loop (lines 142 to 177), run for at most [fuel]
    iterations *)
Fixpoint query_loop (rec : pyarg -> M (option DNSPacket)) (fqdn : string) (qt : QTYPE)
    (servers : list Rdata) (fuel : nat) : M (option DNSPacket) :=
  match servers with
  | [] => mret None
  | _ =>
    match fuel with
    | O => fun c => (OutOfFuel, c)
    | S fuel' =>
      let! response := mlift (send_query fqdn qt servers) in
      match response with
      | None => mret None
      | Some p =>
        if bool_decide (rcode (header p) <> NO_ERROR) then mret None else
        let! _ := mmodify (fun c => cache_records (cache_records (cache_records c
                   (answer_records p)) (authority_records p)) (additional_records p)) in
        if 0 <? ancount (header p) then mret (Some p) else
        let! names := mlift (ns_list (authority_records p ++ additional_records p)) in
        match names with
        | [] => mret None
        | _ =>
          let! cached := mcached_servers names in
          match cached with
          | [] =>
              let! servers' := resolve_ns_servers rec names in
              query_loop rec fqdn qt servers' fuel'
          | _ => query_loop rec fqdn qt cached fuel'
          end
        end
      end
    end
  end.

(** [recursive_query(fqdn, qtype, recursion_limit, recursion_count)].
    [depth] bounds the nesting of calls in the embedding, [fuel] the
    iterations of each [while] loop. *)
Fixpoint recursive_query (depth fuel : nat) (fqdn : pyarg) (qt : QTYPE)
    (recursion_limit recursion_count : Z) : M (option DNSPacket) :=
  match depth with
  | O => fun c => (OutOfFuel, c)
  | S depth' =>
    let rec := fun ns => recursive_query depth' fuel ns A recursion_limit
                           (recursion_count + 1) in
    if recursion_limit <=? recursion_count then mret None else
    let! fqdn := mlift (sanitize_arg fqdn) in
    let! cached := mgets (fun c => check_cache c fqdn qt) in
    match cached with
    | Some ((_ :: _) as records) => mret (Some (cache_packet records))
    | _ =>
      let! servers := initial_servers rec fqdn in
      query_loop rec fqdn qt servers fuel
    end
  end.

End Resolver.

(** Sample networks and caches for the resolver: a network that never
    answers, a root server answering NAME_ERROR, caches with one record. *)
Definition no_net (server : string) (request : list Z) : option (list Z) := None.
Definition root_a : DNSRecord := mkRecord "a.root-servers.net." A 518400 (RStr "198.41.0.4") IN 0.
Definition nxdomain_header : DNSHeader :=
  mkHeader 0 QR_RESPONSE OPCODE_QUERY AA_AUTHORITATIVE TC_NOT_TRUNCATED RD_NO_RECURSION
    RA_NO_RECURSION_AVAILABLE Z_RESERVED AD_NOT_AUTHENTICATED CD_NO_CHECK NAME_ERROR 0 0 0 0.
Definition nxdomain_packet : DNSPacket :=
  DNSPacket_new nxdomain_header [mkQuestion "nonexistent.example." A IN] [] [] [].
Definition nxdomain_net (server : string) (request : list Z) : option (list Z) :=
  if String.eqb server "198.41.0.4" then packet_toBytes nxdomain_packet else None.
Definition example_a : DNSRecord := mkRecord "example.com." A 300 (RStr "93.184.216.34") IN 0.
Definition example_a_cache : cache := cache_records ∅ [example_a].
Definition root_ns : DNSRecord := mkRecord "." NS 518400 (RStr "a.root-servers.net.") IN 0.
Definition root_ns_cache : cache := cache_records ∅ [root_ns].

(** A header with the AD flag set, as in the flags word 0x0120 (RD, AD). *)
Definition header_with_ad : DNSHeader :=
  mkHeader 4660 QR_QUERY OPCODE_QUERY AA_NOT_AUTHORITATIVE TC_NOT_TRUNCATED
    RD_RECURSION RA_NO_RECURSION_AVAILABLE Z_RESERVED AD_AUTHENTICATED
    CD_NO_CHECK NO_ERROR 1 0 0 0.

(** An NS record with a TTL of one hour *)
Definition ns_record (owner target : string) : DNSRecord :=
  mkRecord owner NS 3600 (RStr target) IN 0.

(* ------------------------------------------------------------------ *)
(** ** Further definitions: SOA encoding, cache shape, the root hints loader *)

(** [SOARdata.toBytes] *)
Definition soa_toBytes (s : SOARdata) : option (list Z) :=
  m ← _nameToBytes (mname s);
  r ← _nameToBytes (rname s);
  b0 ← pack_u32 (serial s); b1 ← pack_u32 (refresh s); b2 ← pack_u32 (retry s);
  b3 ← pack_u32 (expire s); b4 ← pack_u32 (minimum s);
  Some (m ++ r ++ b0 ++ b1 ++ b2 ++ b3 ++ b4)%list.

Definition u32 (v : Z) : Prop := 0 <= v < 4294967296.

(** An SOA RDATA the encoder accepts and the decoder reads back *)
Definition wf_soa (s : SOARdata) : Prop :=
  wf_name (mname s) /\ wf_name (rname s) /\ u32 (serial s) /\ u32 (refresh s) /\
  u32 (retry s) /\ u32 (expire s) /\ u32 (minimum s).

Definition soa_wire : list Z :=
  [0; 0; 6; 0; 1; 0; 0; 14; 16; 0; 22; 0; 0;
   0; 0; 0; 1; 0; 0; 7; 8; 0; 0; 3; 132; 0; 9; 58; 128; 0; 0; 1; 44].

Definition mx_wire : list Z := [0; 0; 15; 0; 1; 0; 0; 14; 16; 0; 0].

(** [self.__cached_records[k][t]] when both keys are present *)
Definition cache_lookup (c : cache) (k : string) (t : QTYPE) : option (list DNSRecord) :=
  by_type ← c !! k; by_type !! t.

(** No two records of a list are equal for [DNSRecord.__eq__]. *)
Fixpoint nodup_records (l : list DNSRecord) : bool :=
  match l with
  | [] => true
  | r :: l' => negb (existsb (record_eqb r) l') && nodup_records l'
  end.

(** The shape of the cache that [__cache_records] builds: every list is
    non-empty, holds records whose sanitized name and type are its keys,
    and holds no two equal records. *)
Definition wf_cache (c : cache) : Prop :=
  forall k t l, cache_lookup c k t = Some l ->
    l <> [] /\ Forall (fun r => sanitize_domain (name r) = k /\ qtype r = t) l /\
    nodup_records l = true.

(** Every list of [c] is a prefix of the list under the same keys in [c']. *)
Definition cache_le (c c' : cache) : Prop :=
  forall k t l, cache_lookup c k t = Some l -> exists l', cache_lookup c' k t = Some (l ++ l')%list.

(** A server [send_query] passes over: the empty string, or a host whose
    [sock.recv] times out *)
Definition skippable (net : string -> list Z -> option (list Z)) (request : list Z)
    (server : Rdata) : Prop :=
  server = RStr "" \/ exists host, server = RStr host /\ net host request = None.

(** [DNSResolver.reverse_lookup_v4] *)
Definition reverse_lookup_v4 net now root_ipv4 depth fuel (ipv4 : string)
  : M (option DNSPacket) :=
  recursive_query net now root_ipv4 depth fuel
    (AStr (String.append (str_join "." (rev (str_split "." ipv4))) ".in-addr.arpa"))
    PTR 10 0.

(** [str.isspace()] on a code point of U+0000 .. U+00FF: the separators
    of [str.split()] *)
Definition py_isspace (c : ascii) : bool :=
  let n := nat_of_ascii c in
  ((9 <=? n) && (n <=? 13))%nat || ((28 <=? n) && (n <=? 32))%nat
  || (n =? 133)%nat || (n =? 160)%nat.

(** The first word of [s] (up to the first separator) and the words after it *)
Fixpoint split_ws_go (s : string) : string * list string :=
  match s with
  | EmptyString => ("", [])
  | String c s' =>
      let '(w, ws) := split_ws_go s' in
      if py_isspace c then ("", if String.eqb w "" then ws else w :: ws)
      else (String c w, ws)
  end.

(** [s.split()]: the maximal runs of non-separators *)
Definition py_split_ws (s : string) : list string :=
  let '(w, ws) := split_ws_go s in if String.eqb w "" then ws else w :: ws.

(** [line.startswith(";")] *)
Definition starts_with_semicolon (s : string) : bool :=
  match s with String c _ => Ascii.eqb c ";" | EmptyString => false end.

(** [QTYPE[w.upper()]] for a word [w] of [str.lower(line)]: the upper-case
    form of a lower-case string of U+0000 .. U+00FF is one of the member
    names exactly when the string is that name in lower case (KeyError
    otherwise). *)
Definition QTYPE_key (w : string) : option QTYPE :=
  if String.eqb w "a" then Some A else if String.eqb w "ns" then Some NS
  else if String.eqb w "cname" then Some CNAME else if String.eqb w "soa" then Some SOA
  else if String.eqb w "ptr" then Some PTR else if String.eqb w "aaaa" then Some AAAA
  else None.

Definition digit_value (c : ascii) : option Z :=
  let n := Z.of_nat (nat_of_ascii c) in
  if (48 <=? n) && (n <=? 57) then Some (n - 48) else None.

(** The digits of [int(s)], single underscores allowed between digits *)
Fixpoint int_digits (s : string) (acc : Z) : option Z :=
  match s with
  | EmptyString => Some acc
  | String c s' =>
      match digit_value c with
      | Some d => int_digits s' (acc * 10 + d)
      | None =>
          if Ascii.eqb c "_" then
            match s' with
            | String c2 s'' =>
                match digit_value c2 with
                | Some d => int_digits s'' (acc * 10 + d)
                | None => None
                end
            | EmptyString => None
            end
          else None
      end
  end.

Definition int_unsigned (s : string) : option Z :=
  match s with
  | String c s' => d ← digit_value c; int_digits s' d
  | EmptyString => None
  end.

(** [int(s)] on a word without white space (ValueError otherwise) *)
Definition py_int (s : string) : option Z :=
  match s with
  | String c s' =>
      if Ascii.eqb c "+" then int_unsigned s'
      else if Ascii.eqb c "-" then v ← int_unsigned s'; Some (- v)
      else int_unsigned s
  | EmptyString => None
  end.

(** The [for line in f] loop of [__loadRootNS]: the NS targets collected so
    far and the cache; every other record of four fields is cached with
    the creation time [now]. *)
Fixpoint load_lines (now : Z) (lines : list string) (root_srv_domains : list string)
    (c : cache) : option (list string * cache) :=
  match lines with
  | [] => Some (root_srv_domains, c)
  | line :: rest =>
      if starts_with_semicolon line || String.eqb line "" then
        load_lines now rest root_srv_domains c
      else
        match py_split_ws (py_lower line) with
        | [r0; r1; r2; r3] =>
            if String.eqb r2 "ns" then load_lines now rest (root_srv_domains ++ [r3])%list c
            else
              t ← QTYPE_key r2;
              ttl' ← py_int r1;
              load_lines now rest root_srv_domains
                (cache_records c [mkRecord r0 t ttl' (RStr r3) IN now])
        | _ => load_lines now rest root_srv_domains c
        end
  end.

(** The [for domain in root_srv_domains] loop: [list += None] raises
    TypeError. *)
Fixpoint root_servers (c : cache) (domains : list string) (v4 v6 : list DNSRecord)
  : option (list DNSRecord * list DNSRecord) :=
  match domains with
  | [] => Some (v4, v6)
  | d :: rest =>
      a ← check_cache c d A;
      aaaa ← check_cache c d AAAA;
      root_servers c rest (v4 ++ a)%list (v6 ++ aaaa)%list
  end.

(** [DNSResolver(root_file)]: the lines of the file in, the root server
    lists [__root_srv[IPV4]], [__root_srv[IPV6]] and the cache out *)
Definition DNSResolver_init (now : Z) (lines : list string)
  : option (list DNSRecord * list DNSRecord * cache) :=
  '(domains, c) ← load_lines now lines [] ∅;
  '(v4, v6) ← root_servers c domains [] [];
  Some (v4, v6, c).

(** A few lines of the root hints file *)
Definition nl : string := String (ascii_of_nat 10) "".
Definition named_root_sample : list string :=
  [String.append ";       This file holds the information on root name servers" nl;
   String.append ".                        3600000      NS    A.ROOT-SERVERS.NET." nl;
   String.append "A.ROOT-SERVERS.NET.      3600000      A     198.41.0.4" nl;
   String.append "A.ROOT-SERVERS.NET.      3600000      AAAA  2001:503:ba3e::2:30" nl].


(* ------------------------------------------------------------------ *)
(** ** Address literals: Python 3.11's [ipaddress], as reverse_lookup_v6 uses it

    The AAAA decoder above uses [ip6_int_from_string], a model of the same
    parser restricted to the strings that decoder builds; this one follows
    the library on any string, scope ids and IPv4 tails included. *)


(** [ch in s] for a one-character string [ch] *)
Fixpoint str_has (ch : ascii) (s : string) : bool :=
  match s with
  | EmptyString => false
  | String c s' => Ascii.eqb c ch || str_has ch s'
  end.

(** [s.partition(sep)] for a one-character separator: the text before the
    first [sep], whether [sep] occurs, the text after it *)
Fixpoint str_partition (sep : ascii) (s : string) : string * bool * string :=
  match s with
  | EmptyString => ("", false, "")
  | String c s' =>
      if Ascii.eqb c sep then ("", true, s')
      else let '(before, found, after) := str_partition sep s' in
           (String c before, found, after)
  end.

(** [s.replace(ch, "")] for a one-character string [ch] *)
Fixpoint str_remove (ch : ascii) (s : string) : string :=
  match s with
  | EmptyString => EmptyString
  | String c s' => if Ascii.eqb c ch then str_remove ch s' else String c (str_remove ch s')
  end.

(** A character of [_HEX_DIGITS] (0-9, A-F, a-f) and its value *)
Definition hex_digit_value (c : ascii) : option Z :=
  let n := Z.of_nat (nat_of_ascii c) in
  if (48 <=? n) && (n <=? 57) then Some (n - 48)
  else if (65 <=? n) && (n <=? 70) then Some (n - 55)
  else if (97 <=? n) && (n <=? 102) then Some (n - 87)
  else None.

(** An ASCII decimal digit ([str.isascii() and str.isdigit()]) and its value *)
Definition dec_digit_value (c : ascii) : option Z :=
  let n := Z.of_nat (nat_of_ascii c) in
  if (48 <=? n) && (n <=? 57) then Some (n - 48) else None.

(** The value of a string of digits in base [b]; [None] on another character *)
Fixpoint digits_value (digit : ascii -> option Z) (b : Z) (s : string) (acc : Z) : option Z :=
  match s with
  | EmptyString => Some acc
  | String c s' => d ← digit c; digits_value digit b s' (acc * b + d)
  end.

(** [_BaseV4._parse_octet(octet_str)] *)
Definition _parse_octet (octet_str : string) : option Z :=
  match octet_str with
  | EmptyString => None
  | String c0 _ =>
      v ← digits_value dec_digit_value 10 octet_str 0;
      if (3 <? String.length octet_str)%nat then None
      else if negb (String.eqb octet_str "0") && Ascii.eqb c0 "0" then None
      else if 255 <? v then None
      else Some v
  end.

(** [int.from_bytes(map(_parse_octet, octets), "big")] *)
Fixpoint octets_value (octets : list string) (acc : Z) : option Z :=
  match octets with
  | [] => Some acc
  | o :: rest => v ← _parse_octet o; octets_value rest (acc * 256 + v)
  end.

(** [_BaseV4._ip_int_from_string(ip_str)] *)
Definition v4_ip_int_from_string (ip_str : string) : option Z :=
  if String.eqb ip_str "" then None else
  let octets := str_split "." ip_str in
  if negb (length octets =? 4)%nat then None
  else octets_value octets 0.

(** [IPv4Address(address)._ip] for a string [address] *)
Definition IPv4Address (address : string) : option Z :=
  if str_has "/" address then None else v4_ip_int_from_string address.

(** [_BaseV6._parse_hextet(hextet_str)]: hex digits only, at most four of
    them, and [int("", 16)] raises ValueError *)
Definition _parse_hextet (hextet_str : string) : option Z :=
  v ← digits_value hex_digit_value 16 hextet_str 0;
  if (4 <? String.length hextet_str)%nat then None
  else if String.eqb hextet_str "" then None
  else Some v.

(** ['%x' % n] for [0 <= n]: lower-case hexadecimal without leading zeros *)
Fixpoint hex_digits_rev (fuel : nat) (n : Z) : string :=
  match fuel with
  | O => EmptyString
  | S fuel' =>
      if n =? 0 then EmptyString
      else String.append (hex_digits_rev fuel' (n / 16)) (String (hex_char (n mod 16)) EmptyString)
  end.

Definition format_x (n : Z) : string :=
  if n =? 0 then "0" else hex_digits_rev 64 n.

(** ['%032x' % n]: the same digits padded with zeros to 32 characters *)
Definition format_032x (n : Z) : string :=
  let s := format_x n in
  String.append (String.concat "" (repeat "0" (32 - String.length s))) s.

(** The [for i in range(1, len(parts) - 1)] loop looking for the one
    empty part that marks [::]; [None] when there are two (AddressValueError). *)
Fixpoint find_skip (i : nat) (interior : list string) (skip_index : option nat)
  : option (option nat) :=
  match interior with
  | [] => Some skip_index
  | p :: rest =>
      if String.eqb p "" then
        match skip_index with
        | Some _ => None
        | None => find_skip (S i) rest (Some i)
        end
      else find_skip (S i) rest skip_index
  end.

(** [ip_int <<= 16; ip_int |= _parse_hextet(part)] over [parts] in order *)
Fixpoint shift_hextets (ip_int : Z) (parts : list string) : option Z :=
  match parts with
  | [] => Some ip_int
  | p :: rest => h ← _parse_hextet p; shift_hextets (Z.lor (Z.shiftl ip_int 16) h) rest
  end.

(** [_BaseV6._ip_int_from_string(ip_str)] (the [_HEXTET_COUNT] is 8) *)
Definition v6_ip_int_from_string (ip_str : string) : option Z :=
  if String.eqb ip_str "" then None else
  let parts := str_split ":" ip_str in
  if (length parts <? 3)%nat then None else
  parts ← (let last := List.last parts "" in
           if str_has "." last then
             ipv4_int ← IPv4Address last;
             Some (removelast parts ++
                   [format_x (Z.land (Z.shiftr ipv4_int 16) 65535);
                    format_x (Z.land ipv4_int 65535)])%list
           else Some parts);
  let n := length parts in
  if (9 <? n)%nat then None else
  skip_index ← find_skip 1 (firstn (n - 2) (tl parts)) None;
  bounds ← (match skip_index with
            | Some k =>
                let parts_hi := Z.of_nat k in
                let parts_lo := Z.of_nat n - Z.of_nat k - 1 in
                let parts_hi := if String.eqb (List.hd "" parts) "" then parts_hi - 1 else parts_hi in
                if String.eqb (List.hd "" parts) "" && negb (parts_hi =? 0) then None else
                let parts_lo := if String.eqb (List.last parts "") "" then parts_lo - 1 else parts_lo in
                if String.eqb (List.last parts "") "" && negb (parts_lo =? 0) then None else
                let parts_skipped := 8 - (parts_hi + parts_lo) in
                if parts_skipped <? 1 then None
                else Some (parts_hi, parts_lo, parts_skipped)
            | None =>
                if negb (n =? 8)%nat then None
                else if String.eqb (List.hd "" parts) "" then None
                else if String.eqb (List.last parts "") "" then None
                else Some (Z.of_nat n, 0, 0)
            end);
  let '(parts_hi, parts_lo, parts_skipped) := bounds in
  ip_int ← shift_hextets 0 (firstn (Z.to_nat parts_hi) parts);
  shift_hextets (Z.shiftl ip_int (16 * parts_skipped)) (skipn (n - Z.to_nat parts_lo) parts).

(** [_BaseV6._split_scope_id(ip_str)] *)
Definition _split_scope_id (ip_str : string) : option (string * option string) :=
  let '(addr, sep, scope_id) := str_partition "%" ip_str in
  if negb sep then Some (addr, None)
  else if String.eqb scope_id "" || str_has "%" scope_id then None
  else Some (addr, Some scope_id).

(** An [IPv6Address] object: [_ip] and [_scope_id] *)
Record IPv6 := mkIPv6 { _ip : Z; _scope_id : option string }.

(** [IPv6Address(address)] for a string [address]; [None] is
    AddressValueError *)
Definition IPv6Address (address : string) : option IPv6 :=
  if str_has "/" address then None else
  '(addr_str, scope_id) ← _split_scope_id address;
  ip ← v6_ip_int_from_string addr_str;
  Some (mkIPv6 ip scope_id).

(** [_BaseV6._compress_hextets(hextets)] *)
Fixpoint zero_runs (index : Z) (hextets : list string)
    (best_start best_len start len : Z) : Z * Z :=
  match hextets with
  | [] => (best_start, best_len)
  | h :: rest =>
      if String.eqb h "0" then
        let len := len + 1 in
        let start := if start =? -1 then index else start in
        if best_len <? len then zero_runs (index + 1) rest start len start len
        else zero_runs (index + 1) rest best_start best_len start len
      else zero_runs (index + 1) rest best_start best_len (-1) 0
  end.

Definition _compress_hextets (hextets : list string) : list string :=
  let '(best_start, best_len) := zero_runs 0 hextets (-1) 0 (-1) 0 in
  if 1 <? best_len then
    let best_end := best_start + best_len in
    let hextets := if best_end =? Z.of_nat (length hextets) then (hextets ++ [""])%list
                   else hextets in
    let hextets := (firstn (Z.to_nat best_start) hextets ++ [""] ++
                    skipn (Z.to_nat best_end) hextets)%list in
    if best_start =? 0 then "" :: hextets else hextets
  else hextets.

(** [hex_str[x:x+4] for x in range(0, 32, 4)] *)
Definition quads (hex_str : string) : list string :=
  map (fun i => substring (4 * i) 4 hex_str) (seq 0 8).

(** [_BaseV6._string_from_ip_int(ip_int)] for [0 <= ip_int < 2^128] *)
Definition _string_from_ip_int (ip_int : Z) : string :=
  let hextets := map (fun q => format_x (default 0 (digits_value hex_digit_value 16 q 0)))
                   (quads (format_032x ip_int)) in
  str_join ":" (_compress_hextets hextets).

(** [str(IPv6Address)]: the compressed form, then [%scope_id] if any *)
Definition IPv6_str (a : IPv6) : string :=
  let ip_str := _string_from_ip_int (_ip a) in
  match _scope_id a with
  | Some s => if String.eqb s "" then ip_str else String.append ip_str (String "%" s)
  | None => ip_str
  end.

(** [.exploded]: [_explode_shorthand_ip_string] parses [str(self)] again,
    scope id included *)
Definition exploded (a : IPv6) : option string :=
  ip_int ← v6_ip_int_from_string (IPv6_str a);
  Some (str_join ":" (quads (format_032x ip_int))).

(* ------------------------------------------------------------------ *)
(** ** The public methods called with any Python value

    The [Resolver] section above models [send_query] and [recursive_query]
    as the resolver itself calls them: a QTYPE member and [rd=NO_RECURSION].
    Here [send_query] takes its [rd] parameter, and a [qtype] may also be a
    [str], as main.py's custom query passes it. *)

(** The [qtype] argument of [send_query] and [recursive_query] as a Python
    value: a QTYPE member, or a [str] as main.py's custom query passes it
    ([input()] is never mapped to a QTYPE). *)
Inductive pyqtype := QEnum (t : QTYPE) | QStr (s : string).

(** [self.__check_cache(fqdn, qtype)]: the per-name dictionaries are keyed
    by QTYPE members, which no [str] equals *)
Definition check_cache_py (c : cache) (fqdn : string) (qtype : pyqtype) : option (list DNSRecord) :=
  match qtype with
  | QEnum t => check_cache c fqdn t
  | QStr _ => None
  end.

(** [DNSHeader(rd=rd)] *)
Definition header_rd (rd_flag : RD) : DNSHeader :=
  mkHeader 0 QR_QUERY OPCODE_QUERY AA_NOT_AUTHORITATIVE TC_NOT_TRUNCATED
    rd_flag RA_NO_RECURSION_AVAILABLE Z_RESERVED AD_NOT_AUTHENTICATED
    CD_NO_CHECK NO_ERROR 0 0 0 0.

(** [DNSPacket(dnsheader, [DNSQuestion(name, qtype)], [], [], []).toBytes()]:
    with a [str] qtype, [DNSQuestion.toBytes] raises AttributeError on
    [self.qtype.value] *)
Definition request_toBytes (rd_flag : RD) (name : string) (qtype : pyqtype) : option (list Z) :=
  match qtype with
  | QEnum t => packet_toBytes (DNSPacket_new (header_rd rd_flag) [mkQuestion name t IN] [] [] [])
  | QStr _ => None
  end.

Section ResolverPy.

Variable net : string -> list Z -> option (list Z).
Variable now : Z.
Variable root_ipv4 : list DNSRecord.

(** The public [send_query(fqdn, qtype, servers, rd)] *)
Definition send_query_py (fqdn : string) (qtype : pyqtype) (servers : list Rdata) (rd_flag : RD)
  : outcome (option DNSPacket) :=
  match request_toBytes rd_flag (sanitize_domain fqdn) qtype with
  | None => Raise
  | Some request =>
      match servers with
      | [] => match root_ipv4 with [] => Ret None | _ => Raise end
      | _ => send_loop net now request servers
      end
  end.

(** The [while servers:] loop of [recursive_query] for any [qtype] value *)
Fixpoint query_loop_py (rec : pyarg -> M (option DNSPacket)) (fqdn : string) (qtype : pyqtype)
    (servers : list Rdata) (fuel : nat) : M (option DNSPacket) :=
  match servers with
  | [] => mret None
  | _ =>
    match fuel with
    | O => fun c => (OutOfFuel, c)
    | S fuel' =>
      let! response := mlift (send_query_py fqdn qtype servers RD_NO_RECURSION) in
      match response with
      | None => mret None
      | Some p =>
        if bool_decide (rcode (header p) <> NO_ERROR) then mret None else
        let! _ := mmodify (fun c => cache_records (cache_records (cache_records c
                   (answer_records p)) (authority_records p)) (additional_records p)) in
        if 0 <? ancount (header p) then mret (Some p) else
        let! names := mlift (ns_list (authority_records p ++ additional_records p)) in
        match names with
        | [] => mret None
        | _ =>
          let! cached := mcached_servers names in
          match cached with
          | [] =>
              let! servers' := resolve_ns_servers rec names in
              query_loop_py rec fqdn qtype servers' fuel'
          | _ => query_loop_py rec fqdn qtype cached fuel'
          end
        end
      end
    end
  end.

(** [recursive_query(fqdn, qtype, recursion_limit, recursion_count)] called
    with any [qtype] value; the nested calls for NS names pass [QTYPE.A]. *)
Definition recursive_query_py (depth fuel : nat) (fqdn : pyarg) (qtype : pyqtype)
    (recursion_limit recursion_count : Z) : M (option DNSPacket) :=
  match depth with
  | O => fun c => (OutOfFuel, c)
  | S depth' =>
    let rec := fun ns => recursive_query net now root_ipv4 depth' fuel ns A recursion_limit
                           (recursion_count + 1) in
    if recursion_limit <=? recursion_count then mret None else
    let! fqdn := mlift (sanitize_arg fqdn) in
    let! cached := mgets (fun c => check_cache_py c fqdn qtype) in
    match cached with
    | Some ((_ :: _) as records) => mret (Some (cache_packet records))
    | _ =>
      let! servers := initial_servers root_ipv4 rec fqdn in
      query_loop_py rec fqdn qtype servers fuel
    end
  end.

(** [reverse_lookup_v6(ipv6)]: AddressValueError of [IPv6Address(ipv6)] or
    of [.exploded] propagates *)
Definition reverse_lookup_v6 (depth fuel : nat) (ipv6 : string) : M (option DNSPacket) :=
  let! addr := mlift (match IPv6Address ipv6 with Some a => Ret a | None => Raise end) in
  let! decompressed := mlift (match exploded addr with Some e => Ret e | None => Raise end) in
  recursive_query net now root_ipv4 depth fuel
    (AStr (String.append
             (str_join "." (map (fun ch => String ch EmptyString)
                              (rev (list_ascii_of_string (str_remove ":" decompressed)))))
             ".ip6.arpa"))
    PTR 10 0.

End ResolverPy.

(** A PTR record under in-addr.arpa for a name that is no IPv4 address *)
Definition ptr4 : DNSRecord := mkRecord "not-an-ip.in-addr.arpa." PTR 300 (RStr "host.example.") IN 0.
Definition ptr4_cache : cache := cache_records ∅ [ptr4].

(* ================================================================== *)
(** * Theorems *)

Lemma str_app_cons (c : ascii) (s t : string) :
  String.append (String c s) t = String c (String.append s t).
Proof. reflexivity. Qed.

Lemma str_app_assoc (s1 s2 s3 : string) :
  String.append s1 (String.append s2 s3) = String.append (String.append s1 s2) s3.
Proof. induction s1 as [|c s1 IH]; [done|]. rewrite !str_app_cons. congruence. Qed.

Lemma str_app_nil_r (s : string) : String.append s "" = s.
Proof. induction s as [|c s IH]; [done|]. rewrite str_app_cons. congruence. Qed.

Lemma slice_length (data : list Z) (i n : nat) :
  (i + n <= length data)%nat -> length (slice data i (i + n)) = n.
Proof.
  intros H. unfold slice. rewrite length_firstn, length_skipn. lia.
Qed.

(** The loop of the name decoder, run without a byte limit: a run of
    labels at the current position, then a zero byte or a pointer. *)
Lemma read_name_loop_layout read_ptr data off fuel so name res n :
  Forall is_byte data ->
  read_name_loop read_ptr data off (-1) fuel so name = Some (res, n) ->
  exists ls strs,
    labels_at data (off + so) ls /\
    Forall2 (fun l s => utf8_decode l = Some s) ls strs /\
    ((nth_error data (off + so + labels_size ls) = Some 0 /\
      res = String.append name (concat_dots strs) /\
      n = (so + labels_size ls + 1)%nat)
     \/
     (exists p pn m,
        nth_error data (off + so + labels_size ls) = Some 192 /\
        nth_error data (S (off + so + labels_size ls)) = Some p /\
        read_ptr (Z.to_nat p) = Some (pn, m) /\
        res = String.append name (String.append (concat_dots strs) pn) /\
        n = (so + labels_size ls + 2)%nat)).
Proof.
  intros Hbytes.
  revert so name.
  induction fuel as [|fuel IH]; intros so name Hrun; simpl in Hrun; [discriminate|].
  destruct (nth_error data (off + so)) as [b|] eqn:Hb; simpl in Hrun; [|discriminate].
  assert (Hbb : is_byte b).
  { eapply List.Forall_forall; [exact Hbytes|]. eapply nth_error_In; exact Hb. }
  destruct (Z.eqb_spec b 0) as [Hb0|Hb0]; simpl in Hrun.
  - (* terminator *)
    injection Hrun as <- <-. exists [], []. simpl.
    split; [constructor|]. split; [constructor|].
    left. subst b. rewrite Nat.add_0_r. rewrite str_app_nil_r. split; [exact Hb|]. split; [done|lia].
  - destruct (Z.eqb_spec b 192) as [Hp|Hp].
    + (* pointer *)
      subst b.
      destruct (nth_error data (off + S so)) as [t|] eqn:Ht; simpl in Hrun; [|discriminate].
      destruct (read_ptr (Z.to_nat t)) as [[pn m]|] eqn:Hr; simpl in Hrun; [|discriminate].
      injection Hrun as <- <-. exists [], []. simpl.
      split; [constructor|]. split; [constructor|].
      right. exists t, pn, m. rewrite !Nat.add_0_r.
      rewrite Nat.add_succ_r in Ht.
      split; [exact Hb|]. split; [exact Ht|]. split; [exact Hr|].
      split; [reflexivity|lia].
    + destruct (utf8_decode (slice data (off + S so) (off + S so + Z.to_nat b)))
        as [label|] eqn:Hl; simpl in Hrun; [|discriminate].
      destruct (IH _ _ Hrun) as (ls & strs & Hls & Hdec & Hend).
      (* the run goes on after the label, so the label lies inside the buffer *)
      assert (Hin : (off + (S (so + Z.to_nat b)) + labels_size ls < length data)%nat).
      { destruct Hend as [(Hk & _)|(p & _ & _ & Hk & _)];
          apply nth_error_Some; rewrite Hk; discriminate. }
      set (l := slice data (off + S so) (off + S so + Z.to_nat b)) in *.
      assert (Hlen : length l = Z.to_nat b).
      { unfold l. apply slice_length. lia. }
      unfold is_byte in Hbb.
      exists (l :: ls), (label :: strs). split; [|split].
      * constructor.
        -- rewrite Hlen, Z2Nat.id by lia. exact Hb.
        -- lia.
        -- rewrite Hlen, Z2Nat.id by lia. exact Hp.
        -- rewrite Hlen. unfold l. f_equal; lia.
        -- rewrite Hlen. replace (S (off + so) + Z.to_nat b)%nat
             with (off + (S (so + Z.to_nat b)))%nat by lia. exact Hls.
      * constructor; assumption.
      * simpl. rewrite Hlen.
        replace (off + so + S (Z.to_nat b + labels_size ls))%nat
          with (off + (S (so + Z.to_nat b)) + labels_size ls)%nat by lia.
        destruct Hend as [(Hk & Hres & Hn)|(p & pn & m & Hk & Hk1 & Hr & Hres & Hn)].
        -- left. split; [exact Hk|]. split; [|lia].
           rewrite Hres, <- !str_app_assoc. reflexivity.
        -- right. exists p, pn, m. split; [exact Hk|]. split; [exact Hk1|].
           split; [exact Hr|]. split; [|lia].
           rewrite Hres, <- !str_app_assoc. reflexivity.
Qed.

Lemma concat_dots_shape (strs : list string) :
  strs = [] \/ exists p, concat_dots strs = String.append p ".".
Proof.
  induction strs as [|s strs IH]; [by left|right].
  destruct IH as [->|[p Hp]].
  - exists s. simpl. reflexivity.
  - exists (String.append s (String.append "." p)). simpl. rewrite Hp.
    rewrite <- !str_app_assoc. reflexivity.
Qed.

Lemma read_name_loop_shape read_ptr data off lim fuel so name res n :
  (name = "" \/ exists p, name = String.append p ".") ->
  (forall t pn m, read_ptr t = Some (pn, m) -> pn = "" \/ exists p, pn = String.append p ".") ->
  read_name_loop read_ptr data off lim fuel so name = Some (res, n) ->
  res = "" \/ exists p, res = String.append p ".".
Proof.
  intros Hname Hptr. revert so name Hname.
  induction fuel as [|fuel IH]; intros so name Hname Hrun; simpl in Hrun; [discriminate|].
  destruct (nth_error data (off + so)) as [b|]; simpl in Hrun; [|discriminate].
  destruct (negb (b =? 0) && ((lim =? -1) || (Z.of_nat so <? lim))); simpl in Hrun.
  - destruct (b =? 192).
    + destruct (nth_error data (off + S so)) as [t|]; simpl in Hrun; [|discriminate].
      destruct (read_ptr (Z.to_nat t)) as [[pn m]|] eqn:Hr; simpl in Hrun; [|discriminate].
      injection Hrun as <- _.
      destruct (Hptr _ _ _ Hr) as [->|[p ->]].
      * by rewrite str_app_nil_r.
      * right. exists (String.append name p). apply str_app_assoc.
    + destruct (utf8_decode _) as [label|]; simpl in Hrun; [|discriminate].
      eapply IH; [|exact Hrun]. right.
      exists (String.append name label). apply str_app_assoc.
  - injection Hrun as <- _. exact Hname.
Qed.

Lemma read_name_S depth data off lim :
  read_name (S depth) data off lim =
  read_name_loop (fun target => read_name depth data target (-1))
    data off lim (S (length data)) O "".
Proof. reflexivity. Qed.

(** The decoded name is empty (the root) or ends with a dot. *)
Lemma read_name_shape depth data off lim name n :
  read_name depth data off lim = Some (name, n) ->
  name = "" \/ exists p, name = String.append p ".".
Proof.
  revert off lim name n.
  induction depth as [|depth IH]; intros off lim name n Hr; [discriminate|].
  rewrite read_name_S in Hr.
  eapply read_name_loop_shape; [by left| |exact Hr].
  intros t pn m Ht. eapply IH. exact Ht.
Qed.

(** ** C9 *)

(** Claim C9 (amended): when the name decoder succeeds without a byte
    limit, the bytes at the current position are a run of labels ended
    by a zero byte or by the pointer byte 0xC0 and its target byte; the
    name is each decoded label followed by a dot, then (after a pointer)
    the name decoded at the target; it is the empty string (the root) or
    ends with a dot; the count of consumed bytes is the labels' bytes
    plus 1 for the zero byte or plus exactly 2 for a pointer, whatever
    the pointed-to name. *)
Theorem read_name_consumed depth data off name n :
  Forall is_byte data ->
  read_name (S depth) data off (-1) = Some (name, n) ->
  (name = "" \/ exists p, name = String.append p ".") /\
  exists ls strs,
    labels_at data off ls /\
    Forall2 (fun l s => utf8_decode l = Some s) ls strs /\
    ((nth_error data (off + labels_size ls) = Some 0 /\
      name = concat_dots strs /\
      n = (labels_size ls + 1)%nat)
     \/
     (exists p pn m,
        nth_error data (off + labels_size ls) = Some 192 /\
        nth_error data (S (off + labels_size ls)) = Some p /\
        read_name depth data (Z.to_nat p) (-1) = Some (pn, m) /\
        name = String.append (concat_dots strs) pn /\
        n = (labels_size ls + 2)%nat)).
Proof.
  intros Hbytes Hr. split; [eapply read_name_shape; exact Hr|].
  rewrite read_name_S in Hr.
  destruct (read_name_loop_layout _ _ _ _ _ _ _ _ Hbytes Hr)
    as (ls & strs & Hls & Hdec & Hend).
  rewrite Nat.add_0_r in Hls, Hend.
  exists ls, strs. split; [exact Hls|]. split; [exact Hdec|]. exact Hend.
Qed.

Lemma read_name_consumed_witness :
  Forall is_byte [2; 97; 98; 0; 1; 99; 192; 0] /\
  read_name 2 [2; 97; 98; 0; 1; 99; 192; 0] 4 (-1) = Some ("c.ab."%string, 4%nat) /\
  exists ls strs,
    labels_at [2; 97; 98; 0; 1; 99; 192; 0] 4 ls /\
    Forall2 (fun l s => utf8_decode l = Some s) ls strs /\
    ((nth_error [2; 97; 98; 0; 1; 99; 192; 0] (4 + labels_size ls) = Some 0 /\
      "c.ab."%string = concat_dots strs /\ 4%nat = (labels_size ls + 1)%nat)
     \/
     (exists p pn m,
        nth_error [2; 97; 98; 0; 1; 99; 192; 0] (4 + labels_size ls) = Some 192 /\
        nth_error [2; 97; 98; 0; 1; 99; 192; 0] (S (4 + labels_size ls)) = Some p /\
        read_name 1 [2; 97; 98; 0; 1; 99; 192; 0] (Z.to_nat p) (-1) = Some (pn, m) /\
        "c.ab."%string = String.append (concat_dots strs) pn /\
        4%nat = (labels_size ls + 2)%nat)).
Proof.
  assert (Hb : Forall is_byte [2; 97; 98; 0; 1; 99; 192; 0]).
  { repeat constructor; unfold is_byte; lia. }
  assert (Hr : read_name 2 [2; 97; 98; 0; 1; 99; 192; 0] 4 (-1) = Some ("c.ab."%string, 4%nat)).
  { vm_compute. reflexivity. }
  split; [exact Hb|]. split; [exact Hr|].
  exact (proj2 (read_name_consumed 1 _ _ _ _ Hb Hr)).
Defined.

(** Counterexample to C9 as stated: the root name (a lone zero byte)
    decodes to the empty string, which has no trailing dot. *)
Lemma read_name_root_no_trailing_dot :
  _readNameFromBytes [0] 0 (-1) = Some (""%string, 1%nat) /\
  ~ exists p, ""%string = String.append p ".".
Proof.
  split; [vm_compute; reflexivity|].
  intros [p Hp]. destruct p; discriminate.
Qed.

(** ** The header codec (C2) *)

Lemma pack_u16_split (v : Z) :
  u16 v ->
  pack_u16 v = Some [v / 256; v mod 256] /\
  v / 256 * 256 + v mod 256 = v /\
  is_byte (v / 256) /\ is_byte (v mod 256).
Proof.
  unfold u16, is_byte, pack_u16. intros Hv.
  assert (H1 : (0 <=? v) && (v <? 65536) = true) by (apply andb_true_intro; split; lia).
  rewrite H1. split; [reflexivity|].
  split; [pose proof (Z.div_mod v 256); lia|].
  split; [split|].
  - apply Z.div_pos; lia.
  - apply Z.div_lt_upper_bound; lia.
  - apply Z.mod_pos_bound; lia.
Qed.

(** Packing and then unpacking a header gives it back, except for its AD
    and CD flags, which always come back clear: the decoder masks bits 3
    and 2 and shifts them right by 5 and 4. *)
Lemma header_decode_encode (h : DNSHeader) (rest : list Z) :
  header_counts_u16 h ->
  exists hb, header_toBytes h = Some hb /\ length hb = 12%nat /\
    Forall is_byte hb /\
    header_fromBytes (hb ++ rest) =
      Some (mkHeader (id h) (qr h) (opcode h) (aa h) (tc h) (rd h) (ra h) (z h)
              AD_NOT_AUTHENTICATED CD_NO_CHECK (rcode h)
              (qdcount h) (ancount h) (nscount h) (arcount h)).
Proof.
  destruct h as [i q o a t r ra zz adf cdf rc qd an ns ar].
  unfold header_counts_u16; simpl.
  intros (Hi & Hqd & Han & Hns & Har).
  assert (Hf : u16 (header_flags (mkHeader i q o a t r ra zz adf cdf rc qd an ns ar))).
  { unfold u16. destruct q, o, a, t, r, ra, zz, adf, cdf, rc; vm_compute; split; congruence. }
  unfold header_toBytes, header_fromBytes.
  cbn [id qdcount ancount nscount arcount].
  remember (header_flags _) as f eqn:Hfdef.
  destruct (pack_u16_split _ Hi) as (Pi & Ei & Bi1 & Bi2).
  destruct (pack_u16_split _ Hf) as (Pf & Ef & Bf1 & Bf2).
  destruct (pack_u16_split _ Hqd) as (Pqd & Eqd & Bqd1 & Bqd2).
  destruct (pack_u16_split _ Han) as (Pan & Ean & Ban1 & Ban2).
  destruct (pack_u16_split _ Hns) as (Pns & Ens & Bns1 & Bns2).
  destruct (pack_u16_split _ Har) as (Par & Ear & Bar1 & Bar2).
  rewrite Pi, Pf, Pqd, Pan, Pns, Par. cbn [mbind option_bind].
  eexists. split; [reflexivity|]. split; [reflexivity|].
  split; [repeat (constructor; [assumption|]); constructor|].
  cbn [slice skipn firstn app Nat.sub unpack_6u16 mbind option_bind].
  rewrite Ei, Ef, Eqd, Ean, Ens, Ear. subst f.
  destruct q, o, a, t, r, ra, zz, adf, cdf, rc; reflexivity.
Qed.

(** Packing and then unpacking a header gives it back when its AD and CD
    flags are clear. *)
Lemma header_roundtrip_ad_cd_clear (h : DNSHeader) (rest : list Z) :
  header_counts_u16 h ->
  ad h = AD_NOT_AUTHENTICATED -> cd h = CD_NO_CHECK ->
  exists hb, header_toBytes h = Some hb /\ length hb = 12%nat /\
    Forall is_byte hb /\ header_fromBytes (hb ++ rest) = Some h.
Proof.
  intros Hok Had Hcd.
  destruct (header_decode_encode h rest Hok) as (hb & Hto & Hlen & Hb & Hfrom).
  exists hb. repeat split; try assumption.
  rewrite Hfrom, <- Had, <- Hcd. by destruct h.
Qed.

(** ** C2 *)

(** Claim C2 (code bug): unpacking the 12 bytes packed from a header with
    AD = AUTHENTICATED gives AD = NOT_AUTHENTICATED: the AD bit is packed at
    bit 5 but the decoder reads [(flags & 0b1000) >> 5], which is always 0
    (likewise CD: packed at bit 4, read as [(flags & 0b100) >> 4]). *)
Theorem header_ad_flag_lost :
  header_toBytes header_with_ad = Some [18; 52; 1; 32; 0; 1; 0; 0; 0; 0; 0; 0] /\
  header_fromBytes [18; 52; 1; 32; 0; 1; 0; 0; 0; 0; 0; 0] =
    Some (mkHeader 4660 QR_QUERY OPCODE_QUERY AA_NOT_AUTHORITATIVE TC_NOT_TRUNCATED
            RD_RECURSION RA_NO_RECURSION_AVAILABLE Z_RESERVED AD_NOT_AUTHENTICATED
            CD_NO_CHECK NO_ERROR 1 0 0 0) /\
  header_fromBytes [18; 52; 1; 32; 0; 1; 0; 0; 0; 0; 0; 0] <> Some header_with_ad.
Proof.
  split; [reflexivity|]. split; [reflexivity|]. discriminate.
Qed.


(** ** Name sanitization (C4) *)

Lemma lower_char_idem (c : ascii) : lower_char (lower_char c) = lower_char c.
Proof.
  destruct c as [[] [] [] [] [] [] [] []]; vm_compute; reflexivity.
Qed.

Lemma lower_char_dot (c : ascii) : Ascii.eqb (lower_char c) "." = Ascii.eqb c ".".
Proof.
  destruct c as [[] [] [] [] [] [] [] []]; vm_compute; reflexivity.
Qed.

Lemma py_lower_idem (s : string) : py_lower (py_lower s) = py_lower s.
Proof. induction s as [|c s IH]; simpl; [done|]. by rewrite lower_char_idem, IH. Qed.

Lemma py_lower_app (s t : string) :
  py_lower (String.append s t) = String.append (py_lower s) (py_lower t).
Proof. induction s as [|c s IH]; simpl; [done|]. by rewrite IH. Qed.

Lemma py_lower_empty (s : string) : py_lower s = EmptyString -> s = EmptyString.
Proof. by destruct s. Qed.

Lemma py_lower_lstrip (s : string) : py_lower (lstrip_dots s) = lstrip_dots (py_lower s).
Proof.
  induction s as [|c s IH]; simpl; [done|].
  rewrite lower_char_dot. by destruct (Ascii.eqb c ".").
Qed.

Lemma py_lower_rstrip (s : string) : py_lower (rstrip_dots s) = rstrip_dots (py_lower s).
Proof.
  induction s as [|c s IH]; simpl; [done|].
  rewrite <- IH, lower_char_dot.
  destruct (rstrip_dots s) as [|c' r] eqn:Hr; simpl; [|done].
  by destruct (Ascii.eqb c ".").
Qed.

Lemma rstrip_dots_snoc_dot (s : string) :
  rstrip_dots (String.append s ".") = rstrip_dots s.
Proof.
  induction s as [|c s IH]; [reflexivity|].
  rewrite str_app_cons. simpl. by rewrite IH.
Qed.

Lemma rstrip_dots_cons (c : ascii) (s : string) :
  rstrip_dots (String c s) =
  match rstrip_dots s with
  | EmptyString => if Ascii.eqb c "." then EmptyString else String c EmptyString
  | r => String c r
  end.
Proof. simpl. by destruct (rstrip_dots s). Qed.

Lemma rstrip_dots_idem (s : string) : rstrip_dots (rstrip_dots s) = rstrip_dots s.
Proof.
  induction s as [|c s IH]; [done|].
  rewrite (rstrip_dots_cons c s).
  destruct (rstrip_dots s) as [|c' r] eqn:Hr.
  - destruct (Ascii.eqb c ".") eqn:Hc; [done|]. simpl. by rewrite Hc.
  - rewrite rstrip_dots_cons, IH. reflexivity.
Qed.

Lemma lstrip_dots_idem (s : string) : lstrip_dots (lstrip_dots s) = lstrip_dots s.
Proof.
  induction s as [|c s IH]; simpl; [done|].
  destruct (Ascii.eqb c ".") eqn:Hc; [exact IH|]. simpl. by rewrite Hc.
Qed.

(** Stripping leading dots keeps a string free of trailing dots. *)
Lemma rstrip_lstrip (w : string) :
  rstrip_dots w = w -> rstrip_dots (lstrip_dots w) = lstrip_dots w.
Proof.
  induction w as [|c w IH]; [done|].
  intros Hw. cbn [lstrip_dots].
  destruct (Ascii.eqb c ".") eqn:Hc; [|exact Hw].
  apply IH.
  rewrite rstrip_dots_cons, Hc in Hw.
  destruct (rstrip_dots w) as [|c' r] eqn:Hr; [discriminate|].
  injection Hw as Hw. by rewrite Hw.
Qed.

Lemma strip_dots_idem (s : string) : strip_dots (strip_dots s) = strip_dots s.
Proof.
  unfold strip_dots.
  rewrite (rstrip_lstrip (rstrip_dots s)) by apply rstrip_dots_idem.
  apply lstrip_dots_idem.
Qed.

Lemma strip_dots_snoc_dot (s : string) :
  strip_dots (String.append s ".") = strip_dots s.
Proof. unfold strip_dots. by rewrite rstrip_dots_snoc_dot. Qed.

Lemma py_lower_strip (s : string) : py_lower (strip_dots s) = strip_dots (py_lower s).
Proof. unfold strip_dots. by rewrite py_lower_lstrip, py_lower_rstrip. Qed.

Lemma sanitize_domain_idem (x : string) : sanitize_domain (sanitize_domain x) = sanitize_domain x.
Proof.
  unfold sanitize_domain at 1 2.
  rewrite py_lower_app, py_lower_strip, py_lower_idem.
  change (py_lower ".") with ".".
  rewrite strip_dots_snoc_dot, strip_dots_idem. reflexivity.
Qed.

(** Claim C4: sanitization is idempotent, and "Example.COM" and
    "example.com." both sanitize to "example.com.". *)
Theorem sanitize_domain_idempotent :
  (forall x : string, sanitize_domain (sanitize_domain x) = sanitize_domain x) /\
  sanitize_domain "Example.COM" = "example.com." /\
  sanitize_domain "example.com." = "example.com.".
Proof.
  split; [exact sanitize_domain_idem | split; reflexivity].
Qed.

(** ** Nearest cached NS set (C5) *)

Lemma nearest_ns_loop_spec (c : cache) (parts : list string) :
  match nearest_ns_loop c parts with
  | Some l =>
      exists i, (i < length parts)%nat /\
        check_cache c (str_join "." (drop i parts)) NS = Some l /\ l <> [] /\
        forall j, (j < i)%nat -> no_ns c (str_join "." (drop j parts))
  | None => forall i, (i < length parts)%nat -> no_ns c (str_join "." (drop i parts))
  end.
Proof.
  induction parts as [|x rest IH]; cbn [nearest_ns_loop length].
  - intros i Hi. lia.
  - revert IH. destruct (nearest_ns_loop c rest) as [l|]; intros IH;
      destruct (check_cache c (str_join "." (x :: rest)) NS) as [[|r rs]|] eqn:Hc;
      try (exists O; split; [lia|]; split; [exact Hc|]; split; [discriminate|]; lia).
    + destruct IH as (i & Hi & Hl & Hne & Hbefore).
      exists (S i). split; [lia|]. split; [exact Hl|]. split; [exact Hne|].
      intros [|j] Hj; [right; exact Hc|]. apply Hbefore. lia.
    + destruct IH as (i & Hi & Hl & Hne & Hbefore).
      exists (S i). split; [lia|]. split; [exact Hl|]. split; [exact Hne|].
      intros [|j] Hj; [left; exact Hc|]. apply Hbefore. lia.
    + intros [|i] Hi; [right; exact Hc|]. apply IH. lia.
    + intros [|i] Hi; [left; exact Hc|]. apply IH. lia.
Qed.

(** Splitting a name that ends with a dot gives at least two parts, the
    last of them empty. *)
Lemma str_split_snoc_dot (s : string) :
  exists l, l <> [] /\ str_split "." (String.append s ".") = (l ++ [""])%list.
Proof.
  induction s as [|ch s (l & Hl & Hsplit)].
  - exists [""]. split; [discriminate|reflexivity].
  - rewrite str_app_cons. simpl. rewrite Hsplit.
    destruct (Ascii.eqb ch ".").
    + exists ("" :: l). split; [discriminate|reflexivity].
    + destruct l as [|h t]; [done|].
      exists (String ch h :: t). split; [discriminate|reflexivity].
Qed.

Lemma check_cache_root (c : cache) : check_cache c "" NS = check_cache c "." NS.
Proof. reflexivity. Qed.

(** Claim C5: [__check_nearest_ns] returns the NS list cached under the
    first of the suffixes [split[i:]] of the sanitized name, from the full
    name (i = 0) down to the root (the empty suffix, tried last) that has a
    non-empty one; and with NS sets cached for "a." and "b.a." only, it
    returns the "b.a." set for "c.b.a.", the "a." set for "c.a." and
    nothing for "d.". *)
Theorem nearest_ns_longest_suffix :
  (forall (c : cache) (fqdn : string),
     let parts := str_split "." (sanitize_domain fqdn) in
     str_join "." (drop (length parts - 1) parts) = "" /\
     match check_nearest_ns c fqdn with
     | Some l =>
         exists i, (i < length parts)%nat /\
           check_cache c (str_join "." (drop i parts)) NS = Some l /\ l <> [] /\
           forall j, (j < i)%nat -> no_ns c (str_join "." (drop j parts))
     | None => forall i, (i < length parts)%nat -> no_ns c (str_join "." (drop i parts))
     end) /\
  (forall (c : cache) (la lb : list DNSRecord),
     check_cache c "a." NS = Some la -> la <> [] ->
     check_cache c "b.a." NS = Some lb -> lb <> [] ->
     no_ns c "c.b.a." -> no_ns c "c.a." -> no_ns c "d." -> no_ns c "." ->
     check_nearest_ns c "c.b.a." = Some lb /\
     check_nearest_ns c "c.a." = Some la /\
     check_nearest_ns c "d." = None).
Proof.
  split.
  - intros c fqdn parts. split.
    + unfold parts, sanitize_domain.
      destruct (str_split_snoc_dot (strip_dots (py_lower fqdn))) as (l & _ & ->).
      rewrite length_app. simpl. rewrite Nat.add_sub.
      rewrite drop_app_length. reflexivity.
    + apply nearest_ns_loop_spec.
  - intros c la lb Ha Hla Hb Hlb Hcba Hca Hd Hroot.
    unfold check_nearest_ns.
    change (str_split "." (sanitize_domain "c.b.a.")) with ["c"; "b"; "a"; ""].
    change (str_split "." (sanitize_domain "c.a.")) with ["c"; "a"; ""].
    change (str_split "." (sanitize_domain "d.")) with ["d"; ""].
    cbn [nearest_ns_loop].
    change (str_join "." ["c"; "b"; "a"; ""]) with "c.b.a.".
    change (str_join "." ["b"; "a"; ""]) with "b.a.".
    change (str_join "." ["c"; "a"; ""]) with "c.a.".
    change (str_join "." ["a"; ""]) with "a.".
    change (str_join "." ["d"; ""]) with "d.".
    change (str_join "." [""]) with "".
    rewrite check_cache_root.
    destruct la as [|ra la]; [done|]. destruct lb as [|rb lb]; [done|].
    rewrite Ha, Hb.
    split; [|split].
    + destruct Hcba as [-> | ->]; reflexivity.
    + destruct Hca as [-> | ->]; reflexivity.
    + destruct Hd as [-> | ->]; destruct Hroot as [-> | ->]; reflexivity.
Qed.

Lemma nearest_ns_longest_suffix_witness :
  let c := cache_records ∅ [ns_record "a." "ns1.a."; ns_record "b.a." "ns1.b.a."] in
  check_nearest_ns c "c.b.a." = Some [ns_record "b.a." "ns1.b.a."] /\
  check_nearest_ns c "c.a." = Some [ns_record "a." "ns1.a."] /\
  check_nearest_ns c "d." = None.
Proof.
  intros c.
  apply (proj2 nearest_ns_longest_suffix c [ns_record "a." "ns1.a."]
           [ns_record "b.a." "ns1.b.a."]);
    try reflexivity; try discriminate; left; reflexivity.
Defined.

(** ** Cache insertion (C6) *)

Lemma record_eqb_refl (r : DNSRecord) : record_eqb r r = true.
Proof. unfold record_eqb. by rewrite !bool_decide_eq_true_2. Qed.

Lemma cache_record_twice (c : cache) (r : DNSRecord) :
  cache_record (cache_record c r) r = cache_record c r.
Proof.
  unfold cache_record at 1.
  set (k := sanitize_domain (name r)).
  set (c1 := cache_record c r).
  assert (Hk : c1 !! k = Some (<[qtype r :=
             (let lst := default [] (default ∅ (c !! k) !! qtype r) in
              if existsb (record_eqb r) lst then lst else (lst ++ [r])%list)]>
             (default ∅ (c !! k)))).
  { unfold c1, cache_record. fold k. apply lookup_insert_eq. }
  rewrite Hk. simpl. rewrite lookup_insert_eq. simpl.
  set (lst := default [] (default ∅ (c !! k) !! qtype r)).
  assert (Hin : existsb (record_eqb r)
                  (if existsb (record_eqb r) lst then lst else (lst ++ [r])%list) = true).
  { destruct (existsb (record_eqb r) lst) eqn:He; [exact He|].
    rewrite existsb_app. simpl. by rewrite record_eqb_refl, orb_true_r. }
  rewrite Hin. rewrite insert_insert_eq.
  unfold c1, cache_record. fold k. fold lst. by rewrite insert_insert_eq.
Qed.

Lemma cache_records_repeat (c : cache) (r : DNSRecord) (N : nat) :
  cache_records c (repeat r (S N)) = cache_records c [r].
Proof.
  unfold cache_records. simpl.
  induction N as [|N IH]; [reflexivity|].
  simpl. rewrite cache_record_twice. exact IH.
Qed.

(** Claim C6: for N >= 1, inserting a record N times, in N calls or in one
    call on N copies, leaves the cache as inserting it once. *)
Theorem cache_insert_idempotent (N : nat) (r : DNSRecord) (c : cache) :
  (1 <= N)%nat ->
  Nat.iter N (fun c' => cache_records c' [r]) c = cache_records c [r] /\
  cache_records c (repeat r N) = cache_records c [r].
Proof.
  intros HN. destruct N as [|N]; [lia|]. clear HN.
  split; [|apply cache_records_repeat].
  induction N as [|N IH]; [reflexivity|].
  change (cache_records (Nat.iter (S N) (fun c' => cache_records c' [r]) c) [r]
          = cache_records c [r]).
  rewrite IH. unfold cache_records. simpl. apply cache_record_twice.
Qed.

Lemma cache_insert_idempotent_witness :
  (1 <= 3)%nat /\
  Nat.iter 3 (fun c' => cache_records c' [ns_record "Example.COM" "ns.example.com."])
    (∅ : cache) = cache_records ∅ [ns_record "Example.COM" "ns.example.com."] /\
  cache_records ∅ (repeat (ns_record "Example.COM" "ns.example.com.") 3)
    = cache_records ∅ [ns_record "Example.COM" "ns.example.com."].
Proof.
  split; [lia|]. apply cache_insert_idempotent. lia.
Defined.

(** ** The packet codec (C3) *)

Lemma str_split_label (l rest : string) :
  ascii_no_dot l = true ->
  str_split "." (String.append l (String "." rest)) = l :: str_split "." rest.
Proof.
  induction l as [|c l IH]; intros Hl; [reflexivity|].
  simpl in Hl. apply andb_prop in Hl as [Hc Hl]. apply andb_prop in Hc as [_ Hc].
  rewrite str_app_cons. cbn [str_split]. rewrite (IH Hl).
  apply negb_true_iff in Hc. by rewrite Hc.
Qed.

Lemma str_split_concat_dots (labels : list string) :
  Forall (fun l => label_ok l = true) labels ->
  str_split "." (concat_dots labels) = (labels ++ [""])%list.
Proof.
  induction labels as [|l labels IH]; intros Hall; [reflexivity|].
  inversion Hall as [|? ? Hl Hrest]; subst.
  unfold label_ok in Hl. apply andb_prop in Hl as [_ Hl].
  cbn [concat_dots fold_right]. fold (concat_dots labels).
  change (String.append "." (concat_dots labels)) with (String "." (concat_dots labels)).
  rewrite (str_split_label _ _ Hl), IH by exact Hrest. reflexivity.
Qed.

Lemma str_encode_ascii (l : string) :
  ascii_no_dot l = true ->
  str_encode l = map (fun c => Z.of_nat (nat_of_ascii c)) (list_ascii_of_string l).
Proof.
  induction l as [|c l IH]; intros Hl; [reflexivity|].
  simpl in Hl. apply andb_prop in Hl as [Hc Hl]. apply andb_prop in Hc as [Hc _].
  apply Nat.ltb_lt in Hc.
  cbn [str_encode list_ascii_of_string map]. rewrite (IH Hl).
  unfold utf8_char. replace (Z.of_nat (nat_of_ascii c) <? 128) with true by lia.
  reflexivity.
Qed.

Lemma str_encode_length (l : string) :
  ascii_no_dot l = true -> length (str_encode l) = String.length l.
Proof.
  intros Hl. rewrite (str_encode_ascii _ Hl), length_map.
  clear Hl. induction l; simpl; congruence.
Qed.

Lemma utf8_decode_encode (l : string) :
  ascii_no_dot l = true -> utf8_decode (str_encode l) = Some l.
Proof.
  induction l as [|c l IH]; intros Hl; [reflexivity|].
  simpl in Hl. apply andb_prop in Hl as [Hc Hl]. apply andb_prop in Hc as [Hc _].
  apply Nat.ltb_lt in Hc.
  cbn [str_encode]. unfold utf8_char.
  replace (Z.of_nat (nat_of_ascii c) <? 128) with true by lia.
  cbn [app utf8_decode].
  replace ((0 <=? Z.of_nat (nat_of_ascii c)) && (Z.of_nat (nat_of_ascii c) <? 128))
    with true by lia.
  rewrite (IH Hl). simpl. rewrite Nat2Z.id, ascii_nat_embedding. reflexivity.
Qed.

Lemma str_encode_bytes (l : string) : ascii_no_dot l = true -> Forall is_byte (str_encode l).
Proof.
  intros Hl. rewrite (str_encode_ascii _ Hl). clear Hl.
  induction l as [|c l IH]; simpl; constructor; [|exact IH].
  pose proof (nat_ascii_bounded c). unfold is_byte. lia.
Qed.

Lemma parts_toBytes_labels (labels : list string) :
  Forall (fun l => label_ok l = true) labels ->
  parts_toBytes (labels ++ [""]) = Some (labels_bytes labels ++ [0])%list.
Proof.
  induction labels as [|l labels IH]; intros Hall; [reflexivity|].
  inversion Hall as [|? ? Hl Hrest]; subst.
  unfold label_ok in Hl. apply andb_prop in Hl as [Hlen Hl].
  apply andb_prop in Hlen as [H0 H64]. apply Nat.ltb_lt in H0, H64.
  cbn [app parts_toBytes]. unfold to_bytes1, py_len.
  replace ((0 <=? Z.of_nat (String.length l)) && (Z.of_nat (String.length l) <? 256))
    with true by lia.
  rewrite (IH Hrest). simpl. unfold labels_bytes. simpl. unfold label_bytes.
  rewrite <- !app_assoc. reflexivity.
Qed.

Lemma nameToBytes_wf (labels : list string) :
  Forall (fun l => label_ok l = true) labels ->
  _nameToBytes (concat_dots labels) = Some (labels_bytes labels ++ [0])%list.
Proof.
  intros Hall. unfold _nameToBytes.
  rewrite (str_split_concat_dots _ Hall). exact (parts_toBytes_labels _ Hall).
Qed.

Lemma skipn_cons_nth (n : nat) (data : list Z) x r :
  skipn n data = x :: r -> nth_error data n = Some x.
Proof.
  revert data. induction n as [|n IH]; intros [|y data] H; simpl in *; try discriminate.
  - congruence.
  - by apply IH.
Qed.

Lemma skipn_app_len (n : nat) (data l1 rest : list Z) :
  skipn n data = (l1 ++ rest)%list -> skipn (n + length l1) data = rest.
Proof.
  revert data. induction n as [|n IH]; intros data H.
  - rewrite skipn_0 in H. subst data. apply drop_app_length.
  - destruct data as [|y data]; simpl in *.
    + destruct l1, rest; try discriminate. reflexivity.
    + by apply IH.
Qed.

Lemma slice_app_len (n : nat) (data l1 rest : list Z) :
  skipn n data = (l1 ++ rest)%list -> slice data n (n + length l1) = l1.
Proof.
  intros H. unfold slice. rewrite H.
  replace (n + length l1 - n)%nat with (length l1) by lia.
  apply take_app_length.
Qed.

Lemma labels_bytes_cons l ls :
  labels_bytes (l :: ls) = (label_bytes l ++ labels_bytes ls)%list.
Proof. reflexivity. Qed.

Lemma read_name_loop_labels read_ptr data off lim labels post fuel so name :
  Forall (fun l => label_ok l = true) labels ->
  skipn (off + so) data = (labels_bytes labels ++ 0 :: post)%list ->
  (length labels < fuel)%nat ->
  (lim = -1 \/ Z.of_nat (so + length (labels_bytes labels)) <= lim) ->
  read_name_loop read_ptr data off lim fuel so name =
    Some (String.append name (concat_dots labels), S (so + length (labels_bytes labels))).
Proof.
  revert fuel so name.
  induction labels as [|l ls IH]; intros fuel so name Hall Hd Hf Hlim;
    (destruct fuel as [|fuel]; [simpl in Hf; lia|]).
  - cbn [read_name_loop]. simpl in Hd. rewrite (skipn_cons_nth _ _ _ _ Hd).
    cbn [mbind option_bind]. simpl. rewrite str_app_nil_r. f_equal. f_equal. lia.
  - inversion Hall as [|? ? Hl Hrest]; subst.
    assert (Hl' := Hl). unfold label_ok in Hl'. apply andb_prop in Hl' as [Hlen Hasc].
    apply andb_prop in Hlen as [H0 H64]. apply Nat.ltb_lt in H0, H64.
    rewrite labels_bytes_cons in Hd, Hlim |- *.
    unfold label_bytes in Hd, Hlim |- *.
    cbn [app] in Hd. cbn [read_name_loop].
    rewrite (skipn_cons_nth _ _ _ _ Hd). cbn [mbind option_bind].
    rewrite length_app in Hlim |- *. cbn [length] in Hlim |- *.
    rewrite (str_encode_length _ Hasc) in Hlim |- *.
    assert (Hc : negb (Z.of_nat (String.length l) =? 0)
                 && ((lim =? -1) || (Z.of_nat so <? lim)) = true).
    { apply andb_true_intro; split; [apply negb_true_iff, Z.eqb_neq; lia|].
      destruct Hlim as [->|Hlim]; [reflexivity|].
      apply orb_true_intro; right; apply Z.ltb_lt; lia. }
    rewrite Hc. clear Hc.
    replace (Z.of_nat (String.length l) =? 192) with false by lia.
    assert (Hd' : skipn (S (off + so)) data = (str_encode l ++ labels_bytes ls ++ 0 :: post)%list).
    { replace (S (off + so)) with (off + so + length [Z.of_nat (String.length l)])%nat by (simpl; lia).
      apply (skipn_app_len _ _ [Z.of_nat (String.length l)]). rewrite Hd, <- app_assoc. reflexivity. }
    replace (off + S so)%nat with (S (off + so)) by lia.
    rewrite Nat2Z.id.
    pose proof (slice_app_len _ _ _ _ Hd') as Hs. rewrite (str_encode_length _ Hasc) in Hs.
    rewrite Hs, (utf8_decode_encode _ Hasc). cbn [mbind option_bind].
    rewrite (IH fuel (S so + String.length l)%nat).
    + f_equal. f_equal.
      * cbn [concat_dots fold_right]. fold (concat_dots ls). rewrite !str_app_assoc. reflexivity.
      * lia.
    + exact Hrest.
    + replace (off + (S so + String.length l))%nat
        with (S (off + so) + length (str_encode l))%nat
        by (rewrite (str_encode_length _ Hasc); lia).
      apply skipn_app_len. exact Hd'.
    + simpl in Hf. lia.
    + destruct Hlim as [->|Hlim]; [left; reflexivity|right; lia].
Qed.

Lemma read_name_wf d data off lim labels post :
  Forall (fun l => label_ok l = true) labels ->
  skipn off data = (labels_bytes labels ++ 0 :: post)%list ->
  (lim = -1 \/ Z.of_nat (length (labels_bytes labels)) <= lim) ->
  read_name (S d) data off lim = Some (concat_dots labels, S (length (labels_bytes labels))).
Proof.
  intros Hall Hd Hlim. rewrite read_name_S.
  rewrite (read_name_loop_labels _ _ _ _ labels post).
  - reflexivity.
  - exact Hall.
  - rewrite Nat.add_0_r. exact Hd.
  - assert (Hl : (length (labels_bytes labels) <= length (skipn off data))%nat)
      by (rewrite Hd, length_app; lia).
    rewrite length_skipn in Hl.
    assert (length labels <= length (labels_bytes labels))%nat.
    { clear -Hall. induction labels as [|l ls IH]; [simpl; lia|].
      inversion Hall; subst. rewrite labels_bytes_cons, length_app.
      unfold label_bytes. simpl. specialize (IH ltac:(assumption)). lia. }
    lia.
  - exact Hlim.
Qed.

Lemma str_length_app (s t : string) :
  String.length (String.append s t) = (String.length s + String.length t)%nat.
Proof. induction s as [|c s IH]; [reflexivity|]. rewrite str_app_cons. simpl. lia. Qed.

Lemma concat_dots_length labels :
  Forall (fun l => label_ok l = true) labels ->
  String.length (concat_dots labels) = length (labels_bytes labels).
Proof.
  induction labels as [|l ls IH]; intros Hall; [reflexivity|].
  inversion Hall as [|? ? Hl Hrest]; subst.
  unfold label_ok in Hl. apply andb_prop in Hl as [_ Hasc].
  rewrite labels_bytes_cons, length_app. unfold label_bytes.
  cbn [concat_dots fold_right]. fold (concat_dots ls).
  rewrite !str_length_app. cbn [String.length length].
  rewrite (str_encode_length _ Hasc), (IH Hrest). lia.
Qed.

Lemma pack_u32_split (v : Z) :
  0 <= v < 4294967296 ->
  exists b0 b1 b2 b3, pack_u32 v = Some [b0; b1; b2; b3] /\
    ((b0 * 256 + b1) * 256 + b2) * 256 + b3 = v /\
    Forall is_byte [b0; b1; b2; b3].
Proof.
  intros Hv. unfold pack_u32.
  assert (H1 : (0 <=? v) && (v <? 4294967296) = true) by (apply andb_true_intro; split; lia).
  rewrite H1. do 4 eexists. split; [reflexivity|].
  split.
  - pose proof (Z.div_mod v 256 ltac:(lia)) as E0.
    pose proof (Z.div_mod (v / 256) 256 ltac:(lia)) as E1.
    pose proof (Z.div_mod (v / 256 / 256) 256 ltac:(lia)) as E2.
    assert (F1 : v / 65536 = v / 256 / 256) by (rewrite Z.div_div by lia; reflexivity).
    assert (F2 : v / 16777216 = v / 256 / 256 / 256) by (rewrite !Z.div_div by lia; reflexivity).
    rewrite F1, F2. lia.
  - unfold is_byte.
    repeat constructor;
      try (apply Z.mod_pos_bound; lia);
      try (apply Z.div_pos; lia).
    apply Z.div_lt_upper_bound; lia.
Qed.

Lemma QTYPE_wire (t : QTYPE) :
  pack_u16 (QTYPE_value t) = Some [0; QTYPE_value t] /\
  QTYPE_of (0 * 256 + QTYPE_value t) = Some t.
Proof. destruct t; split; reflexivity. Qed.

Lemma QCLASS_wire (c : QCLASS) :
  pack_u16 (QCLASS_value c) = Some [0; QCLASS_value c] /\
  QCLASS_of (0 * 256 + QCLASS_value c) = Some c.
Proof. destruct c; split; reflexivity. Qed.

Lemma questions_loop_cons data c off q post :
  wf_question q ->
  exists enc, question_toBytes q = Some enc /\
    (skipn off data = (enc ++ post)%list ->
     questions_loop data (S c) off =
       match questions_loop data c (off + length enc) with
       | Some (rest, o) => Some (q :: rest, o)
       | None => None
       end).
Proof.
  destruct q as [qn t cl]. unfold wf_question; cbn [qname].
  intros (L & _ & Hall & -> & _).
  destruct (QTYPE_wire t) as [Pt Ot]. destruct (QCLASS_wire cl) as [Pc Oc].
  unfold question_toBytes; cbn [qname q_qtype q_qclass].
  rewrite (nameToBytes_wf _ Hall), Pt, Pc. cbn [mbind option_bind].
  eexists. split; [reflexivity|]. intros Hd.
  cbn [questions_loop]. unfold _readNameFromBytes, py_recursion_limit.
  rewrite (read_name_wf _ _ _ _ L ([0; QTYPE_value t] ++ [0; QCLASS_value cl] ++ post)%list);
    [|exact Hall| rewrite Hd, <- !app_assoc; reflexivity | left; reflexivity].
  cbn [mbind option_bind].
  assert (Hd2 : skipn (off + S (length (labels_bytes L))) data
                = ([0; QTYPE_value t; 0; QCLASS_value cl] ++ post)%list).
  { replace (S (length (labels_bytes L))) with (length (labels_bytes L ++ [0])) by
      (rewrite length_app; simpl; lia).
    apply skipn_app_len. rewrite Hd, <- !app_assoc. reflexivity. }
  pose proof (slice_app_len _ _ _ _ Hd2) as Hs. cbn [length] in Hs. rewrite Hs. cbn [mbind option_bind].
  rewrite Ot, Oc. cbn [mbind option_bind].
  replace (off + S (length (labels_bytes L)) + 4)%nat
    with (off + length ((labels_bytes L ++ [0%Z]) ++ [0%Z; QTYPE_value t] ++ [0%Z; QCLASS_value cl]))%nat
    by (rewrite !length_app; simpl; lia).
  destruct (questions_loop _ _ _) as [[rest o]|]; reflexivity.
Qed.

Lemma records_loop_cons now data c off r post :
  wf_record r ->
  exists enc, record_toBytes r = Some enc /\
    (skipn off data = (enc ++ post)%list ->
     records_loop now data (S c) off =
       match records_loop now data c (off + length enc) with
       | Some (rest, o) => Some (with_time now r :: rest, o)
       | None => None
       end).
Proof.
  destruct r as [nm t tl rdt cl ct]. unfold wf_record; cbn [name qtype ttl rdata qclass].
  intros (Ht & (L & _ & HallL & -> & _) & (s & -> & (R & _ & HallR & -> & HlenR)) & Htl).
  destruct (QTYPE_wire t) as [Pt Ot]. destruct (QCLASS_wire cl) as [Pc Oc].
  destruct (pack_u32_split _ Htl) as (b0 & b1 & b2 & b3 & Ptl & Etl & _).
  rewrite (concat_dots_length _ HallR) in HlenR.
  assert (Hrl : u16 (Z.of_nat (length (labels_bytes R ++ [0%Z])))).
  { rewrite length_app. unfold u16. simpl. lia. }
  destruct (pack_u16_split _ Hrl) as (Prl & Erl & _).
  unfold record_toBytes; cbn [name qtype ttl rdata qclass].
  assert (Hsel : bool_decide (t = NS) || bool_decide (t = CNAME) || bool_decide (t = PTR) = true)
    by (destruct Ht as [->|[->| ->]]; reflexivity).
  rewrite (nameToBytes_wf _ HallL), Hsel, (nameToBytes_wf _ HallR). cbn [mbind option_bind].
  set (rlen := Z.of_nat (length (labels_bytes R ++ [0%Z]))) in *.
  rewrite Pt, Pc, Ptl, Prl. cbn [mbind option_bind].
  eexists. split; [reflexivity|]. intros Hd.
  cbn [records_loop]. unfold _readNameFromBytes, py_recursion_limit.
  rewrite (read_name_wf _ _ _ _ L ([0; QTYPE_value t] ++ [0; QCLASS_value cl] ++ [b0; b1; b2; b3]
             ++ [rlen / 256; rlen mod 256] ++ (labels_bytes R ++ [0]) ++ post)%list);
    [|exact HallL| rewrite Hd, <- !app_assoc; reflexivity | left; reflexivity].
  cbn [mbind option_bind].
  assert (Hd2 : skipn (off + S (length (labels_bytes L))) data
                = ([0; QTYPE_value t; 0; QCLASS_value cl; b0; b1; b2; b3; rlen / 256; rlen mod 256]
                   ++ (labels_bytes R ++ [0]) ++ post)%list).
  { replace (S (length (labels_bytes L))) with (length (labels_bytes L ++ [0%Z])) by
      (rewrite length_app; simpl; lia).
    apply skipn_app_len. rewrite Hd, <- !app_assoc. reflexivity. }
  pose proof (slice_app_len _ _ _ _ Hd2) as Hs. cbn [length] in Hs. rewrite Hs.
  cbn [unpack_HHIH mbind option_bind].
  rewrite Etl, Erl.
  assert (Hsel' : ((0 * 256 + QTYPE_value t =? QTYPE_value NS)
                   || (0 * 256 + QTYPE_value t =? QTYPE_value CNAME)
                   || (0 * 256 + QTYPE_value t =? QTYPE_value PTR)) = true)
    by (destruct Ht as [->|[->| ->]]; reflexivity).
  rewrite Hsel'.
  assert (Hd3 : skipn (off + S (length (labels_bytes L)) + 10) data
                = (labels_bytes R ++ 0 :: post)%list).
  { pose proof (skipn_app_len _ _ _ _ Hd2) as H3. cbn [length] in H3.
    rewrite H3, <- app_assoc. reflexivity. }
  rewrite (read_name_wf _ _ _ _ R post HallR Hd3);
    [|right; unfold rlen; rewrite length_app; simpl; lia].
  cbn [mbind option_bind].
  rewrite Ot, Oc. cbn [mbind option_bind].
  replace (off + S (length (labels_bytes L)) + 10 + S (length (labels_bytes R)))%nat
    with (off + length ((labels_bytes L ++ [0%Z]) ++ [0%Z; QTYPE_value t] ++ [0%Z; QCLASS_value cl]
            ++ [b0; b1; b2; b3] ++ [(rlen / 256)%Z; (rlen mod 256)%Z] ++ labels_bytes R ++ [0%Z]))%nat
    by (rewrite !length_app; simpl; lia).
  destruct (records_loop _ _ _ _) as [[rest o]|]; reflexivity.
Qed.

Lemma questions_loop_wf data qs :
  Forall wf_question qs ->
  exists enc, concat_toBytes question_toBytes qs = Some enc /\
    forall off post, skipn off data = (enc ++ post)%list ->
      questions_loop data (length qs) off = Some (qs, (off + length enc)%nat).
Proof.
  induction qs as [|q qs IH]; intros Hall.
  - exists []. split; [reflexivity|]. intros off post _. simpl. rewrite Nat.add_0_r. reflexivity.
  - inversion Hall as [|? ? Hq Hrest]; subst.
    destruct (IH Hrest) as (er & Er & Hr).
    destruct (questions_loop_cons data (length qs) 0 q [] Hq) as (e & He & _).
    exists (e ++ er)%list. split; [cbn [concat_toBytes]; rewrite He, Er; reflexivity|].
    intros off post Hd.
    destruct (questions_loop_cons data (length qs) off q (er ++ post) Hq) as (e' & He' & Hstep).
    rewrite He in He'. injection He' as <-.
    cbn [length]. rewrite Hstep by (rewrite Hd, app_assoc; reflexivity).
    rewrite (Hr (off + length e)%nat post) by (apply skipn_app_len; rewrite Hd, app_assoc; reflexivity).
    rewrite length_app, Nat.add_assoc. reflexivity.
Qed.

Lemma records_loop_wf now data rs :
  Forall wf_record rs ->
  exists enc, concat_toBytes record_toBytes rs = Some enc /\
    forall off post, skipn off data = (enc ++ post)%list ->
      records_loop now data (length rs) off = Some (map (with_time now) rs, (off + length enc)%nat).
Proof.
  induction rs as [|r rs IH]; intros Hall.
  - exists []. split; [reflexivity|]. intros off post _. simpl. rewrite Nat.add_0_r. reflexivity.
  - inversion Hall as [|? ? Hr0 Hrest]; subst.
    destruct (IH Hrest) as (er & Er & Hr).
    destruct (records_loop_cons now data (length rs) 0 r [] Hr0) as (e & He & _).
    exists (e ++ er)%list. split; [cbn [concat_toBytes]; rewrite He, Er; reflexivity|].
    intros off post Hd.
    destruct (records_loop_cons now data (length rs) off r (er ++ post) Hr0) as (e' & He' & Hstep).
    rewrite He in He'. injection He' as <-.
    cbn [length]. rewrite Hstep by (rewrite Hd, app_assoc; reflexivity).
    rewrite (Hr (off + length e)%nat post) by (apply skipn_app_len; rewrite Hd, app_assoc; reflexivity).
    rewrite length_app, Nat.add_assoc. reflexivity.
Qed.

Lemma question_eqb_refl (q : DNSQuestion) : question_eqb q q = true.
Proof. unfold question_eqb. rewrite !bool_decide_eq_true_2; reflexivity. Qed.

Lemma list_eqb_questions_refl (qs : list DNSQuestion) : list_eqb question_eqb qs qs = true.
Proof. induction qs as [|q qs IH]; [reflexivity|]. simpl. rewrite question_eqb_refl, IH. reflexivity. Qed.

Lemma list_eqb_with_time now (rs : list DNSRecord) :
  list_eqb record_eqb (map (with_time now) rs) rs = true.
Proof.
  induction rs as [|r rs IH]; [reflexivity|]. simpl. rewrite IH, andb_true_r.
  unfold record_eqb, with_time. cbn [name qtype ttl rdata qclass].
  rewrite !bool_decide_eq_true_2; reflexivity.
Qed.

(** C3 (amended). Packets the encoder accepts come back from the decoder:
    for a packet built by [DNSPacket(...)] whose header has a 16-bit id and
    clear AD and CD flags, with fewer than 65536 entries per section, whose
    question names are canonical ASCII names and whose records are NS, CNAME
    or PTR records with canonical names as owner and RDATA and a 32-bit
    TTL, [fromBytes(toBytes(P))] is P with every record stamped with the
    decoding time, and equal to P under [DNSPacket.__eq__]. *)
Theorem packet_roundtrip_wf (h : DNSHeader) (qs : list DNSQuestion) (an ns ar : list DNSRecord) :
  u16 (id h) -> ad h = AD_NOT_AUTHENTICATED -> cd h = CD_NO_CHECK ->
  Z.of_nat (length qs) < 65536 -> Z.of_nat (length an) < 65536 ->
  Z.of_nat (length ns) < 65536 -> Z.of_nat (length ar) < 65536 ->
  Forall wf_question qs -> Forall wf_record an -> Forall wf_record ns -> Forall wf_record ar ->
  exists b, packet_toBytes (DNSPacket_new h qs an ns ar) = Some b /\
    forall now,
      packet_fromBytes now b =
        Some (DNSPacket_new h qs (map (with_time now) an) (map (with_time now) ns)
                (map (with_time now) ar)) /\
      packet_eqb (DNSPacket_new h qs (map (with_time now) an) (map (with_time now) ns)
                    (map (with_time now) ar))
                 (DNSPacket_new h qs an ns ar) = true.
Proof.
  intros Hid Had Hcd Lq Lan Lns Lar Wq Wan Wns War.
  set (H := header (DNSPacket_new h qs an ns ar)).
  destruct (questions_loop_wf [] qs Wq) as (eq & Eq & _).
  destruct (records_loop_wf 0 [] an Wan) as (ean & Ean & _).
  destruct (records_loop_wf 0 [] ns Wns) as (ens & Ens & _).
  destruct (records_loop_wf 0 [] ar War) as (ear & Ear & _).
  assert (Hok : header_counts_u16 H).
  { unfold header_counts_u16, u16, H in *. cbn. lia. }
  destruct (header_roundtrip_ad_cd_clear H (eq ++ ean ++ ens ++ ear)%list Hok Had Hcd)
    as (hb & Hto & Hlen & _ & Hfrom).
  exists (hb ++ eq ++ ean ++ ens ++ ear)%list. split.
  { unfold packet_toBytes. fold H. rewrite Hto. cbn [question answer_records authority_records
      additional_records DNSPacket_new]. rewrite Eq, Ean, Ens, Ear. reflexivity. }
  intros now. set (data := (hb ++ eq ++ ean ++ ens ++ ear)%list).
  destruct (questions_loop_wf data qs Wq) as (eq' & Eq' & Dq).
  rewrite Eq in Eq'. injection Eq' as <-.
  destruct (records_loop_wf now data an Wan) as (ean' & Ean' & Dan).
  rewrite Ean in Ean'. injection Ean' as <-.
  destruct (records_loop_wf now data ns Wns) as (ens' & Ens' & Dns).
  rewrite Ens in Ens'. injection Ens' as <-.
  destruct (records_loop_wf now data ar War) as (ear' & Ear' & Dar).
  rewrite Ear in Ear'. injection Ear' as <-.
  assert (Sq : skipn 12 data = (eq ++ ean ++ ens ++ ear)%list).
  { rewrite <- Hlen. apply (skipn_app_len 0). reflexivity. }
  assert (Hf : header_fromBytes data = Some H) by exact Hfrom. unfold packet_fromBytes. rewrite Hf. cbn [mbind option_bind].
  unfold H; cbn [qdcount ancount nscount arcount DNSPacket_new header]. rewrite !Nat2Z.id.
  unfold question_fromBytes. rewrite (Dq 12%nat (ean ++ ens ++ ear)%list Sq). cbn [mbind option_bind].
  rewrite (Dan (12 + length eq)%nat (ens ++ ear)%list)
    by (apply skipn_app_len; exact Sq). cbn [mbind option_bind].
  rewrite (Dns (12 + length eq + length ean)%nat ear)
    by (apply skipn_app_len, skipn_app_len; exact Sq). cbn [mbind option_bind].
  rewrite (Dar (12 + length eq + length ean + length ens)%nat [])
    by (apply skipn_app_len, skipn_app_len, skipn_app_len; rewrite app_nil_r; exact Sq).
  cbn [mbind option_bind].
  split.
  - unfold DNSPacket_new. cbn. rewrite !length_map. reflexivity.
  - unfold packet_eqb, DNSPacket_new. cbn [header question answer_records authority_records
      additional_records]. rewrite !length_map, bool_decide_eq_true_2 by reflexivity.
    rewrite list_eqb_questions_refl, !list_eqb_with_time. reflexivity.
Qed.

(** C3 (counterexample). A packet with an A record, a supported type,
    cannot be encoded: [DNSRecord.toBytes] raises NotImplementedError for
    every type other than NS, CNAME and PTR, so there is nothing to decode. *)
Lemma packet_toBytes_a_record_raises :
  packet_toBytes a_record_packet = None.
Proof. vm_compute. reflexivity. Qed.

(** C3: an NS referral packet round-trips. *)
Lemma packet_roundtrip_wf_witness :
  exists b, packet_toBytes (DNSPacket_new example_header [example_question] [example_ns] [] []) = Some b /\
    forall now,
      packet_fromBytes now b =
        Some (DNSPacket_new example_header [example_question] (map (with_time now) [example_ns])
                (map (with_time now) []) (map (with_time now) [])) /\
      packet_eqb (DNSPacket_new example_header [example_question] (map (with_time now) [example_ns])
                    (map (with_time now) []) (map (with_time now) []))
                 (DNSPacket_new example_header [example_question] [example_ns] [] []) = true.
Proof.
  apply packet_roundtrip_wf.
  - unfold u16; simpl; lia.
  - reflexivity.
  - reflexivity.
  - simpl; lia.
  - simpl; lia.
  - simpl; lia.
  - simpl; lia.
  - constructor; [|constructor].
    exists ["example"; "com"]. split; [discriminate|]. split; [repeat constructor|].
    split; [reflexivity|simpl; lia].
  - constructor; [|constructor].
    split; [left; reflexivity|]. split.
    + exists ["example"; "com"]. split; [discriminate|]. split; [repeat constructor|].
      split; [reflexivity|simpl; lia].
    + split; [|simpl; lia]. exists "a.iana-servers.net.". split; [reflexivity|].
      exists ["a"; "iana-servers"; "net"]. split; [discriminate|]. split; [repeat constructor|].
      split; [reflexivity|simpl; lia].
  - constructor.
  - constructor.
Defined.

(** ** The resolver (C1, C7) *)

Lemma check_cache_sanitize (c : cache) (s : string) (t : QTYPE) :
  check_cache c (sanitize_domain s) t = check_cache c s t.
Proof. unfold check_cache. by rewrite sanitize_domain_idem. Qed.

Lemma check_nearest_ns_sanitize (c : cache) (s : string) :
  check_nearest_ns c (sanitize_domain s) = check_nearest_ns c s.
Proof. unfold check_nearest_ns. by rewrite sanitize_domain_idem. Qed.

(** C1 (amended). A response whose RCODE is not NO_ERROR ends the
    resolution with [None]: in any iteration of the [while] loop the
    function returns [None] at once, with the cache as it was and no other
    server asked; in particular when the first answer from the root servers
    (no cached answer, no cached NS set) is an error. The response itself
    is not returned. *)
Theorem error_rcode_returns_none net now root :
  (forall rec fqdn qt servers fuel c p,
     servers <> [] ->
     send_query net now root fqdn qt servers = Ret (Some p) ->
     rcode (header p) <> NO_ERROR ->
     query_loop net now root rec fqdn qt servers (S fuel) c = (Ret None, c)) /\
  (forall depth fuel fqdn qt limit count c p,
     count < limit ->
     (check_cache c fqdn qt = None \/ check_cache c fqdn qt = Some []) ->
     check_nearest_ns c fqdn = None ->
     root <> [] ->
     send_query net now root (sanitize_domain fqdn) qt (map rdata root) = Ret (Some p) ->
     rcode (header p) <> NO_ERROR ->
     recursive_query net now root (S depth) (S fuel) (AStr fqdn) qt limit count c = (Ret None, c)).
Proof.
  assert (Hloop : forall rec fqdn qt servers fuel c p,
     servers <> [] ->
     send_query net now root fqdn qt servers = Ret (Some p) ->
     rcode (header p) <> NO_ERROR ->
     query_loop net now root rec fqdn qt servers (S fuel) c = (Ret None, c)).
  { intros rec fqdn qt servers fuel c p Hne Hsend Hrc.
    destruct servers as [|s servers]; [congruence|].
    cbn [query_loop]. unfold mbindM, mlift. rewrite Hsend.
    rewrite bool_decide_eq_true_2 by exact Hrc. reflexivity. }
  split; [exact Hloop|].
  intros depth fuel fqdn qt limit count c p Hlt Hmiss Hnear Hroot Hsend Hrc.
  cbn [recursive_query]. replace (limit <=? count) with false by lia.
  unfold mbindM at 1, mlift. cbn [sanitize_arg].
  unfold mbindM at 1, mgets. rewrite check_cache_sanitize.
  assert (Hnext : forall rec,
    initial_servers root rec (sanitize_domain fqdn) c = (Ret (map rdata root), c)).
  { intros rec. unfold initial_servers, mbindM, mgets. rewrite check_nearest_ns_sanitize, Hnear.
    reflexivity. }
  destruct Hmiss as [Hm|Hm]; rewrite Hm; unfold mbindM; rewrite Hnext;
    apply (Hloop _ _ _ _ _ _ p); try assumption;
    destruct root; simpl; congruence.
Qed.

(** C1 (counterexample). The root server answers NAME_ERROR: [send_query]
    returns that response, but [recursive_query] returns [None]. *)
Lemma name_error_response_dropped :
  send_query nxdomain_net 0 [root_a] "nonexistent.example" A [RStr "198.41.0.4"]
    = Ret (Some nxdomain_packet) /\
  rcode (header nxdomain_packet) = NAME_ERROR /\
  recursive_query nxdomain_net 0 [root_a] 2 2 (AStr "nonexistent.example") A 10 0 ∅
    = (Ret None, ∅).
Proof. split; [|split]; vm_compute; reflexivity. Qed.

Lemma error_rcode_returns_none_witness :
  recursive_query nxdomain_net 0 [root_a] 1 1 (AStr "nonexistent.example") A 10 0 ∅
    = (Ret None, ∅).
Proof.
  apply (proj2 (error_rcode_returns_none nxdomain_net 0 [root_a]) 0%nat 0%nat _ _ _ _ _ nxdomain_packet).
  - lia.
  - left. reflexivity.
  - reflexivity.
  - discriminate.
  - vm_compute. reflexivity.
  - discriminate.
Defined.

(** C7 (amended). When [recursion_count < recursion_limit] and the cache
    holds a non-empty list for the sanitized name and type,
    [recursive_query] returns, whatever the network, the packet
    [DNSPacket(answer_records=records)] and leaves the cache unchanged. Its
    answer section is the cached list, and its header is the default
    [DNSHeader()] (qr = QUERY) with ancount the number of records. *)
Theorem cache_fast_path net now root depth fuel fqdn qt limit count c records :
  count < limit ->
  check_cache c fqdn qt = Some records -> records <> [] ->
  recursive_query net now root (S depth) fuel (AStr fqdn) qt limit count c
    = (Ret (Some (cache_packet records)), c) /\
  answer_records (cache_packet records) = records /\
  header (cache_packet records)
    = mkHeader 0 QR_QUERY OPCODE_QUERY AA_NOT_AUTHORITATIVE TC_NOT_TRUNCATED
        RD_NO_RECURSION RA_NO_RECURSION_AVAILABLE Z_RESERVED AD_NOT_AUTHENTICATED
        CD_NO_CHECK NO_ERROR 0 (Z.of_nat (length records)) 0 0.
Proof.
  intros Hlt Hc Hne. split; [|split; reflexivity].
  cbn [recursive_query]. replace (limit <=? count) with false by lia.
  unfold mbindM, mlift, mgets. cbn [sanitize_arg].
  rewrite check_cache_sanitize, Hc.
  destruct records; [congruence|reflexivity].
Qed.

Lemma cache_fast_path_witness :
  recursive_query no_net 0 [] 1 1 (AStr "Example.COM") A 10 0 example_a_cache
    = (Ret (Some (cache_packet [example_a])), example_a_cache).
Proof.
  apply (proj1 (cache_fast_path no_net 0 [] 0%nat 1%nat "Example.COM" A 10 0 example_a_cache [example_a]
                  ltac:(lia) ltac:(vm_compute; reflexivity) ltac:(discriminate))).
Defined.

(** C7 (counterexample). The packet synthesized from a cache hit has
    qr = QUERY, not RESPONSE. *)
Lemma cache_hit_packet_not_response :
  recursive_query no_net 0 [] 1 1 (AStr "example.com") A 10 0 example_a_cache
    = (Ret (Some (cache_packet [example_a])), example_a_cache) /\
  qr (header (cache_packet [example_a])) <> QR_RESPONSE.
Proof. split; [vm_compute; reflexivity | discriminate]. Qed.

(** ** Bounded nesting of recursive_query (C10) *)
Lemma mbindM_ext {X Y} (m1 m2 : M X) (k1 k2 : X -> M Y) (c : cache) :
  m1 c = m2 c -> (forall x c', k1 x c' = k2 x c') -> mbindM m1 k1 c = mbindM m2 k2 c.
Proof.
  intros Hm Hk. unfold mbindM. rewrite Hm.
  destruct (m2 c) as [[x| |] c']; [apply Hk|reflexivity|reflexivity].
Qed.

Lemma resolve_ns_servers_ext rec1 rec2 names c :
  (forall a c', rec1 a c' = rec2 a c') ->
  resolve_ns_servers rec1 names c = resolve_ns_servers rec2 names c.
Proof.
  intros Hr. revert c. induction names as [|a names IH]; intros c; [reflexivity|].
  cbn [resolve_ns_servers]. apply mbindM_ext; [apply Hr|].
  intros [p|] c'; [|reflexivity].
  destruct (answer_records p); [apply IH|reflexivity].
Qed.

Lemma initial_servers_ext root rec1 rec2 fqdn c :
  (forall a c', rec1 a c' = rec2 a c') ->
  initial_servers root rec1 fqdn c = initial_servers root rec2 fqdn c.
Proof.
  intros Hr. unfold initial_servers. apply mbindM_ext; [reflexivity|].
  intros [[|ns nss]|] c'; try reflexivity.
  apply mbindM_ext; [reflexivity|].
  intros [|s ss] c''; [apply resolve_ns_servers_ext, Hr|reflexivity].
Qed.

Lemma query_loop_ext net now root rec1 rec2 fqdn qt servers fuel c :
  (forall a c', rec1 a c' = rec2 a c') ->
  query_loop net now root rec1 fqdn qt servers fuel c
    = query_loop net now root rec2 fqdn qt servers fuel c.
Proof.
  intros Hr. revert servers c. induction fuel as [|fuel IH]; intros servers c;
    destruct servers as [|s servers]; try reflexivity.
  cbn [query_loop]. apply mbindM_ext; [reflexivity|].
  intros [p|] c1; [|reflexivity].
  destruct (bool_decide _); [reflexivity|].
  apply mbindM_ext; [reflexivity|]. intros [] c2.
  destruct (0 <? ancount (header p)); [reflexivity|].
  apply mbindM_ext; [reflexivity|]. intros [|n ns] c3; [reflexivity|].
  apply mbindM_ext; [reflexivity|]. intros [|t ts] c4; [|apply IH].
  apply mbindM_ext; [apply resolve_ns_servers_ext, Hr|]. intros servers' c5. apply IH.
Qed.

(** C10. A call with [recursion_count >= recursion_limit] returns [None]
    at once with the cache unchanged, and every nested call is made with
    [recursion_count + 1]: the result is the same for every nesting depth
    above [recursion_limit - recursion_count], so nested calls never go
    deeper than that. *)
Theorem recursion_depth_bounded net now root fuel limit :
  (forall depth fqdn qt count c,
     limit <= count ->
     recursive_query net now root (S depth) fuel fqdn qt limit count c = (Ret None, c)) /\
  (forall depth depth' fqdn qt count c,
     (Z.to_nat (limit - count) < depth)%nat -> (Z.to_nat (limit - count) < depth')%nat ->
     recursive_query net now root depth fuel fqdn qt limit count c
       = recursive_query net now root depth' fuel fqdn qt limit count c).
Proof.
  split.
  - intros depth fqdn qt count c Hge. cbn [recursive_query].
    replace (limit <=? count) with true by lia. reflexivity.
  - intros depth. induction depth as [|depth IH]; intros depth' fqdn qt count c Hd Hd'; [lia|].
    destruct depth' as [|depth']; [lia|].
    cbn [recursive_query].
    destruct (limit <=? count) eqn:Hle; [reflexivity|].
    apply Z.leb_gt in Hle.
    assert (Hrec : forall a c', recursive_query net now root depth fuel a A limit (count + 1) c'
                              = recursive_query net now root depth' fuel a A limit (count + 1) c').
    { intros a c'. apply IH; lia. }
    apply mbindM_ext; [reflexivity|]. intros fq c1.
    apply mbindM_ext; [reflexivity|]. intros cached c2.
    destruct cached as [[|r rs]|]; try reflexivity;
      (apply mbindM_ext; [apply initial_servers_ext, Hrec|];
       intros servers c3; apply query_loop_ext, Hrec).
Qed.

Lemma recursion_depth_bounded_witness :
  recursive_query no_net 0 [] 11 5 (AStr "example.com") A 10 0 ∅
    = recursive_query no_net 0 [] 12 5 (AStr "example.com") A 10 0 ∅ /\
  recursive_query no_net 0 [] 1 5 (AStr "example.com") A 10 10 ∅ = (Ret None, ∅).
Proof.
  split.
  - apply (proj2 (recursion_depth_bounded no_net 0 [] 5 10)); vm_compute; lia.
  - apply (proj1 (recursion_depth_bounded no_net 0 [] 5 10)). lia.
Defined.

(* ------------------------------------------------------------------ *)
(** ** Further properties of the codec, the cache and the resolver *)

Lemma str_split_concat_dots_app (labels : list string) (t : string) :
  Forall (fun l => ascii_no_dot l = true) labels ->
  str_split "." (String.append (concat_dots labels) t) = (labels ++ str_split "." t)%list.
Proof.
  induction labels as [|l labels IH]; intros Hall; [reflexivity|].
  inversion Hall as [|? ? Hl Hrest]; subst.
  cbn [concat_dots fold_right]. fold (concat_dots labels).
  change (String.append "." (concat_dots labels)) with (String "." (concat_dots labels)).
  rewrite <- str_app_assoc, str_app_cons, (str_split_label _ _ Hl), IH by exact Hrest.
  reflexivity.
Qed.

Lemma to_bytes1_len (l : string) :
  to_bytes1 (py_len l) = if (String.length l <? 256)%nat then Some [py_len l] else None.
Proof.
  unfold to_bytes1, py_len.
  destruct (Nat.ltb_spec (String.length l) 256).
  - replace ((0 <=? Z.of_nat (String.length l)) && (Z.of_nat (String.length l) <? 256))
      with true by lia. reflexivity.
  - replace ((0 <=? Z.of_nat (String.length l)) && (Z.of_nat (String.length l) <? 256))
      with false by lia. reflexivity.
Qed.


Lemma parts_toBytes_ok (labels : list string) :
  Forall (fun l => label_ok l = true) labels ->
  parts_toBytes labels = Some (labels_bytes labels).
Proof.
  induction labels as [|l labels IH]; intros Hall; [reflexivity|].
  inversion Hall as [|? ? Hl Hrest]; subst.
  unfold label_ok in Hl. apply andb_prop in Hl as [Hlen Hl].
  apply andb_prop in Hlen as [H0 H64]. apply Nat.ltb_lt in H0, H64.
  cbn [parts_toBytes]. rewrite to_bytes1_len.
  replace (String.length l <? 256)%nat with true by (symmetry; apply Nat.ltb_lt; lia).
  rewrite (IH Hrest). reflexivity.
Qed.

Lemma read_name_self_pointer d data off lim :
  nth_error data off = Some 192 ->
  nth_error data (S off) = Some (Z.of_nat off) ->
  (lim = -1 \/ 0 < lim) ->
  read_name d data off lim = None.
Proof.
  revert lim. induction d as [|d IH]; intros lim H0 H1 Hlim; [reflexivity|].
  assert (IH' : read_name d data off (-1) = None) by (apply IH; auto).
  rewrite read_name_S. cbn [read_name_loop].
  rewrite Nat.add_0_r, H0. cbn [mbind option_bind].
  replace (negb (192 =? 0) && ((lim =? -1) || (Z.of_nat 0 <? lim))) with true by
    (destruct Hlim as [->|Hl]; [reflexivity|symmetry; apply andb_true_iff; split;
      [reflexivity|apply orb_true_iff; right; apply Z.ltb_lt; lia]]).
  cbn [Z.eqb Pos.eqb]. replace (off + 1)%nat with (S off) by lia. rewrite H1.
  cbn [mbind option_bind]. rewrite Nat2Z.id, IH'. reflexivity.
Qed.

Lemma header_flags_u16 (h : DNSHeader) : u16 (header_flags h).
Proof.
  set (h0 := mkHeader 0 (qr h) (opcode h) (aa h) (tc h) (rd h) (ra h) (z h) (ad h) (cd h)
               (rcode h) 0 0 0 0).
  assert (Hc : header_counts_u16 h0) by (unfold header_counts_u16, u16; simpl; lia).
  destruct (header_decode_encode h0 [] Hc) as (hb & Hb & _).
  unfold header_toBytes in Hb.
  destruct (pack_u16 (id h0)); [|discriminate]. simpl in Hb.
  change (header_flags h0) with (header_flags h) in Hb.
  unfold pack_u16 in Hb |- *. unfold u16.
  destruct (0 <=? header_flags h) eqn:E1, (header_flags h <? 65536) eqn:E2;
    simpl in Hb; try discriminate. lia.
Qed.

Lemma pack_u16_none (v : Z) : pack_u16 v = None <-> ~ u16 v.
Proof.
  unfold pack_u16, u16.
  destruct (Z.leb_spec 0 v), (Z.ltb_spec v 65536); simpl; split; intros Hx;
    try discriminate; try reflexivity; try lia.
Qed.

Lemma pack_u16_some (v : Z) : u16 v -> exists b, pack_u16 v = Some b.
Proof. intros H. destruct (pack_u16_split v H) as [-> _]. eauto. Qed.

Lemma shiftr_land_div (f m : Z) (k : Z) :
  0 <= k -> Z.shiftr (Z.land f m) k = Z.land (f / 2 ^ k) (Z.shiftr m k).
Proof. intros Hk. rewrite Z.shiftr_land, Z.shiftr_div_pow2 by exact Hk. reflexivity. Qed.

Lemma unpack_6u16_length (b : list Z) x :
  unpack_6u16 b = Some x -> length b = 12%nat.
Proof.
  intros H. do 12 (destruct b as [|? b]; try discriminate).
  destruct b; [reflexivity|discriminate].
Qed.

Lemma header_fromBytes_short (data : list Z) :
  (length data < 12)%nat -> header_fromBytes data = None.
Proof.
  intros Hl. unfold header_fromBytes.
  destruct (unpack_6u16 (slice data 0 12)) as [x|] eqn:E; [|reflexivity].
  apply unpack_6u16_length in E. unfold slice in E. rewrite skipn_0, length_firstn in E. lia.
Qed.

Lemma QR_of_none v : 2 <= v -> QR_of v = None.
Proof. intros. unfold QR_of. repeat match goal with |- context [?a =? ?b] => destruct (Z.eqb_spec a b); [lia|] end; reflexivity. Qed.
Lemma OPCODE_of_none v : 3 <= v -> OPCODE_of v = None.
Proof. intros. unfold OPCODE_of. repeat match goal with |- context [?a =? ?b] => destruct (Z.eqb_spec a b); [lia|] end; reflexivity. Qed.
Lemma ZFLAG_of_none v : 1 <= v -> ZFLAG_of v = None.
Proof. intros. unfold ZFLAG_of. repeat match goal with |- context [?a =? ?b] => destruct (Z.eqb_spec a b); [lia|] end; reflexivity. Qed.
Lemma RCODE_of_none v : 6 <= v -> RCODE_of v = None.
Proof. intros. unfold RCODE_of. repeat match goal with |- context [?a =? ?b] => destruct (Z.eqb_spec a b); [lia|] end; reflexivity. Qed.

Ltac none_chain :=
  repeat (match goal with |- context [mbind _ ?x] => destruct x end; simpl);
  try reflexivity.

(** DNSHeader.fromBytes rejects a header whose OPCODE field is 3 to 15, whose Z
    bit is set, or whose RCODE field is 6 to 15: the enum constructors raise
    ValueError, modelled as None. *)
Theorem header_fromBytes_reserved_values (b0 b1 b2 b3 : Z) (rest : list Z) :
  0 <= b2 < 256 -> 0 <= b3 < 256 ->
  (3 <= (b2 / 8) mod 16 \/ (b3 / 64) mod 2 = 1 \/ 6 <= b3 mod 16) ->
  header_fromBytes (b0 :: b1 :: b2 :: b3 :: rest) = None.
Proof.
  intros H2 H3 Hbad. unfold header_fromBytes.
  destruct (unpack_6u16 (slice (b0 :: b1 :: b2 :: b3 :: rest) 0 12)) as [x|] eqn:E;
    [|reflexivity].
  do 8 (destruct rest as [|? rest]; try discriminate).
  cbn in E. injection E as <-. cbn [mbind option_bind].
  set (f := b2 * 256 + b3).
  assert (Hop : Z.shiftr (Z.land f 30720) 11 = (b2 / 8) mod 16).
  { rewrite shiftr_land_div by lia. change (Z.shiftr 30720 11) with (Z.ones 4).
    rewrite Z.land_ones by lia. f_equal. unfold f.
    change (2 ^ 11) with (256 * 8). rewrite <- Z.div_div by lia.
    rewrite Z.div_add_l by lia. rewrite (Z.div_small b3 256) by lia. f_equal; lia. }
  assert (Hz : Z.shiftr (Z.land f 112) 6 = (b3 / 64) mod 2).
  { rewrite shiftr_land_div by lia. change (Z.shiftr 112 6) with (Z.ones 1).
    rewrite Z.land_ones by lia. unfold f. change (2 ^ 6) with 64.
    replace (b2 * 256 + b3) with (b3 + (b2 * 4) * 64) by lia.
    rewrite Z.div_add by lia.
    replace (b3 / 64 + b2 * 4) with (b3 / 64 + (b2 * 2) * 2) by lia.
    rewrite Z.mod_add by lia. reflexivity. }
  assert (Hrc : Z.land f 15 = b3 mod 16).
  { change 15 with (Z.ones 4). rewrite Z.land_ones by lia. unfold f.
    replace (b2 * 256 + b3) with (b3 + (b2 * 16) * 16) by lia.
    change (2 ^ 4) with 16. apply Z.mod_add; lia. }
  assert (Hm16 : 0 <= (b2 / 8) mod 16 < 16) by (apply Z.mod_pos_bound; lia).
  destruct Hbad as [Hb|[Hb|Hb]].
  - rewrite Hop, (OPCODE_of_none _ Hb). none_chain.
  - rewrite Hz, Hb. change (ZFLAG_of 1) with (@None ZFLAG). none_chain.
  - rewrite Hrc, (RCODE_of_none _ Hb). none_chain.
Qed.

Lemma str_split_nodot (l : string) : ascii_no_dot l = true -> str_split "." l = [l].
Proof.
  induction l as [|c l IH]; intros Hl; [reflexivity|].
  simpl in Hl. apply andb_prop in Hl as [Hc Hl]. apply andb_prop in Hc as [_ Hc].
  apply negb_true_iff in Hc. cbn [str_split]. rewrite (IH Hl), Hc. reflexivity.
Qed.

Lemma label_ok_no_dot (labels : list string) :
  Forall (fun l => label_ok l = true) labels -> Forall (fun l => ascii_no_dot l = true) labels.
Proof.
  intros H. eapply Forall_impl; [exact H|]. intros l Hl.
  unfold label_ok in Hl. by apply andb_prop in Hl as [_ ->].
Qed.

Lemma pack_u16_some_u16 (v : Z) b : pack_u16 v = Some b -> u16 v.
Proof.
  intros H. destruct (decide (u16 v)) as [Hu|Hu]; [exact Hu|].
  apply pack_u16_none in Hu. congruence.
Qed.

Lemma name_codec_wf (s : string) :
  wf_name s ->
  exists enc, _nameToBytes s = Some enc /\
    forall data off post, skipn off data = (enc ++ post)%list ->
      _readNameFromBytes data off (-1) = Some (s, length enc).
Proof.
  intros (labels & _ & Hall & -> & _).
  exists (labels_bytes labels ++ [0])%list. split; [exact (nameToBytes_wf _ Hall)|].
  intros data off post Hd. unfold _readNameFromBytes, py_recursion_limit.
  change 1000%nat with (S 999).
  rewrite (read_name_wf 999 data off (-1) labels post Hall) by
    (try (left; reflexivity); rewrite Hd, <- app_assoc; reflexivity).
  rewrite length_app. simpl. f_equal. f_equal. lia.
Qed.

Lemma rdata_branch_unknown (full_data : list Z) (offset : nat) (t rdlen : Z) :
  QTYPE_of t = None ->
  (if (t =? QTYPE_value NS) || (t =? QTYPE_value CNAME) || (t =? QTYPE_value PTR) then
     '(s, len) ← _readNameFromBytes full_data offset rdlen; Some (RStr s, len)
   else if t =? QTYPE_value A then
     s ← a_rdata full_data offset; Some (RStr s, Z.to_nat rdlen)
   else if t =? QTYPE_value AAAA then
     s ← aaaa_rdata full_data offset rdlen; Some (RStr s, Z.to_nat rdlen)
   else if t =? QTYPE_value SOA then
     '(soa, len) ← soa_fromBytes full_data offset; Some (RSOA soa, len)
   else None) = None.
Proof.
  intros H. unfold QTYPE_of in H. cbn [QTYPE_value].
  destruct (t =? 1), (t =? 2), (t =? 5), (t =? 6), (t =? 12), (t =? 28);
    simpl; try discriminate; reflexivity.
Qed.

(** A well-formed name (labels of 1 to 63 ASCII characters other than the dot,
    each followed by a dot, under 256 characters in all) encodes with _nameToBytes, and
    _readNameFromBytes at the position of that encoding, whatever follows it,
    reads back the same name and the number of bytes of the encoding. *)
Theorem name_roundtrip (s : string) :
  wf_name s ->
  exists enc, _nameToBytes s = Some enc /\
    forall data off post, skipn off data = (enc ++ post)%list ->
      _readNameFromBytes data off (-1) = Some (s, length enc).
Proof. exact (name_codec_wf s). Qed.

Lemma name_roundtrip_witness :
  wf_name "example.com." /\
  exists enc, _nameToBytes "example.com." = Some enc /\
    forall data off post, skipn off data = (enc ++ post)%list ->
      _readNameFromBytes data off (-1) = Some ("example.com.", length enc).
Proof.
  assert (H : wf_name "example.com.").
  { exists ["example"; "com"]. split; [discriminate|].
    split; [repeat constructor|split; [reflexivity|simpl; lia]]. }
  split; [exact H|apply (name_roundtrip "example.com." H)].
Defined.

(** A compression pointer (byte 0xC0) whose target byte is its own offset makes
    _readNameFromBytes recurse until the recursion limit: it fails, when
    limitBytes is -1 or positive. *)
Theorem readName_self_pointer (data : list Z) (off : nat) (limitBytes : Z) :
  nth_error data off = Some 192 ->
  nth_error data (S off) = Some (Z.of_nat off) ->
  (limitBytes = -1 \/ 0 < limitBytes) ->
  _readNameFromBytes data off limitBytes = None.
Proof. intros H0 H1 Hl. exact (read_name_self_pointer _ _ _ _ H0 H1 Hl). Qed.

Lemma readName_self_pointer_witness :
  nth_error [0; 0; 192; 2] 2 = Some 192 /\
  nth_error [0; 0; 192; 2] 3 = Some (Z.of_nat 2) /\
  _readNameFromBytes [0; 0; 192; 2] 2 (-1) = None.
Proof.
  split; [reflexivity|split; [reflexivity|]].
  apply readName_self_pointer; [reflexivity|reflexivity|left; reflexivity].
Defined.

(** DNSHeader.toBytes fails (struct.error) exactly when the id or one of the
    four section counts is outside 0 .. 65535; the packed flags always fit. *)
Theorem header_toBytes_none (h : DNSHeader) :
  header_toBytes h = None <-> ~ header_counts_u16 h.
Proof.
  split.
  - intros H Hc. destruct (header_decode_encode h [] Hc) as (hb & Hb & _). congruence.
  - intros Hn. unfold header_toBytes.
    destruct (pack_u16_some _ (header_flags_u16 h)) as [bf Hf].
    destruct (pack_u16 (id h)) eqn:E0; [|reflexivity]. simpl. rewrite Hf. simpl.
    destruct (pack_u16 (qdcount h)) eqn:E1; [|reflexivity]. simpl.
    destruct (pack_u16 (ancount h)) eqn:E2; [|reflexivity]. simpl.
    destruct (pack_u16 (nscount h)) eqn:E3; [|reflexivity]. simpl.
    destruct (pack_u16 (arcount h)) eqn:E4; [|reflexivity]. simpl.
    exfalso. apply Hn.
    apply pack_u16_some_u16 in E0, E1, E2, E3, E4.
    unfold header_counts_u16. tauto.
Qed.

(** DNSPacket.fromBytes fails on fewer than 12 bytes: the header cannot be
    unpacked. *)
Theorem packet_fromBytes_short (now : Z) (data : list Z) :
  (length data < 12)%nat -> packet_fromBytes now data = None.
Proof.
  intros Hl. unfold packet_fromBytes. rewrite (header_fromBytes_short _ Hl). reflexivity.
Qed.

Lemma packet_fromBytes_short_witness :
  (length [0%Z; 0%Z; 129%Z; 128%Z; 0%Z; 1%Z] < 12)%nat /\ packet_fromBytes 0 [0; 0; 129; 128; 0; 1] = None.
Proof.
  assert (H : (length [0%Z; 0%Z; 129%Z; 128%Z; 0%Z; 1%Z] < 12)%nat) by (simpl; lia).
  split; [exact H|exact (packet_fromBytes_short 0 _ H)].
Defined.

Lemma header_fromBytes_reserved_values_witness :
  0 <= 0 < 256 /\ 0 <= 137 < 256 /\
  (3 <= (0 / 8) mod 16 \/ (137 / 64) mod 2 = 1 \/ 6 <= 137 mod 16) /\
  header_fromBytes (18 :: 52 :: 0 :: 137 :: [0; 1; 0; 0; 0; 0; 0; 0]) = None.
Proof.
  assert (H1 : 0 <= 0 < 256) by lia. assert (H2 : 0 <= 137 < 256) by lia.
  assert (H3 : 3 <= (0 / 8) mod 16 \/ (137 / 64) mod 2 = 1 \/ 6 <= 137 mod 16)
    by (right; right; vm_compute; discriminate).
  split; [exact H1|split; [exact H2|split; [exact H3|]]].
  exact (header_fromBytes_reserved_values 18 52 0 137 _ H1 H2 H3).
Defined.

(** Well-formed questions encoded one after the other, placed at offset 12 of
    any buffer, decode with DNSQuestion.fromBytes into the same questions and
    the offset just past their encoding. *)
Theorem question_codec_roundtrip (qs : list DNSQuestion) :
  Forall wf_question qs ->
  exists enc, concat_toBytes question_toBytes qs = Some enc /\
    forall data post, skipn 12 data = (enc ++ post)%list ->
      question_fromBytes data (length qs) = Some (qs, (12 + length enc)%nat).
Proof.
  intros Hall. destruct (questions_loop_wf [] qs Hall) as (enc & Henc & _).
  exists enc. split; [exact Henc|]. intros data post Hd.
  destruct (questions_loop_wf data qs Hall) as (enc' & Henc' & Hdec).
  rewrite Henc in Henc'. injection Henc' as <-. exact (Hdec 12%nat post Hd).
Qed.

(** NS, CNAME and PTR records with well-formed names and 32-bit TTLs, encoded
    one after the other at any offset, decode into the same records with the
    decoding time as creation time, and these compare equal to the originals
    under DNSRecord.__eq__. *)
Theorem record_codec_roundtrip (now : Z) (rs : list DNSRecord) :
  Forall wf_record rs ->
  exists enc, concat_toBytes record_toBytes rs = Some enc /\
    forall data off post, skipn off data = (enc ++ post)%list ->
      records_loop now data (length rs) off = Some (map (with_time now) rs, (off + length enc)%nat) /\
      list_eqb record_eqb (map (with_time now) rs) rs = true.
Proof.
  intros Hall. destruct (records_loop_wf now [] rs Hall) as (enc & Henc & _).
  exists enc. split; [exact Henc|]. intros data off post Hd.
  destruct (records_loop_wf now data rs Hall) as (enc' & Henc' & Hdec).
  rewrite Henc in Henc'. injection Henc' as <-. split; [exact (Hdec off post Hd)|].
  apply list_eqb_with_time.
Qed.

(** When DNSRecord.fromBytes decodes an SOA record of class IN,
    SOARdata.fromBytes returns an end offset that the loop adds as a length: the
    next record is read from that end offset plus the offset where the SOA data
    starts. *)
Theorem records_loop_soa_offset now data c off nm n tl rdlen soa k :
  _readNameFromBytes data off (-1) = Some (nm, n) ->
  unpack_HHIH (slice data (off + n) (off + n + 10)) = Some (6, 1, tl, rdlen) ->
  soa_fromBytes data (off + n + 10) = Some (soa, (off + n + 10 + k)%nat) ->
  records_loop now data (S c) off =
    '(rest, o) ← records_loop now data c (2 * (off + n + 10) + k)%nat;
    Some (mkRecord nm SOA tl (RSOA soa) IN now :: rest, o).
Proof.
  intros H1 H2 H3. cbn [records_loop]. rewrite H1. cbn [mbind option_bind].
  rewrite H2. cbn [mbind option_bind]. cbn [QTYPE_value Z.eqb Pos.eqb orb].
  rewrite H3. cbn [mbind option_bind QTYPE_of QCLASS_of Z.eqb Pos.eqb].
  replace (off + n + 10 + (off + n + 10 + k))%nat with (2 * (off + n + 10) + k)%nat by lia.
  reflexivity.
Qed.

(** DNSRecord.fromBytes fails on a record whose type is not a QTYPE member or
    whose class is not a QCLASS member (ValueError of the enum constructor). *)
Theorem records_loop_unknown_type now data c off nm n t cl tl rdlen :
  _readNameFromBytes data off (-1) = Some (nm, n) ->
  unpack_HHIH (slice data (off + n) (off + n + 10)) = Some (t, cl, tl, rdlen) ->
  (QTYPE_of t = None \/ QCLASS_of cl = None) ->
  records_loop now data (S c) off = None.
Proof.
  intros H1 H2 Hbad. cbn [records_loop]. rewrite H1. cbn [mbind option_bind].
  rewrite H2. cbn [mbind option_bind].
  destruct Hbad as [Ht|Hc].
  - rewrite (rdata_branch_unknown _ _ _ _ Ht). reflexivity.
  - match goal with |- mbind _ ?x = _ => destruct x as [[rd len]|]; [|reflexivity] end.
    cbn [mbind option_bind]. destruct (QTYPE_of t); [|reflexivity].
    cbn [mbind option_bind]. rewrite Hc. reflexivity.
Qed.

Lemma records_loop_soa_offset_witness :
  _readNameFromBytes soa_wire 0 (-1) = Some ("", 1%nat) /\
  unpack_HHIH (slice soa_wire (0 + 1) (0 + 1 + 10)) = Some (6, 1, 3600, 22) /\
  soa_fromBytes soa_wire (0 + 1 + 10) =
    Some (mkSOA "" "" 1 1800 900 604800 300, (0 + 1 + 10 + 22)%nat) /\
  records_loop 0 soa_wire 1 0 =
    '(rest, o) ← records_loop 0 soa_wire 0 (2 * (0 + 1 + 10) + 22)%nat;
    Some (mkRecord "" SOA 3600 (RSOA (mkSOA "" "" 1 1800 900 604800 300)) IN 0 :: rest, o).
Proof.
  assert (H1 : _readNameFromBytes soa_wire 0 (-1) = Some ("", 1%nat)) by reflexivity.
  assert (H2 : unpack_HHIH (slice soa_wire (0 + 1) (0 + 1 + 10)) = Some (6, 1, 3600, 22))
    by reflexivity.
  assert (H3 : soa_fromBytes soa_wire (0 + 1 + 10) =
    Some (mkSOA "" "" 1 1800 900 604800 300, (0 + 1 + 10 + 22)%nat)) by reflexivity.
  split; [exact H1|split; [exact H2|split; [exact H3|]]].
  exact (records_loop_soa_offset 0 soa_wire 0 0 "" 1 3600 22 _ 22 H1 H2 H3).
Defined.

Lemma records_loop_unknown_type_witness :
  _readNameFromBytes mx_wire 0 (-1) = Some ("", 1%nat) /\
  unpack_HHIH (slice mx_wire (0 + 1) (0 + 1 + 10)) = Some (15, 1, 3600, 0) /\
  (QTYPE_of 15 = None \/ QCLASS_of 1 = None) /\
  records_loop 0 mx_wire 1 0 = None.
Proof.
  assert (H1 : _readNameFromBytes mx_wire 0 (-1) = Some ("", 1%nat)) by reflexivity.
  assert (H2 : unpack_HHIH (slice mx_wire (0 + 1) (0 + 1 + 10)) = Some (15, 1, 3600, 0))
    by reflexivity.
  assert (H3 : QTYPE_of 15 = None \/ QCLASS_of 1 = None) by (left; reflexivity).
  split; [exact H1|split; [exact H2|split; [exact H3|]]].
  exact (records_loop_unknown_type 0 mx_wire 0 0 "" 1 15 1 3600 0 H1 H2 H3).
Defined.

Lemma unpack_5u32_bytes (l0 l1 l2 l3 l4 : list Z) (v0 v1 v2 v3 v4 : Z) :
  pack_u32 v0 = Some l0 -> pack_u32 v1 = Some l1 -> pack_u32 v2 = Some l2 ->
  pack_u32 v3 = Some l3 -> pack_u32 v4 = Some l4 ->
  u32 v0 -> u32 v1 -> u32 v2 -> u32 v3 -> u32 v4 ->
  length (l0 ++ l1 ++ l2 ++ l3 ++ l4) = 20%nat /\
  unpack_5u32 (l0 ++ l1 ++ l2 ++ l3 ++ l4)%list = Some (v0, v1, v2, v3, v4).
Proof.
  intros P0 P1 P2 P3 P4 U0 U1 U2 U3 U4.
  destruct (pack_u32_split v0 U0) as (a0 & a1 & a2 & a3 & Q0 & E0 & _).
  destruct (pack_u32_split v1 U1) as (b0 & b1 & b2 & b3 & Q1 & E1 & _).
  destruct (pack_u32_split v2 U2) as (c0 & c1 & c2 & c3 & Q2 & E2 & _).
  destruct (pack_u32_split v3 U3) as (d0 & d1 & d2 & d3 & Q3 & E3 & _).
  destruct (pack_u32_split v4 U4) as (e0 & e1 & e2 & e3 & Q4 & E4 & _).
  rewrite P0 in Q0. rewrite P1 in Q1. rewrite P2 in Q2. rewrite P3 in Q3. rewrite P4 in Q4.
  injection Q0 as ->. injection Q1 as ->. injection Q2 as ->. injection Q3 as ->.
  injection Q4 as ->. split; [reflexivity|]. cbn.
  rewrite E0, E1, E2, E3, E4. reflexivity.
Qed.

(** An SOA data block with well-formed names and five 32-bit values encodes with
    SOARdata.toBytes, and SOARdata.fromBytes at the position of that encoding
    returns the same data and the offset just past it. *)
Theorem soa_roundtrip (s : SOARdata) :
  wf_soa s ->
  exists enc, soa_toBytes s = Some enc /\
    forall data off post, skipn off data = (enc ++ post)%list ->
      soa_fromBytes data off = Some (s, (off + length enc)%nat).
Proof.
  intros (Hm & Hr & U0 & U1 & U2 & U3 & U4).
  destruct (name_codec_wf _ Hm) as (em & Em & Dm).
  destruct (name_codec_wf _ Hr) as (er & Er & Dr).
  destruct (pack_u32 (serial s)) as [l0|] eqn:P0;
    [|unfold pack_u32, u32 in *; destruct (0 <=? serial s) eqn:?, (serial s <? _) eqn:?;
      simpl in P0; try discriminate; lia].
  destruct (pack_u32 (refresh s)) as [l1|] eqn:P1;
    [|unfold pack_u32, u32 in *; destruct (0 <=? refresh s) eqn:?, (refresh s <? _) eqn:?;
      simpl in P1; try discriminate; lia].
  destruct (pack_u32 (retry s)) as [l2|] eqn:P2;
    [|unfold pack_u32, u32 in *; destruct (0 <=? retry s) eqn:?, (retry s <? _) eqn:?;
      simpl in P2; try discriminate; lia].
  destruct (pack_u32 (expire s)) as [l3|] eqn:P3;
    [|unfold pack_u32, u32 in *; destruct (0 <=? expire s) eqn:?, (expire s <? _) eqn:?;
      simpl in P3; try discriminate; lia].
  destruct (pack_u32 (minimum s)) as [l4|] eqn:P4;
    [|unfold pack_u32, u32 in *; destruct (0 <=? minimum s) eqn:?, (minimum s <? _) eqn:?;
      simpl in P4; try discriminate; lia].
  destruct (unpack_5u32_bytes _ _ _ _ _ _ _ _ _ _ P0 P1 P2 P3 P4 U0 U1 U2 U3 U4)
    as [Hlen Hun].
  set (nums := (l0 ++ l1 ++ l2 ++ l3 ++ l4)%list) in *.
  exists (em ++ er ++ nums)%list. split.
  { unfold soa_toBytes. rewrite Em, Er, P0, P1, P2, P3, P4. reflexivity. }
  intros data off post Hd.
  unfold soa_fromBytes.
  rewrite (Dm data off ((er ++ nums) ++ post)%list) by (rewrite Hd, <- !app_assoc; reflexivity).
  cbn [mbind option_bind].
  assert (Hd1 : skipn (off + length em) data = (er ++ nums ++ post)%list).
  { apply (skipn_app_len _ _ _ _). rewrite Hd, <- !app_assoc. reflexivity. }
  rewrite (Dr data (off + length em)%nat (nums ++ post)%list)
    by (rewrite Hd1; reflexivity).
  cbn [mbind option_bind].
  assert (Hd2 : skipn (off + length em + length er) data = (nums ++ post)%list).
  { apply (skipn_app_len _ _ _ _). exact Hd1. }
  pose proof (slice_app_len _ _ _ _ Hd2) as Hs. rewrite Hlen in Hs. rewrite Hs, Hun.
  cbn [mbind option_bind]. destruct s. rewrite !length_app, Hlen. simpl. f_equal. f_equal. lia.
Qed.

Lemma soa_roundtrip_witness :
  wf_soa (mkSOA "a.root-servers.net." "nstld.verisign-grs.com." 2024010100 1800 900 604800 86400) /\
  exists enc, soa_toBytes (mkSOA "a.root-servers.net." "nstld.verisign-grs.com." 2024010100 1800 900 604800 86400) = Some enc /\
    forall data off post, skipn off data = (enc ++ post)%list ->
      soa_fromBytes data off =
        Some (mkSOA "a.root-servers.net." "nstld.verisign-grs.com." 2024010100 1800 900 604800 86400,
              (off + length enc)%nat).
Proof.
  assert (H : wf_soa (mkSOA "a.root-servers.net." "nstld.verisign-grs.com." 2024010100 1800 900 604800 86400)).
  { split; [|split].
    - exists ["a"; "root-servers"; "net"]. split; [discriminate|].
      split; [repeat constructor|split; [reflexivity|simpl; lia]].
    - exists ["nstld"; "verisign-grs"; "com"]. split; [discriminate|].
      split; [repeat constructor|split; [reflexivity|simpl; lia]].
    - unfold u32; simpl; lia. }
  split; [exact H|exact (soa_roundtrip _ H)].
Defined.

Lemma check_cache_lookup (c : cache) (s : string) (t : QTYPE) :
  check_cache c s t = cache_lookup c (sanitize_domain s) t.
Proof. reflexivity. Qed.

Lemma cache_record_lookup (c : cache) (r : DNSRecord) (k : string) (t : QTYPE) :
  cache_lookup (cache_record c r) k t =
    if decide (sanitize_domain (name r) = k /\ qtype r = t) then
      let lst := default [] (cache_lookup c k t) in
      Some (if existsb (record_eqb r) lst then lst else (lst ++ [r])%list)
    else cache_lookup c k t.
Proof.
  unfold cache_lookup, cache_record. rewrite lookup_insert.
  destruct (decide (sanitize_domain (name r) = k)) as [Hk|Hk].
  - subst k. cbn [mbind option_bind]. rewrite lookup_insert.
    destruct (decide (qtype r = t)) as [Ht|Ht].
    + subst t. rewrite decide_True by tauto.
      destruct (c !! sanitize_domain (name r)); reflexivity.
    + rewrite decide_False by tauto.
      destruct (c !! sanitize_domain (name r)); simpl; [reflexivity|].
      by rewrite lookup_empty.
  - rewrite decide_False by tauto. reflexivity.
Qed.

Lemma record_eqb_sym (r1 r2 : DNSRecord) : record_eqb r1 r2 = record_eqb r2 r1.
Proof.
  unfold record_eqb.
  repeat match goal with |- context [bool_decide (?a = ?b)] =>
    lazymatch goal with |- context [bool_decide (b = a)] =>
      rewrite (bool_decide_ext (a = b) (b = a)) by (split; intros; congruence) end end.
  reflexivity.
Qed.

Lemma nodup_records_snoc (l : list DNSRecord) (r : DNSRecord) :
  nodup_records l = true -> existsb (record_eqb r) l = false ->
  nodup_records (l ++ [r])%list = true.
Proof.
  induction l as [|x l IH]; intros Hn He; [reflexivity|].
  simpl in Hn, He. apply andb_prop in Hn as [Hx Hn]. apply orb_false_iff in He as [Hrx He].
  cbn [app nodup_records]. rewrite (IH Hn He), existsb_app. simpl.
  rewrite record_eqb_sym, Hrx. apply negb_true_iff in Hx. rewrite Hx. reflexivity.
Qed.

Lemma cache_record_wf (c : cache) (r : DNSRecord) :
  wf_cache c -> wf_cache (cache_record c r).
Proof.
  intros Hc k t l Hl. rewrite cache_record_lookup in Hl.
  destruct (decide _) as [[Hk Ht]|Hn]; [|exact (Hc k t l Hl)].
  injection Hl as <-. subst k t.
  destruct (cache_lookup c (sanitize_domain (name r)) (qtype r)) as [old|] eqn:Eo; simpl.
  - destruct (Hc _ _ _ Eo) as (Hne & Hall & Hnd).
    destruct (existsb (record_eqb r) old) eqn:Ee; [tauto|].
    split; [destruct old; discriminate|]. split.
    + apply Forall_app. split; [exact Hall|]. constructor; [tauto|constructor].
    + exact (nodup_records_snoc _ _ Hnd Ee).
  - split; [discriminate|]. split; [constructor; [tauto|constructor]|reflexivity].
Qed.

Lemma cache_records_wf (c : cache) (rs : list DNSRecord) :
  wf_cache c -> wf_cache (cache_records c rs).
Proof.
  revert c. induction rs as [|r rs IH]; intros c Hc; [exact Hc|].
  apply IH, cache_record_wf, Hc.
Qed.

Lemma wf_cache_empty : wf_cache ∅.
Proof. intros k t l Hl. unfold cache_lookup in Hl. by rewrite lookup_empty in Hl. Qed.

Lemma cache_le_refl (c : cache) : cache_le c c.
Proof. intros k t l Hl. exists []. by rewrite app_nil_r. Qed.

Lemma cache_le_trans (c1 c2 c3 : cache) : cache_le c1 c2 -> cache_le c2 c3 -> cache_le c1 c3.
Proof.
  intros H12 H23 k t l Hl. destruct (H12 _ _ _ Hl) as [l1 H1].
  destruct (H23 _ _ _ H1) as [l2 H2]. exists (l1 ++ l2)%list. by rewrite app_assoc.
Qed.

Lemma cache_record_le (c : cache) (r : DNSRecord) : cache_le c (cache_record c r).
Proof.
  intros k t l Hl. rewrite cache_record_lookup, Hl.
  destruct (decide _); simpl; [|exists []; by rewrite app_nil_r].
  destruct (existsb _ _); [exists []; by rewrite app_nil_r|exists [r]; reflexivity].
Qed.

Lemma cache_records_le (c : cache) (rs : list DNSRecord) : cache_le c (cache_records c rs).
Proof.
  revert c. induction rs as [|r rs IH]; intros c; [apply cache_le_refl|].
  eapply cache_le_trans; [apply cache_record_le|apply IH].
Qed.

Lemma cache_record_present (c : cache) (r : DNSRecord) :
  exists l, cache_lookup (cache_record c r) (sanitize_domain (name r)) (qtype r) = Some l /\
    existsb (record_eqb r) l = true.
Proof.
  rewrite cache_record_lookup, decide_True by tauto. simpl.
  destruct (existsb (record_eqb r) _) eqn:E; eexists; split; try reflexivity; [exact E|].
  rewrite existsb_app. simpl. rewrite record_eqb_refl. by rewrite orb_true_r.
Qed.

Lemma cache_le_present (c c' : cache) k t r :
  cache_le c c' ->
  (exists l, cache_lookup c k t = Some l /\ existsb (record_eqb r) l = true) ->
  exists l, cache_lookup c' k t = Some l /\ existsb (record_eqb r) l = true.
Proof.
  intros Hle (l & Hl & He). destruct (Hle _ _ _ Hl) as [l' Hl'].
  exists (l ++ l')%list. split; [exact Hl'|]. by rewrite existsb_app, He.
Qed.

Lemma cache_record_other (c : cache) (r : DNSRecord) (k : string) (t : QTYPE) :
  sanitize_domain (name r) <> k \/ qtype r <> t ->
  cache_lookup (cache_record c r) k t = cache_lookup c k t.
Proof. intros H. rewrite cache_record_lookup, decide_False by tauto. reflexivity. Qed.

(** After __cache_records, every record of the list is found by __check_cache
    under its own name and type. *)
Theorem cache_records_lookup (c : cache) (rs : list DNSRecord) (r : DNSRecord) :
  In r rs ->
  exists l, check_cache (cache_records c rs) (name r) (qtype r) = Some l /\
    existsb (record_eqb r) l = true.
Proof.
  rewrite check_cache_lookup. revert c. induction rs as [|r0 rs IH]; intros c Hin;
    [destruct Hin|].
  destruct Hin as [Heq|Hin]; [subst r0|exact (IH _ Hin)].
  cbn [cache_records fold_left]. fold (cache_records (cache_record c r) rs).
  apply (cache_le_present (cache_record c r)); [apply cache_records_le|].
  apply cache_record_present.
Qed.

(** __cache_records leaves __check_cache unchanged for a name and type that none
    of the stored records has. *)
Theorem cache_records_other_keys (c : cache) (rs : list DNSRecord) (s : string) (t : QTYPE) :
  Forall (fun r => sanitize_domain (name r) <> sanitize_domain s \/ qtype r <> t) rs ->
  check_cache (cache_records c rs) s t = check_cache c s t.
Proof.
  rewrite !check_cache_lookup. revert c. induction rs as [|r rs IH]; intros c Hall;
    [reflexivity|].
  inversion Hall as [|? ? Hr Hrest]; subst. cbn [cache_records fold_left].
  fold (cache_records (cache_record c r) rs). rewrite (IH _ Hrest).
  exact (cache_record_other _ _ _ _ Hr).
Qed.

(** __cache_records keeps the cache well-formed: every list non-empty, holding
    only records with its name and type, without duplicates under
    DNSRecord.__eq__. *)
Theorem cache_records_keeps_wf (c : cache) (rs : list DNSRecord) :
  wf_cache c -> wf_cache (cache_records c rs).
Proof. exact (cache_records_wf c rs). Qed.

Section CacheRelation.

(** A relation between the cache before and after a step, closed under
    composition and kept by [__cache_records] *)
Variable R : cache -> cache -> Prop.
Hypothesis R_refl : forall c, R c c.
Hypothesis R_trans : forall c1 c2 c3, R c1 c2 -> R c2 c3 -> R c1 c3.
Hypothesis R_cache_records : forall c rs, R c (cache_records c rs).

Definition keeps {A} (m : M A) : Prop := forall c, R c (snd (m c)).

Lemma keeps_bind {A B} (m : M A) (k : A -> M B) :
  keeps m -> (forall a, keeps (k a)) -> keeps (mbindM m k).
Proof.
  intros Hm Hk c. unfold mbindM. specialize (Hm c).
  destruct (m c) as [[a| |] c'] eqn:E; simpl in *; [|exact Hm|exact Hm].
  exact (R_trans _ _ _ Hm (Hk a c')).
Qed.

Lemma keeps_ret {A} (a : A) : keeps (mret a).
Proof. intros c. apply R_refl. Qed.
Lemma keeps_raise {A} : keeps (@mraise A).
Proof. intros c. apply R_refl. Qed.
Lemma keeps_lift {A} (o : outcome A) : keeps (mlift o).
Proof. intros c. apply R_refl. Qed.
Lemma keeps_gets {A} (f : cache -> A) : keeps (mgets f).
Proof. intros c. apply R_refl. Qed.
Lemma keeps_fuel {A} : keeps (fun c => (@OutOfFuel A, c)).
Proof. intros c. apply R_refl. Qed.
Lemma keeps_cached_servers names : keeps (mcached_servers names).
Proof. intros c. apply R_refl. Qed.

Create HintDb keeps.
Hint Resolve keeps_bind keeps_ret keeps_raise keeps_lift keeps_gets keeps_fuel
  keeps_cached_servers : keeps.

Lemma keeps_resolve_ns rec names :
  (forall ns, keeps (rec ns)) -> keeps (resolve_ns_servers rec names).
Proof.
  intros Hrec. induction names as [|ns rest IH]; cbn [resolve_ns_servers]; [auto with keeps|].
  apply keeps_bind; [apply Hrec|]. intros [p|]; [|auto with keeps].
  destruct (answer_records p); auto with keeps.
Qed.

Lemma keeps_initial root rec fqdn :
  (forall ns, keeps (rec ns)) -> keeps (initial_servers root rec fqdn).
Proof.
  intros Hrec. unfold initial_servers. apply keeps_bind; [auto with keeps|].
  intros [[|n ns]|]; try apply keeps_ret.
  apply keeps_bind; [auto with keeps|]. intros [|s ss]; [|apply keeps_ret].
  apply keeps_resolve_ns, Hrec.
Qed.

Lemma keeps_query_loop net now root rec fqdn qt servers fuel :
  (forall ns, keeps (rec ns)) -> keeps (query_loop net now root rec fqdn qt servers fuel).
Proof.
  intros Hrec. revert servers. induction fuel as [|fuel IH]; intros servers;
    (destruct servers as [|s ss]; [apply keeps_ret|]); [apply keeps_fuel|].
  cbn [query_loop]. apply keeps_bind; [apply keeps_lift|]. intros [p|]; [|apply keeps_ret].
  destruct (bool_decide _); [apply keeps_ret|].
  apply keeps_bind.
  { intros c. simpl. eapply R_trans; [apply R_cache_records|].
    eapply R_trans; apply R_cache_records. }
  intros _. destruct (0 <? ancount (header p)); [apply keeps_ret|].
  apply keeps_bind; [apply keeps_lift|]. intros [|n ns]; [apply keeps_ret|].
  apply keeps_bind; [apply keeps_cached_servers|]. intros [|x xs]; [|apply IH].
  apply keeps_bind; [apply keeps_resolve_ns, Hrec|]. intros servers'. apply IH.
Qed.

Lemma keeps_recursive_query net now root depth fuel fqdn qt limit count :
  keeps (recursive_query net now root depth fuel fqdn qt limit count).
Proof.
  revert fqdn qt count. induction depth as [|depth IH]; intros fqdn qt count;
    [apply keeps_fuel|].
  cbn [recursive_query]. destruct (limit <=? count); [apply keeps_ret|].
  apply keeps_bind; [apply keeps_lift|]. intros fq.
  apply keeps_bind; [apply keeps_gets|]. intros [[|r rs]|]; [| apply keeps_ret|];
    (apply keeps_bind; [apply keeps_initial; intros ns; apply IH|];
     intros servers; apply keeps_query_loop; intros ns; apply IH).
Qed.

End CacheRelation.

(** recursive_query only adds to the cache: every list cached before the call is
    a prefix of the list under the same name and type afterwards, whatever the
    outcome. *)
Theorem recursive_query_cache_grows net now root depth fuel fqdn qt limit count (c : cache) :
  cache_le c (snd (recursive_query net now root depth fuel fqdn qt limit count c)).
Proof.
  apply (keeps_recursive_query cache_le cache_le_refl cache_le_trans cache_records_le).
Qed.

(** recursive_query keeps the cache well-formed. *)
Theorem recursive_query_keeps_wf net now root depth fuel fqdn qt limit count (c : cache) :
  wf_cache c -> wf_cache (snd (recursive_query net now root depth fuel fqdn qt limit count c)).
Proof.
  apply (keeps_recursive_query (fun c c' => wf_cache c -> wf_cache c')); auto.
  intros c0 rs. apply cache_records_wf.
Qed.

Lemma mbindM_ret_inv {A B} (m : M A) (k : A -> M B) (c : cache) (x : B) :
  fst (mbindM m k c) = Ret x -> exists a c', m c = (Ret a, c') /\ fst (k a c') = Ret x.
Proof.
  unfold mbindM. destruct (m c) as [[a| |] c'] eqn:E; simpl; intros H; try discriminate.
  eauto.
Qed.

Lemma send_loop_decoded net now request servers p :
  send_loop net now request servers = Ret (Some p) -> exists buf, packet_fromBytes now buf = Some p.
Proof.
  induction servers as [|[[|ch s]|soa] rest IH]; cbn [send_loop]; try discriminate; auto.
  destruct (net (String ch s) request) as [buf|]; auto.
  destruct (packet_fromBytes now buf) eqn:E; intros H; [|discriminate].
  injection H as ->. eauto.
Qed.

Lemma send_query_decoded net now root fqdn qt servers p :
  send_query net now root fqdn qt servers = Ret (Some p) ->
  exists buf, packet_fromBytes now buf = Some p.
Proof.
  unfold send_query. destruct (packet_toBytes _); [|discriminate].
  destruct servers; [destruct root; discriminate|]. apply send_loop_decoded.
Qed.

Lemma packet_fromBytes_ancount now buf p :
  packet_fromBytes now buf = Some p -> ancount (header p) = Z.of_nat (length (answer_records p)).
Proof.
  unfold packet_fromBytes.
  destruct (header_fromBytes buf); [|discriminate]. simpl.
  destruct (question_fromBytes _ _) as [[qs o]|]; [|discriminate]. simpl.
  destruct (records_loop _ _ _ _) as [[an o1]|]; [|discriminate]. simpl.
  destruct (records_loop _ _ _ _) as [[ns o2]|]; [|discriminate]. simpl.
  destruct (records_loop _ _ _ _) as [[ar o3]|]; [|discriminate]. simpl.
  intros H. injection H as <-. reflexivity.
Qed.

Lemma query_loop_answer net now root rec fqdn qt servers fuel c p :
  fst (query_loop net now root rec fqdn qt servers fuel c) = Ret (Some p) ->
  rcode (header p) = NO_ERROR /\ answer_records p <> [].
Proof.
  revert servers c. induction fuel as [|fuel IH]; intros servers c;
    (destruct servers as [|s ss]; [discriminate|]); [discriminate|].
  cbn [query_loop]. intros H.
  apply mbindM_ret_inv in H as (resp & c1 & E1 & H). unfold mlift in E1.
  injection E1 as E1 <-.
  destruct resp as [p0|]; [|discriminate].
  destruct (bool_decide (rcode (header p0) <> NO_ERROR)) eqn:Ercode; [discriminate|].
  apply bool_decide_eq_false in Ercode.
  apply mbindM_ret_inv in H as (u & c2 & E2 & H). injection E2 as _ <-.
  destruct (0 <? ancount (header p0)) eqn:Ean.
  - injection H as <-. split; [destruct (decide (rcode (header p0) = NO_ERROR)); tauto|].
    destruct (send_query_decoded _ _ _ _ _ _ _ E1) as [buf Hbuf].
    rewrite (packet_fromBytes_ancount _ _ _ Hbuf) in Ean.
    destruct (answer_records p0); [discriminate|congruence].
  - apply mbindM_ret_inv in H as (names & c3 & E3 & H). injection E3 as _ <-.
    destruct names as [|n ns]; [discriminate|].
    apply mbindM_ret_inv in H as (cached & c4 & E4 & H). injection E4 as _ <-.
    destruct cached as [|x xs]; [|exact (IH _ _ H)].
    apply mbindM_ret_inv in H as (servers' & c5 & E5 & H). exact (IH _ _ H).
Qed.

(** A packet that recursive_query returns has rcode NO_ERROR and a non-empty
    answer section. *)
Theorem recursive_query_answer net now root depth fuel fqdn qt limit count c p :
  fst (recursive_query net now root depth fuel fqdn qt limit count c) = Ret (Some p) ->
  rcode (header p) = NO_ERROR /\ answer_records p <> [].
Proof.
  destruct depth as [|depth]; [discriminate|]. cbn [recursive_query].
  destruct (limit <=? count); [discriminate|]. intros H.
  apply mbindM_ret_inv in H as (fq & c1 & E1 & H). injection E1 as _ <-.
  apply mbindM_ret_inv in H as (cached & c2 & E2 & H). injection E2 as _ <-.
  destruct cached as [[|r rs]|].
  - apply mbindM_ret_inv in H as (servers & c3 & E3 & H). exact (query_loop_answer _ _ _ _ _ _ _ _ _ _ H).
  - injection H as <-. split; [reflexivity|discriminate].
  - apply mbindM_ret_inv in H as (servers & c3 & E3 & H). exact (query_loop_answer _ _ _ _ _ _ _ _ _ _ H).
Qed.

Lemma recursive_query_answer_witness :
  fst (recursive_query no_net 0 [] 1 1 (AStr "Example.COM") A 10 0 example_a_cache) =
    Ret (Some (cache_packet [example_a])) /\
  rcode (header (cache_packet [example_a])) = NO_ERROR /\
  answer_records (cache_packet [example_a]) <> [].
Proof.
  assert (H : fst (recursive_query no_net 0 [] 1 1 (AStr "Example.COM") A 10 0 example_a_cache) =
    Ret (Some (cache_packet [example_a]))) by (vm_compute; reflexivity).
  split; [exact H|exact (recursive_query_answer _ _ _ _ _ _ _ _ _ _ _ H)].
Defined.

Lemma send_loop_skip net now request s rest :
  skippable net request s -> send_loop net now request (s :: rest) = send_loop net now request rest.
Proof.
  intros [->|(h & -> & Hn)]; [reflexivity|].
  destruct h as [|ch h]; [reflexivity|]. cbn [send_loop]. rewrite Hn. reflexivity.
Qed.

(** The server loop of send_query passes over empty server strings and servers
    that time out, returns None when all do, and otherwise returns the decoded
    reply of the first server that answers. *)
Theorem send_loop_first_reply net now request skipped :
  Forall (skippable net request) skipped ->
  send_loop net now request skipped = Ret None /\
  forall host rest buf, host <> "" -> net host request = Some buf ->
    send_loop net now request (skipped ++ RStr host :: rest) =
      match packet_fromBytes now buf with Some p => Ret (Some p) | None => Raise end.
Proof.
  induction skipped as [|s skipped IH]; intros Hall.
  - split; [reflexivity|]. intros host rest buf Hh Hn. simpl.
    destruct host as [|ch host]; [congruence|]. cbn [send_loop]. rewrite Hn. reflexivity.
  - inversion Hall as [|? ? Hs Hrest]; subst. destruct (IH Hrest) as [IH1 IH2].
    split; [rewrite send_loop_skip by exact Hs; exact IH1|].
    intros host rest buf Hh Hn. cbn [app]. rewrite send_loop_skip by exact Hs.
    exact (IH2 host rest buf Hh Hn).
Qed.

Lemma send_loop_first_reply_witness :
  Forall (skippable nxdomain_net [0]) [RStr ""; RStr "192.0.2.1"] /\
  send_loop nxdomain_net 0 [0] [RStr ""; RStr "192.0.2.1"] = Ret None.
Proof.
  assert (H : Forall (skippable nxdomain_net [0]) [RStr ""; RStr "192.0.2.1"]).
  { constructor; [left; reflexivity|]. constructor; [|constructor].
    right. exists "192.0.2.1". split; reflexivity. }
  split; [exact H|exact (proj1 (send_loop_first_reply nxdomain_net 0 [0] _ H))].
Defined.

Lemma QTYPE_key_NS (w : string) : QTYPE_key w = Some NS -> w = "ns".
Proof.
  unfold QTYPE_key.
  repeat match goal with |- context [String.eqb w ?s] =>
    destruct (String.eqb_spec w s); [subst; try discriminate; try reflexivity|] end;
  discriminate.
Qed.

Lemma load_lines_inv (P : cache -> Prop) now lines domains c domains' c' :
  (forall c r, P c -> qtype r <> NS -> P (cache_records c [r])) ->
  P c -> load_lines now lines domains c = Some (domains', c') -> P c'.
Proof.
  intros Hstep. revert domains c. induction lines as [|line rest IH]; intros domains c Hc H.
  - injection H as _ <-. exact Hc.
  - cbn [load_lines] in H.
    destruct (starts_with_semicolon line || String.eqb line ""); [exact (IH _ _ Hc H)|].
    destruct (py_split_ws (py_lower line)) as [|r0 [|r1 [|r2 [|r3 [|r4 l]]]]];
      try exact (IH _ _ Hc H).
    destruct (String.eqb_spec r2 "ns") as [Hns|Hns]; [exact (IH _ _ Hc H)|].
    destruct (QTYPE_key r2) as [t|] eqn:Et; [|discriminate]. simpl in H.
    destruct (py_int r1) as [tl|]; [|discriminate]. simpl in H.
    assert (Ht : t <> NS) by (intros ->; exact (Hns (QTYPE_key_NS _ Et))).
    exact (IH _ _ (Hstep _ (mkRecord r0 t tl (RStr r3) IN now) Hc Ht) H).
Qed.



Lemma root_servers_types (c : cache) domains v4 v6 r4 r6 :
  wf_cache c ->
  Forall (fun r => qtype r = A) v4 -> Forall (fun r => qtype r = AAAA) v6 ->
  root_servers c domains v4 v6 = Some (r4, r6) ->
  Forall (fun r => qtype r = A) r4 /\ Forall (fun r => qtype r = AAAA) r6.
Proof.
  intros Hc. revert v4 v6. induction domains as [|d rest IH]; intros v4 v6 H4 H6 H.
  - injection H as <- <-. tauto.
  - cbn [root_servers] in H.
    destruct (check_cache c d A) as [a|] eqn:Ea; [|discriminate]. simpl in H.
    destruct (check_cache c d AAAA) as [b|] eqn:Eb; [|discriminate]. simpl in H.
    rewrite check_cache_lookup in Ea, Eb.
    destruct (Hc _ _ _ Ea) as (_ & Ha & _). destruct (Hc _ _ _ Eb) as (_ & Hb & _).
    apply (IH _ _ ltac:(apply Forall_app; split; [exact H4|]; eapply Forall_impl; [exact Ha|]; intros ? [_ ?]; assumption)
                 ltac:(apply Forall_app; split; [exact H6|]; eapply Forall_impl; [exact Hb|]; intros ? [_ ?]; assumption) H).
Qed.


(** After DNSResolver.__init__, the IPv4 root list holds only A records, the
    IPv6 root list only AAAA records, and the cache is well-formed. *)
Theorem DNSResolver_init_root_types now lines v4 v6 c :
  DNSResolver_init now lines = Some (v4, v6, c) ->
  Forall (fun r => qtype r = A) v4 /\ Forall (fun r => qtype r = AAAA) v6 /\ wf_cache c.
Proof.
  unfold DNSResolver_init.
  destruct (load_lines now lines [] ∅) as [[domains c0]|] eqn:E; [|discriminate]. simpl.
  destruct (root_servers c0 domains [] []) as [[a b]|] eqn:Er; [|discriminate]. simpl.
  intros H. injection H as <- <- <-.
  assert (Hwf : wf_cache c0).
  { apply (load_lines_inv wf_cache now lines [] ∅ domains c0); [|exact wf_cache_empty|exact E].
    intros c1 r Hc1 _. exact (cache_records_wf _ _ Hc1). }
  destruct (root_servers_types _ _ _ _ _ _ Hwf (Forall_nil_2 _) (Forall_nil_2 _) Er). tauto.
Qed.


Lemma DNSResolver_init_root_types_witness :
  exists v4 v6 c, DNSResolver_init 0 named_root_sample = Some (v4, v6, c) /\
    Forall (fun r => qtype r = A) v4 /\ Forall (fun r => qtype r = AAAA) v6 /\ wf_cache c.
Proof.
  destruct (DNSResolver_init 0 named_root_sample) as [[[v4 v6] c]|] eqn:E;
    [|vm_compute in E; discriminate].
  exists v4, v6, c. split; [reflexivity|].
  exact (DNSResolver_init_root_types 0 named_root_sample v4 v6 c E).
Defined.

Lemma sample_ok :
  DNSResolver_init 0 named_root_sample =
    Some ([mkRecord "a.root-servers.net." A 3600000 (RStr "198.41.0.4") IN 0],
          [mkRecord "a.root-servers.net." AAAA 3600000 (RStr "2001:503:ba3e::2:30") IN 0],
          cache_records (cache_records ∅
            [mkRecord "a.root-servers.net." A 3600000 (RStr "198.41.0.4") IN 0])
            [mkRecord "a.root-servers.net." AAAA 3600000 (RStr "2001:503:ba3e::2:30") IN 0]).
Proof. vm_compute. reflexivity. Qed.

Lemma question_codec_roundtrip_witness :
  Forall wf_question [example_question] /\
  exists enc, concat_toBytes question_toBytes [example_question] = Some enc /\
    forall data post, skipn 12 data = (enc ++ post)%list ->
      question_fromBytes data (length [example_question]) =
        Some ([example_question], (12 + length enc)%nat).
Proof.
  assert (H : Forall wf_question [example_question]).
  { constructor; [|constructor]. exists ["example"; "com"]. split; [discriminate|].
    split; [repeat constructor|split; [reflexivity|simpl; lia]]. }
  split; [exact H|exact (question_codec_roundtrip _ H)].
Defined.

Lemma record_codec_roundtrip_witness :
  Forall wf_record [example_ns] /\
  exists enc, concat_toBytes record_toBytes [example_ns] = Some enc /\
    forall data off post, skipn off data = (enc ++ post)%list ->
      records_loop 7 data (length [example_ns]) off =
        Some (map (with_time 7) [example_ns], (off + length enc)%nat) /\
      list_eqb record_eqb (map (with_time 7) [example_ns]) [example_ns] = true.
Proof.
  assert (H : Forall wf_record [example_ns]).
  { constructor; [|constructor]. split; [left; reflexivity|]. split.
    - exists ["example"; "com"]. split; [discriminate|].
      split; [repeat constructor|split; [reflexivity|simpl; lia]].
    - split; [|simpl; lia]. exists "a.iana-servers.net.". split; [reflexivity|].
      exists ["a"; "iana-servers"; "net"]. split; [discriminate|].
      split; [repeat constructor|split; [reflexivity|simpl; lia]]. }
  split; [exact H|exact (record_codec_roundtrip 7 _ H)].
Defined.

Lemma cache_records_lookup_witness :
  In example_a [root_a; example_a] /\
  exists l, check_cache (cache_records root_ns_cache [root_a; example_a]) (name example_a) (qtype example_a) = Some l /\
    existsb (record_eqb example_a) l = true.
Proof.
  assert (H : In example_a [root_a; example_a]) by (right; left; reflexivity).
  split; [exact H|exact (cache_records_lookup root_ns_cache _ _ H)].
Defined.

Lemma cache_records_other_keys_witness :
  Forall (fun r => sanitize_domain (name r) <> sanitize_domain "Example.COM" \/ qtype r <> NS)
    [root_a; example_a] /\
  check_cache (cache_records root_ns_cache [root_a; example_a]) "Example.COM" NS =
    check_cache root_ns_cache "Example.COM" NS.
Proof.
  assert (H : Forall (fun r => sanitize_domain (name r) <> sanitize_domain "Example.COM" \/ qtype r <> NS)
    [root_a; example_a]) by (constructor; [right; discriminate|constructor; [right; discriminate|constructor]]).
  split; [exact H|exact (cache_records_other_keys root_ns_cache _ _ _ H)].
Defined.

Lemma cache_records_keeps_wf_witness :
  wf_cache root_ns_cache /\ wf_cache (cache_records root_ns_cache [root_a; example_a; root_a]).
Proof.
  assert (H : wf_cache root_ns_cache) by exact (cache_records_wf _ _ wf_cache_empty).
  split; [exact H|exact (cache_records_keeps_wf _ _ H)].
Defined.

Lemma recursive_query_keeps_wf_witness :
  wf_cache root_ns_cache /\
  wf_cache (snd (recursive_query nxdomain_net 0 [root_a] 3 3 (AStr "example.com") A 10 0 root_ns_cache)).
Proof.
  assert (H : wf_cache root_ns_cache) by exact (cache_records_wf _ _ wf_cache_empty).
  split; [exact H|exact (recursive_query_keeps_wf _ _ _ _ _ _ _ _ _ _ H)].
Defined.

(* ------------------------------------------------------------------ *)
(** ** The public methods with any argument (C8) *)

Lemma send_query_py_enum net now root fqdn t servers :
  send_query_py net now root fqdn (QEnum t) servers RD_NO_RECURSION = send_query net now root fqdn t servers.
Proof. reflexivity. Qed.

Lemma query_loop_py_enum net now root rec fqdn t servers fuel c :
  query_loop_py net now root rec fqdn (QEnum t) servers fuel c = query_loop net now root rec fqdn t servers fuel c.
Proof.
  revert servers c. induction fuel as [|fuel IH]; intros servers c;
    destruct servers as [|s ss]; try reflexivity.
  cbn [query_loop_py query_loop]. rewrite send_query_py_enum.
  apply mbindM_ext; [reflexivity|]. intros [p|] c1; [|reflexivity].
  destruct (bool_decide _); [reflexivity|].
  apply mbindM_ext; [reflexivity|]. intros _ c2.
  destruct (0 <? ancount (header p)); [reflexivity|].
  apply mbindM_ext; [reflexivity|]. intros [|n ns] c3; [reflexivity|].
  apply mbindM_ext; [reflexivity|]. intros [|x xs] c4; [|apply IH].
  apply mbindM_ext; [reflexivity|]. intros servers' c5. apply IH.
Qed.

Lemma recursive_query_py_enum net now root depth fuel fqdn t limit count c :
  recursive_query_py net now root depth fuel fqdn (QEnum t) limit count c =
    recursive_query net now root depth fuel fqdn t limit count c.
Proof.
  destruct depth as [|depth]; [reflexivity|]. cbn [recursive_query_py recursive_query].
  destruct (limit <=? count); [reflexivity|].
  apply mbindM_ext; [reflexivity|]. intros fq c1.
  apply mbindM_ext; [reflexivity|]. intros cached c2.
  destruct cached as [[|r rs]|]; try reflexivity;
    (apply mbindM_ext; [reflexivity|]; intros servers c3; apply query_loop_py_enum).
Qed.

Lemma str_split_nonempty (sep : ascii) (s : string) : str_split sep s <> [].
Proof.
  destruct s as [|c s]; [discriminate|]. cbn [str_split].
  destruct (Ascii.eqb c sep); [discriminate|]. destruct (str_split sep s); discriminate.
Qed.

Lemma str_split_length_app (sep : ascii) (a b : string) :
  (length (str_split sep a) <= length (str_split sep (String.append a b)))%nat.
Proof.
  induction a as [|c a IH].
  - change (String.append "" b) with b. cbn [str_split]. pose proof (str_split_nonempty sep b). destruct (str_split sep b); [congruence|simpl; lia].
  - rewrite str_app_cons. cbn [str_split].
    destruct (Ascii.eqb c sep); [simpl; lia|].
    destruct (str_split sep a) as [|h t] eqn:Ea; [exfalso; exact (str_split_nonempty sep a Ea)|].
    destruct (str_split sep (String.append a b)) as [|h' t'] eqn:Eb;
      [exfalso; exact (str_split_nonempty sep _ Eb)|]. simpl in *. lia.
Qed.

Lemma str_partition_prefix (sep : ascii) (s addr after : string) (found : bool) :
  str_partition sep s = (addr, found, after) -> exists rest, s = String.append addr rest.
Proof.
  revert addr. induction s as [|c s IH]; intros addr; cbn [str_partition].
  - intros [= <- _ _]. exists "". reflexivity.
  - destruct (Ascii.eqb c sep).
    + intros [= <- _ _]. exists (String c s). reflexivity.
    + destruct (str_partition sep s) as [[b f] a] eqn:E. intros [= <- <- <-].
      destruct (IH b eq_refl) as [rest ->]. exists rest. reflexivity.
Qed.

Lemma split_scope_prefix (s addr : string) (scope : option string) :
  _split_scope_id s = Some (addr, scope) -> exists rest, s = String.append addr rest.
Proof.
  unfold _split_scope_id. destruct (str_partition "%" s) as [[a f] sc] eqn:E.
  pose proof (str_partition_prefix _ _ _ _ _ E) as Hp.
  destruct f; simpl; [destruct (String.eqb sc "" || str_has "%" sc); [discriminate|]|];
    intros [= <- _]; exact Hp.
Qed.

(** A literal with fewer than two colons is not an IPv6 address *)
Lemma IPv6Address_few_colons (s : string) :
  (length (str_split ":" s) < 3)%nat -> IPv6Address s = None.
Proof.
  intros Hs. unfold IPv6Address. destruct (str_has "/" s); [reflexivity|].
  destruct (_split_scope_id s) as [[addr scope]|] eqn:E; [|reflexivity]. simpl.
  destruct (split_scope_prefix _ _ _ E) as [rest Hr].
  pose proof (str_split_length_app ":" addr rest) as Hl. rewrite <- Hr in Hl.
  unfold v6_ip_int_from_string. destruct (String.eqb addr ""); [reflexivity|].
  replace ((length (str_split ":" addr) <? 3)%nat) with true by (symmetry; apply Nat.ltb_lt; lia).
  reflexivity.
Qed.

Lemma str_split_nodot' (p : string) : str_has "." p = false -> str_split "." p = [p].
Proof.
  induction p as [|c p IH]; intros H; [reflexivity|].
  simpl in H. apply orb_false_iff in H as [Hc H]. cbn [str_split]. rewrite Hc, (IH H). reflexivity.
Qed.

Lemma str_split_label' (p t : string) :
  str_has "." p = false -> str_split "." (String.append p (String "." t)) = p :: str_split "." t.
Proof.
  induction p as [|c p IH]; intros H; [reflexivity|].
  simpl in H. apply orb_false_iff in H as [Hc H]. rewrite str_app_cons. cbn [str_split].
  rewrite Hc, (IH H). reflexivity.
Qed.

Lemma str_split_join_nodot (parts : list string) :
  Forall (fun p => str_has "." p = false) parts -> parts <> [] ->
  str_split "." (str_join "." parts) = parts.
Proof.
  induction parts as [|p [|q rest] IH]; intros Hall Hne; [congruence| |].
  - inversion Hall as [|? ? Hp _]; subst. exact (str_split_nodot' _ Hp).
  - inversion Hall as [|? ? Hp Hrest]; subst.
    change (str_join "." (p :: q :: rest))
      with (String.append p (String "." (str_join "." (q :: rest)))).
    rewrite (str_split_label' _ _ Hp), IH by (exact Hrest || discriminate). reflexivity.
Qed.

Lemma query_loop_py_str net now root rec fqdn s servers fuel c p :
  fst (query_loop_py net now root rec fqdn (QStr s) servers fuel c) <> Ret (Some p).
Proof.
  destruct fuel as [|fuel], servers as [|sv svs]; intros H; simpl in H; discriminate.
Qed.

(** C8 (amended). The resolver does not validate its input, and malformed
    input is not turned into [None]. The empty name sanitizes to "." and is
    resolved exactly as the root name. A [qtype] given as a [str] never hits
    the cache, makes [send_query] raise (AttributeError in
    [DNSQuestion.toBytes], whatever the servers and [rd]), and
    [recursive_query] never returns a packet for it. [reverse_lookup_v6]
    raises, with the cache unchanged, on every string [IPv6Address] rejects
    (AddressValueError), among them every string with fewer than two colons.
    [reverse_lookup_v4] checks nothing: the dot-separated parts, whatever they
    are, are reversed and queried as PTR under in-addr.arpa. *)
Theorem malformed_input_not_rejected net now root depth fuel qt limit count c :
  (sanitize_domain "" = "." /\
   recursive_query net now root depth fuel (AStr "") qt limit count c
     = recursive_query net now root depth fuel (AStr ".") qt limit count c) /\
  (forall fqdn s servers rd_flag, send_query_py net now root fqdn (QStr s) servers rd_flag = Raise) /\
  (forall fqdn s p,
     fst (recursive_query_py net now root depth fuel fqdn (QStr s) limit count c) <> Ret (Some p)) /\
  (forall ipv6, IPv6Address ipv6 = None ->
     reverse_lookup_v6 net now root depth fuel ipv6 c = (Raise, c)) /\
  (forall ipv6, (length (str_split ":" ipv6) < 3)%nat -> IPv6Address ipv6 = None) /\
  (forall parts, Forall (fun p => str_has "." p = false) parts -> parts <> [] ->
     reverse_lookup_v4 net now root depth fuel (str_join "." parts) c
       = recursive_query net now root depth fuel
           (AStr (String.append (str_join "." (rev parts)) ".in-addr.arpa")) PTR 10 0 c).
Proof.
  split; [split; [reflexivity|destruct depth; reflexivity]|].
  split; [reflexivity|].
  split.
  { intros fqdn s p. destruct depth as [|depth]; [discriminate|].
    cbn [recursive_query_py]. destruct (limit <=? count); [discriminate|].
    intros H. apply mbindM_ret_inv in H as (fq & c1 & _ & H).
    apply mbindM_ret_inv in H as (cached & c2 & Hc & H).
    unfold mgets in Hc. injection Hc as <- <-. cbn [check_cache_py] in H.
    apply mbindM_ret_inv in H as (servers & c3 & _ & H).
    exact (query_loop_py_str _ _ _ _ _ _ _ _ _ _ H). }
  split.
  { intros ipv6 H. unfold reverse_lookup_v6, mbindM, mlift. rewrite H. reflexivity. }
  split; [exact IPv6Address_few_colons|].
  intros parts Hall Hne. unfold reverse_lookup_v4. rewrite (str_split_join_nodot _ Hall Hne).
  reflexivity.
Qed.

(** C8 (counterexample). None of these malformed inputs gives [None]: with
    the root NS record cached the empty name returns a packet; the qtype
    string "MX" (main.py option 4) raises; the IPv4 literal "192.0.2.1" given
    to reverse_lookup_v6 raises; and reverse_lookup_v4 of "not-an-ip" returns
    the cached PTR record of not-an-ip.in-addr.arpa. *)
Lemma malformed_input_accepted :
  recursive_query no_net 0 [] 1 1 (AStr "") NS 10 0 root_ns_cache
    = (Ret (Some (cache_packet [root_ns])), root_ns_cache) /\
  recursive_query_py no_net 0 [root_a] 1 1 (AStr "example.com") (QStr "MX") 10 0 ∅ = (Raise, ∅) /\
  reverse_lookup_v6 no_net 0 [] 1 1 "192.0.2.1" ∅ = (Raise, ∅) /\
  reverse_lookup_v4 no_net 0 [] 1 1 "not-an-ip" ptr4_cache
    = (Ret (Some (cache_packet [ptr4])), ptr4_cache).
Proof. vm_compute. repeat split; reflexivity. Qed.

(* ------------------------------------------------------------------ *)
(** ** _nameToBytes on any string, send_query with its rd parameter *)

Lemma parts_toBytes_some (parts : list string) (enc : list Z) :
  parts_toBytes parts = Some enc -> enc = labels_bytes parts.
Proof.
  revert enc. induction parts as [|p ps IH]; intros enc H; cbn [parts_toBytes] in H.
  - injection H as <-. reflexivity.
  - rewrite to_bytes1_len in H. destruct (String.length p <? 256)%nat; [|discriminate].
    simpl in H. destruct (parts_toBytes ps) as [rest|] eqn:E; [|discriminate].
    simpl in H. injection H as <-. rewrite (IH rest eq_refl), labels_bytes_cons. reflexivity.
Qed.

Lemma str_split_last_nonempty (s : string) :
  s <> "" -> (forall pre, s <> String.append pre ".") ->
  List.last (str_split "." s) "" <> "".
Proof.
  induction s as [|c s IH]; intros Hne Hend; [congruence|].
  cbn [str_split]. destruct (Ascii.eqb_spec c ".") as [->|Hc].
  - destruct s as [|c' s'].
    + exfalso. apply (Hend ""). reflexivity.
    + assert (Hs : String c' s' <> "") by discriminate.
      assert (He : forall pre, String c' s' <> String.append pre ".").
      { intros pre E. apply (Hend (String "." pre)). rewrite str_app_cons, <- E. reflexivity. }
      specialize (IH Hs He).
      destruct (str_split "." (String c' s')) as [|h t] eqn:E;
        [exact (False_rect _ (str_split_nonempty "." _ E))|].
      exact IH.
  - destruct s as [|c' s'].
    + cbn. discriminate.
    + assert (Hs : String c' s' <> "") by discriminate.
      assert (He : forall pre, String c' s' <> String.append pre ".").
      { intros pre E. apply (Hend (String c pre)). rewrite str_app_cons, <- E. reflexivity. }
      specialize (IH Hs He).
      destruct (str_split "." (String c' s')) as [|h t] eqn:E;
        [exact (False_rect _ (str_split_nonempty "." _ E))|].
      destruct t as [|h' t']; [cbn; discriminate|]. exact IH.
Qed.

(** _nameToBytes of a name that does not end in a dot, when it succeeds,
    emits each dot-separated part with its length byte, and the last part of
    a non-empty such name is non-empty: no terminating zero byte is added. *)
Theorem nameToBytes_no_trailing_dot (s : string) (enc : list Z) :
  (forall pre, s <> String.append pre ".") ->
  _nameToBytes s = Some enc ->
  enc = labels_bytes (str_split "." s) /\ (s <> "" -> List.last (str_split "." s) "" <> "").
Proof.
  intros Hend H. split; [exact (parts_toBytes_some _ _ H)|].
  intros Hne. exact (str_split_last_nonempty s Hne Hend).
Qed.

Lemma nameToBytes_no_trailing_dot_witness :
  (forall pre, "www.example.com" <> String.append pre ".") /\
  _nameToBytes "www.example.com" = Some (labels_bytes ["www"; "example"; "com"]) /\
  labels_bytes ["www"; "example"; "com"] = labels_bytes (str_split "." "www.example.com") /\
  ("www.example.com" <> "" -> List.last (str_split "." "www.example.com") "" <> "").
Proof.
  assert (Hend : forall pre, "www.example.com" <> String.append pre ".").
  { intros pre E.
    repeat (destruct pre as [|? pre];
      [change (String.append "" ".") with "." in E; discriminate E
      |rewrite str_app_cons in E; injection E as _ E]).
    destruct pre; [change (String.append "" ".") with "." in E|rewrite str_app_cons in E];
      discriminate E.
  }
  assert (Henc : _nameToBytes "www.example.com" = Some (labels_bytes ["www"; "example"; "com"]))
    by (vm_compute; reflexivity).
  split; [exact Hend|split; [exact Henc|]].
  exact (nameToBytes_no_trailing_dot _ _ Hend Henc).
Defined.


(** For a well-formed sanitized name, a QTYPE member, any [rd] and a non-empty
    server list, send_query sends every server the same request: its header
    decodes as a query with id 0, the given RD flag, no other flag, rcode
    NO_ERROR and one question, and its question section decodes as the
    sanitized name with the requested type and class IN. *)
Theorem send_query_request net now root fqdn t servers rd_flag :
  wf_name (sanitize_domain fqdn) -> servers <> [] ->
  exists request,
    send_query_py net now root fqdn (QEnum t) servers rd_flag = send_loop net now request servers /\
    header_fromBytes request =
      Some (mkHeader 0 QR_QUERY OPCODE_QUERY AA_NOT_AUTHORITATIVE TC_NOT_TRUNCATED
              rd_flag RA_NO_RECURSION_AVAILABLE Z_RESERVED AD_NOT_AUTHENTICATED
              CD_NO_CHECK NO_ERROR 1 0 0 0) /\
    question_fromBytes request 1 =
      Some ([mkQuestion (sanitize_domain fqdn) t IN], length request).
Proof.
  intros Hwf Hne.
  set (q := mkQuestion (sanitize_domain fqdn) t IN).
  assert (Hq : Forall wf_question [q]) by (constructor; [exact Hwf|constructor]).
  destruct (questions_loop_wf [] [q] Hq) as (enc & Henc & _).
  set (h1 := header (DNSPacket_new (header_rd rd_flag) [q] [] [] [])).
  assert (Hc : header_counts_u16 h1) by (unfold header_counts_u16, u16; simpl; lia).
  destruct (header_decode_encode h1 enc Hc) as (hb & Hhb & Hlen & _ & Hdec).
  exists (hb ++ enc)%list.
  assert (Hp : request_toBytes rd_flag (sanitize_domain fqdn) (QEnum t) = Some (hb ++ enc)%list).
  { unfold request_toBytes. cbv iota. unfold packet_toBytes. fold q.
    change (header (DNSPacket_new (header_rd rd_flag) [q] [] [] [])) with h1.
    rewrite Hhb. simpl. change (question_toBytes q ≫= _) with (concat_toBytes question_toBytes [q]).
    rewrite Henc. simpl. by rewrite !app_nil_r. }
  split; [|split].
  - unfold send_query_py. rewrite Hp. destruct servers; [congruence|reflexivity].
  - rewrite Hdec. reflexivity.
  - destruct (questions_loop_wf (hb ++ enc)%list [q] Hq) as (enc' & Henc' & Hd).
    rewrite Henc in Henc'. injection Henc' as <-.
    assert (Hs : skipn 12 (hb ++ enc)%list = (enc ++ [])%list)
      by (rewrite app_nil_r, <- Hlen; apply drop_app_length).
    specialize (Hd 12%nat [] Hs). simpl length in Hd.
    unfold question_fromBytes. rewrite Hd, length_app, Hlen. reflexivity.
Qed.

Lemma send_query_request_witness :
  wf_name (sanitize_domain "Example.COM") /\ [RStr "198.41.0.4"] <> [] /\
  exists request,
    send_query_py no_net 0 [root_a] "Example.COM" (QEnum AAAA) [RStr "198.41.0.4"] RD_RECURSION =
      send_loop no_net 0 request [RStr "198.41.0.4"] /\
    header_fromBytes request =
      Some (mkHeader 0 QR_QUERY OPCODE_QUERY AA_NOT_AUTHORITATIVE TC_NOT_TRUNCATED
              RD_RECURSION RA_NO_RECURSION_AVAILABLE Z_RESERVED AD_NOT_AUTHENTICATED
              CD_NO_CHECK NO_ERROR 1 0 0 0) /\
    question_fromBytes request 1 =
      Some ([mkQuestion (sanitize_domain "Example.COM") AAAA IN], length request).
Proof.
  assert (H1 : wf_name (sanitize_domain "Example.COM")).
  { exists ["example"; "com"]. split; [discriminate|].
    split; [repeat constructor|split; [vm_compute; reflexivity|vm_compute; lia]]. }
  assert (H2 : [RStr "198.41.0.4"] <> []) by discriminate.
  split; [exact H1|split; [exact H2|exact (send_query_request _ _ _ _ _ _ _ H1 H2)]].
Defined.
